(** * Whispera: the chunked transcription pipeline and the ffmpeg locator

    A shallow embedding of [src/back/constants.py], [src/back/utils.py]
    ([check_ffmpeg], [configure_pydub]) and [src/back/transcription.py]
    ([TranscriptionAssistant]) together with the properties the
    specification states about them.

    Python values are modelled as follows: [int] as [Z] (sizes and
    durations, which are never negative, as [N] where they enter the
    program), [float] as IEEE 754 binary64 through [SpecFloat], [str] as
    [string], [os.environ] as a [gmap string string], the file system as
    a map from the paths of regular files to their sizes plus a set of
    directories.  Code that raises is modelled in a state-and-exception
    monad over the [world] record. *)

From Stdlib Require Import ZArith NArith Lia Bool Ascii SpecFloat.
From Stdlib Require String.
From stdpp Require Import gmap strings list pretty.

Local Open Scope Z_scope.

(** ** Python built-ins the code relies on *)

Module Py.

(** [s.startswith(p)] *)
Definition startswith (s p : string) : bool := String.prefix p s.

(** [s.endswith(p)] *)
Definition endswith (s p : string) : bool :=
  String.prefix (String.rev p) (String.rev s).

(** [needle in s] on strings *)
Fixpoint contains (needle s : string) : bool :=
  String.prefix needle s ||
  match s with
  | EmptyString => false
  | String _ s' => contains needle s'
  end.

(** One character of [str.lower()], on the ASCII range. *)
Definition lower_ascii (c : ascii) : ascii :=
  let n := nat_of_ascii c in
  if ((65 <=? n) && (n <=? 90))%nat then ascii_of_nat (n + 32) else c.

(** [s.lower()] *)
Fixpoint lower (s : string) : string :=
  match s with
  | EmptyString => EmptyString
  | String c s' => String (lower_ascii c) (lower s')
  end.

Fixpoint lstrip (s : string) : string :=
  match s with
  | String c s' => if Ascii.is_space c then lstrip s' else s
  | EmptyString => EmptyString
  end.

(** [s.strip()] *)
Definition strip (s : string) : string :=
  String.rev (lstrip (String.rev (lstrip s))).

(** [s.replace(a, b)] for single characters *)
Fixpoint replace (a b : ascii) (s : string) : string :=
  match s with
  | EmptyString => EmptyString
  | String c s' => String (if decide (c = a) then b else c) (replace a b s')
  end.

(** [s[:-n]] *)
Definition drop_last (n : nat) (s : string) : string :=
  String.substring 0 (String.length s - n) s.

(** [sep.join(l)] *)
Definition join (sep : string) (l : list string) : string :=
  String.concat sep l.

(** [any(p(x) for x in l)] *)
Definition any {A} (p : A → bool) (l : list A) : bool := existsb p l.

(** Truth value of a [str] *)
Definition truthy (s : string) : bool := negb (bool_decide (s = "")).

(** [str(n)] and [f"{n}"] for an integer *)
Definition str (n : Z) : string := pretty n.

(** *** Floats: IEEE 754 binary64, round to nearest even *)

Definition prec : Z := 53.
Definition emax : Z := 1024.

Definition float := spec_float.

(** [float(z)]; exact for |z| < 2^53, correctly rounded beyond. *)
Definition of_int (z : Z) : float :=
  match z with
  | Z0 => S754_zero false
  | Zpos p => binary_normalize prec emax (Zpos p) 0 false
  | Zneg p => binary_normalize prec emax (Zpos p) 0 true
  end.

Definition fdiv (x y : float) : float := SFdiv prec emax x y.
Definition fmul (x y : float) : float := SFmul prec emax x y.

(** [a / b] on two ints.  CPython rounds the exact quotient once; for
    operands below 2^53 in absolute value (every byte count and
    millisecond count met here) that is the quotient of the two
    conversions. *)
Definition truediv (a b : Z) : float := fdiv (of_int a) (of_int b).

(** [x > 0] *)
Definition gt0 (x : float) : bool := SFltb (S754_zero false) x.

(** Result of a computation that may raise: the value, or the text
    [str(e)] of the exception. *)
Inductive outcome (A : Type) : Type :=
| Ret (a : A)
| Raise (msg : string).
Global Arguments Ret {A} a.
Global Arguments Raise {A} msg.

(** [int(x)]: truncation towards zero; raises on infinities and NaN. *)
Definition int (x : float) : outcome Z :=
  match x with
  | S754_zero _ => Ret 0
  | S754_finite s m e =>
      let a := if 0 <=? e then Z.pos m * 2 ^ e else Z.pos m / 2 ^ (- e) in
      Ret (if s then - a else a)
  | S754_infinity _ => Raise "cannot convert float infinity to integer"
  | S754_nan => Raise "cannot convert float NaN to integer"
  end.

End Py.

Export Py (outcome(..)).

(** ** [constants.py] *)

Definition AUDIO_MODEL : string := "whisper-1".

Definition SUPPORTED_FORMATS : list string :=
  [".mp3"; ".mp4"; ".mpeg"; ".mpga"; ".m4a"; ".wav"; ".webm"].

Definition MAX_FILE_SIZE_MB : Z := 25.
Definition MAX_FILE_SIZE_BYTES : Z := MAX_FILE_SIZE_MB * 1024 * 1024.
Definition CHUNK_SIZE_MB : Z := 20.

Definition AUDIO_BITRATE_HIGH : string := "128k".
Definition AUDIO_BITRATE_LOW : string := "64k".

(** The literal [0.9]: the double nearest to nine tenths. *)
Definition CHUNK_SIZE_SAFETY_FACTOR : Py.float :=
  S754_finite false 8106479329266893 (-53).

Definition PROGRESS_SPLITTING : string := "File is large, splitting into chunks...".
Definition PROGRESS_TRANSCRIBING : string := "Transcribing audio...".
Definition PROGRESS_COMBINING : string := "Combining transcriptions...".
Definition PROGRESS_COMPLETE : string := "Complete!".

(** ** The split plan of [_split_audio_file] (lines 119-136)

    The arithmetic of the plan is pure; it is named here after the
    variables of the source and used, in the same order, by
    [_split_audio_file] below. *)

(** [bytes_per_ms = file_size / duration_ms if duration_ms > 0 else 0] *)
Definition bytes_per_ms (file_size duration_ms : Z) : Py.float :=
  if 0 <? duration_ms then Py.truediv file_size duration_ms else S754_zero false.

(** [int((max_size / bytes_per_ms) * CHUNK_SIZE_SAFETY_FACTOR) if bytes_per_ms > 0 else duration_ms] *)
Definition target_chunk_duration_ms (max_size : Z) (bpm : Py.float) (duration_ms : Z)
  : outcome Z :=
  if Py.gt0 bpm
  then Py.int (Py.fmul (Py.fdiv (Py.of_int max_size) bpm) CHUNK_SIZE_SAFETY_FACTOR)
  else Ret duration_ms.

(** [if chunk_duration_ms <= 0: chunk_duration_ms = duration_ms // 2] *)
Definition fallback_chunk_duration_ms (chunk_duration_ms duration_ms : Z) : Z :=
  if chunk_duration_ms <=? 0 then duration_ms / 2 else chunk_duration_ms.

(** The value of [chunk_duration_ms] when line 127 is reached. *)
Definition chunk_duration_ms (file_size max_size duration_ms : Z) : outcome Z :=
  match target_chunk_duration_ms max_size (bytes_per_ms file_size duration_ms) duration_ms with
  | Ret t => Ret (fallback_chunk_duration_ms t duration_ms)
  | Raise e => Raise e
  end.

(** [(duration_ms // chunk_duration_ms) + (1 if duration_ms % chunk_duration_ms > 0 else 0)];
    [//] and [%] raise [ZeroDivisionError] on a zero divisor. *)
Definition num_chunks (duration_ms chunk_duration_ms : Z) : outcome Z :=
  if chunk_duration_ms =? 0
  then Raise "integer division or modulo by zero"
  else Ret (duration_ms / chunk_duration_ms
            + (if 0 <? duration_ms mod chunk_duration_ms then 1 else 0)).

(** [start_ms = i * chunk_duration_ms] *)
Definition start_ms (chunk_duration_ms : Z) (i : nat) : Z :=
  Z.of_nat i * chunk_duration_ms.

(** [end_ms = min((i + 1) * chunk_duration_ms, duration_ms)] *)
Definition end_ms (chunk_duration_ms duration_ms : Z) (i : nat) : Z :=
  Z.min ((Z.of_nat i + 1) * chunk_duration_ms) duration_ms.

(** [range(n)] *)
Definition range (n : Z) : list nat := seq 0 (Z.to_nat n).

(** ** The process state *)

(** One [chunk.export(chunk_path, format="mp3", bitrate=...)] call. *)
Record export_call := ExportCall {
  ex_path : string;
  ex_start : Z;
  ex_end : Z;
  ex_bitrate : string;
}.

(** The file system - the regular files with their sizes, the
    directories, the regular files the process cannot open for reading
    (no permission, locked by another process) and the paths it cannot
    remove (no permission on the directory above, a file in use) -, the
    environment and the three attributes of pydub's [AudioSegment] class
    the code assigns, followed by what an observer sees of a run: the
    exports made, the calls made to the remote client with what each
    answered, the [(message, percent)] pairs handed to the progress
    callback, and the arguments of the calls to [_split_audio_file]. *)
Record world := World {
  files : gmap string N;
  dirs : gset string;
  unreadable : gset string;
  undeletable : gset string;
  environ : gmap string string;
  converter : string;
  ffprobe : string;
  ffmpeg : string;
  exports : list export_call;
  remote_calls : list (string * outcome string);
  progress : list (string * Z);
  split_calls : list string;
}.

Definition set_files (f : gmap string N → gmap string N) (w : world) : world :=
  World (f (files w)) (dirs w) (unreadable w) (undeletable w) (environ w)
        (converter w) (ffprobe w) (ffmpeg w)
        (exports w) (remote_calls w) (progress w) (split_calls w).
Definition set_dirs (f : gset string → gset string) (w : world) : world :=
  World (files w) (f (dirs w)) (unreadable w) (undeletable w) (environ w)
        (converter w) (ffprobe w) (ffmpeg w)
        (exports w) (remote_calls w) (progress w) (split_calls w).
Definition set_unreadable (f : gset string → gset string) (w : world) : world :=
  World (files w) (dirs w) (f (unreadable w)) (undeletable w) (environ w)
        (converter w) (ffprobe w) (ffmpeg w)
        (exports w) (remote_calls w) (progress w) (split_calls w).
Definition set_environ (f : gmap string string → gmap string string) (w : world) : world :=
  World (files w) (dirs w) (unreadable w) (undeletable w) (f (environ w))
        (converter w) (ffprobe w) (ffmpeg w)
        (exports w) (remote_calls w) (progress w) (split_calls w).
Definition set_converter (s : string) (w : world) : world :=
  World (files w) (dirs w) (unreadable w) (undeletable w) (environ w)
        s (ffprobe w) (ffmpeg w)
        (exports w) (remote_calls w) (progress w) (split_calls w).
Definition set_ffprobe (s : string) (w : world) : world :=
  World (files w) (dirs w) (unreadable w) (undeletable w) (environ w)
        (converter w) s (ffmpeg w)
        (exports w) (remote_calls w) (progress w) (split_calls w).
Definition set_ffmpeg (s : string) (w : world) : world :=
  World (files w) (dirs w) (unreadable w) (undeletable w) (environ w)
        (converter w) (ffprobe w) s
        (exports w) (remote_calls w) (progress w) (split_calls w).
Definition log_export (e : export_call) (w : world) : world :=
  World (files w) (dirs w) (unreadable w) (undeletable w) (environ w)
        (converter w) (ffprobe w) (ffmpeg w)
        (exports w ++ [e]) (remote_calls w) (progress w) (split_calls w).
Definition log_remote (p : string) (r : outcome string) (w : world) : world :=
  World (files w) (dirs w) (unreadable w) (undeletable w) (environ w)
        (converter w) (ffprobe w) (ffmpeg w)
        (exports w) (remote_calls w ++ [(p, r)]) (progress w) (split_calls w).
Definition log_progress (m : string) (v : Z) (w : world) : world :=
  World (files w) (dirs w) (unreadable w) (undeletable w) (environ w)
        (converter w) (ffprobe w) (ffmpeg w)
        (exports w) (remote_calls w) (progress w ++ [(m, v)]) (split_calls w).
Definition log_split (p : string) (w : world) : world :=
  World (files w) (dirs w) (unreadable w) (undeletable w) (environ w)
        (converter w) (ffprobe w) (ffmpeg w)
        (exports w) (remote_calls w) (progress w) (split_calls w ++ [p]).

(** *** The monad of state and exceptions *)

Definition M (A : Type) : Type := world → outcome A * world.

Definition ret {A} (a : A) : M A := λ w, (Ret a, w).
Definition raise {A} (msg : string) : M A := λ w, (Raise msg, w).
Definition bind {A B} (m : M A) (k : A → M B) : M B :=
  λ w, match m w with
       | (Ret a, w') => k a w'
       | (Raise e, w') => (Raise e, w')
       end.
Definition modify (f : world → world) : M unit := λ w, (Ret tt, f w).
Definition gets {A} (f : world → A) : M A := λ w, (Ret (f w), w).
Definition lift {A} (o : outcome A) : M A := λ w, (o, w).

(** [try: body except Exception as e: handler(str(e))] *)
Definition try_except {A} (body : M A) (handler : string → M A) : M A :=
  λ w, match body w with
       | (Ret a, w') => (Ret a, w')
       | (Raise e, w') => handler e w'
       end.

(** [try: body finally: final], where [final] does not raise. *)
Definition try_finally {A} (body : M A) (final : M unit) : M A :=
  λ w, match body w with
       | (r, w') => (r, snd (final w'))
       end.

#[global] Instance M_ret : MRet M := @ret.
#[global] Instance M_bind : MBind M := λ A B k m, bind m k.

(** [if cond: m] *)
Definition when (cond : bool) (m : M unit) : M unit :=
  if cond then m else ret tt.

(** *** [os.path], [os.environ], [os.remove], [os.rmdir] on the state *)

Definition exists_ (p : string) (w : world) : bool :=
  bool_decide (is_Some (files w !! p)) || bool_decide (p ∈ dirs w).
Definition isfile (p : string) (w : world) : bool :=
  bool_decide (is_Some (files w !! p)).
Definition isdir (p : string) (w : world) : bool :=
  bool_decide (p ∈ dirs w).

(** [os.path.getsize(p)] *)
Definition getsize (p : string) : M Z :=
  λ w, match files w !! p with
       | Some n => (Ret (Z.of_N n), w)
       | None =>
           if bool_decide (p ∈ dirs w) then (Ret 0, w)
           else (Raise ("[Errno 2] No such file or directory: '" +:+ p +:+ "'"), w)
       end.

(** [os.environ.get("PATH", "")] *)
Definition get_PATH (w : world) : string := default "" (environ w !! "PATH").

(** [os.environ["PATH"] = d + os.pathsep + os.environ.get("PATH", "")] *)
Definition prepend_PATH (pathsep d : string) (w : world) : world :=
  set_environ (insert "PATH" (d +:+ pathsep +:+ get_PATH w)) w.

(** ** The host: what the code takes from [os.path], [shutil], [sys],
    [subprocess] and [tempfile]

    These are library and platform services, not code of the repository;
    they are an interface here and every general theorem below holds for
    all of its instances.  The searches take the file system and the
    environment they inspect as arguments. *)

Class Host := {
  normpath : string → string;
  abspath : string → string;
  joinpath : string → string → string;
  dirname : string → string;
  pathsep : string;
  (** [shutil.which(cmd)] *)
  which : string → gmap string N → gset string → gmap string string → option string;
  (** [subprocess.run(["ffmpeg", "-version"], timeout=5).returncode == 0],
      [false] also when the call raises *)
  ffmpeg_runs : gmap string N → gset string → gmap string string → bool;
  (** the directory name [tempfile.mkdtemp()] picks *)
  mkdtemp_name : gmap string N → gset string → string;
  (** [getattr(sys, 'frozen', False)], [sys.executable], [__file__] of [utils.py] *)
  frozen : bool;
  executable : string;
  utils_file : string;
}.

Section Locator.
Context `{Host}.

(** *** [utils.check_ffmpeg] *)

Definition check_ffmpeg (custom_path : option string) : M (bool * option string) := λ w,
  (* lines 83-126, reached when nothing was found in PATH *)
  let application :=
    let app_path :=
      if frozen then dirname executable
      else dirname (dirname (dirname (abspath utils_file))) in
    let ffmpeg_exe := joinpath app_path "ffmpeg.exe" in
    if exists_ ffmpeg_exe w then
      (Ret (true, Some ffmpeg_exe), prepend_PATH pathsep app_path w)
    else
      let ffmpeg_dir := joinpath app_path "ffmpeg" in
      let ffmpeg_exe := joinpath ffmpeg_dir "ffmpeg.exe" in
      if exists_ ffmpeg_dir w && exists_ ffmpeg_exe w then
        let ffmpeg_exe := normpath (abspath ffmpeg_exe) in
        (Ret (true, Some ffmpeg_exe), prepend_PATH pathsep (dirname ffmpeg_exe) w)
      else if ffmpeg_runs (files w) (dirs w) (environ w) then
        (Ret (true, Some "ffmpeg"), w)
      else (Ret (false, None), w) in
  (* lines 65-81 *)
  let packaged :=
    if frozen then
      let exe_dir := dirname executable in
      let ffmpeg_exe := joinpath exe_dir "ffmpeg.exe" in
      if exists_ ffmpeg_exe w then
        (Ret (true, Some ffmpeg_exe), prepend_PATH pathsep exe_dir w)
      else
        let ffmpeg_dir := joinpath exe_dir "ffmpeg" in
        let ffmpeg_exe := joinpath ffmpeg_dir "ffmpeg.exe" in
        if exists_ ffmpeg_dir w && exists_ ffmpeg_exe w then
          (Ret (true, Some ffmpeg_exe), prepend_PATH pathsep ffmpeg_dir w)
        else application
    else application in
  (* lines 60-63 *)
  let in_PATH :=
    match which "ffmpeg" (files w) (dirs w) (environ w) with
    | Some ffmpeg_path =>
        if Py.truthy ffmpeg_path then (Ret (true, Some ffmpeg_path), w) else packaged
    | None => packaged
    end in
  (* lines 35-58 *)
  match custom_path with
  | Some custom_path =>
      if Py.truthy custom_path && Py.truthy (Py.strip custom_path) then
        let custom_path := normpath (Py.strip custom_path) in
        if isdir custom_path w then
          let ffmpeg_exe := joinpath custom_path "ffmpeg.exe" in
          if exists_ ffmpeg_exe w then
            let ffmpeg_exe := normpath (abspath ffmpeg_exe) in
            (Ret (true, Some ffmpeg_exe), prepend_PATH pathsep (dirname ffmpeg_exe) w)
          else in_PATH
        else if isfile custom_path w then
          if exists_ custom_path w then
            let custom_path := normpath (abspath custom_path) in
            let parent_dir := dirname custom_path in
            (Ret (true, Some custom_path), prepend_PATH pathsep parent_dir w)
          else in_PATH
        else in_PATH
      else in_PATH
  | None => in_PATH
  end.

(** *** [utils.configure_pydub]

    [_patch_subprocess_for_windows] only wraps [subprocess.Popen] and
    [subprocess.run] with a window flag, and the closing
    [subprocess.run([ffmpeg_exe_abs, "-version"])] discards its result
    and its exceptions: neither touches the state. *)

(** [if s.endswith(".EXE"): s = s[:-4] + ".exe"] *)
Definition fix_case (s : string) : string :=
  if Py.endswith s ".EXE" then Py.drop_last 4 s +:+ ".exe" else s.

(** [s.replace("\\", "/")] *)
Definition forward_slashes (s : string) : string := Py.replace "\" "/" s.

(** [s.replace("/", "\\")] *)
Definition back_slashes (s : string) : string := Py.replace "/" "\" s.

Definition configure_pydub (PYDUB_AVAILABLE : bool) (ffmpeg_path : option string) : M unit := λ w,
  if negb PYDUB_AVAILABLE then (Ret tt, w) else
  match ffmpeg_path with
  | None => (Ret tt, w)
  | Some ffmpeg_path =>
      if negb (Py.truthy ffmpeg_path) then (Ret tt, w) else
      if bool_decide (ffmpeg_path = "ffmpeg") then (Ret tt, w) else
      let ffmpeg_path := normpath ffmpeg_path in
      let ffmpeg_exe :=
        if isdir ffmpeg_path w then joinpath ffmpeg_path "ffmpeg.exe"
        else if isfile ffmpeg_path w then ffmpeg_path
        else if Py.endswith ffmpeg_path ".exe" then ffmpeg_path
        else
          let test_dir := joinpath ffmpeg_path "ffmpeg.exe" in
          if exists_ test_dir w then test_dir else ffmpeg_path in
      let ffmpeg_exe := normpath (abspath ffmpeg_exe) in
      if exists_ ffmpeg_exe w && isfile ffmpeg_exe w then
        let ffmpeg_dir := dirname ffmpeg_exe in
        let current_path := get_PATH w in
        let w :=
          if negb (Py.contains ffmpeg_dir current_path)
          then set_environ (insert "PATH" (ffmpeg_dir +:+ pathsep +:+ current_path)) w
          else w in
        let ffmpeg_exe_abs := abspath ffmpeg_exe in
        let ffmpeg_exe_for_pydub := fix_case (forward_slashes ffmpeg_exe_abs) in
        let w := set_ffmpeg ffmpeg_exe_for_pydub (set_converter ffmpeg_exe_for_pydub w) in
        let ffprobe_exe := joinpath ffmpeg_dir "ffprobe.exe" in
        if exists_ ffprobe_exe w then
          (Ret tt, set_ffprobe (fix_case (forward_slashes (abspath ffprobe_exe))) w)
        else
          (Ret tt, set_ffprobe ffmpeg_exe_for_pydub w)
      else (Ret tt, w)
  end.

End Locator.

(** ** The media library and the remote service *)

(** pydub: [PYDUB_AVAILABLE] says whether the import succeeded;
    [from_file p] is [len(AudioSegment.from_file(p))], the duration in
    milliseconds, or the exception raised while probing; [export c] is the
    size of the file [chunk.export] writes, or the exception it raises. *)
Class Pydub := {
  PYDUB_AVAILABLE : bool;
  from_file : string → outcome N;
  export : export_call → outcome N;
}.

(** A remote client: [client.audio.transcriptions.create(model=m, file=f,
    response_format="text")] for the file at a path returns the text or
    raises. *)
Definition Client : Type := string → string → outcome string.

(** The constructor [OpenAI(api_key=k)]. *)
Class OpenAISdk := { OpenAI : string → Client }.

Definition nl : string := String "010" "".

Section Pipeline.
Context `{Host} `{Pydub} `{OpenAISdk}.

(** *** [class TranscriptionAssistant] *)

Record TranscriptionAssistant := Assistant {
  audio_model : string;
  api_key : option string;
  client : option Client;
}.

(** [api_key] is truthy *)
Definition key_given (api_key : option string) : bool :=
  from_option Py.truthy false api_key.

(** [__init__(self, audio_model=AUDIO_MODEL, api_key=None)] *)
Definition __init__ (audio_model : string) (api_key : option string) : TranscriptionAssistant :=
  Assistant audio_model api_key
    (if key_given api_key then OpenAI <$> api_key else None).

(** [set_api_key(self, api_key)] *)
Definition set_api_key (self : TranscriptionAssistant) (api_key : option string)
  : TranscriptionAssistant :=
  Assistant (audio_model self) api_key
    (if key_given api_key then OpenAI <$> api_key else None).

Definition PYDUB_MISSING : string :=
  "pydub library not available. Please install it: pip install pydub" +:+ nl +:+
  "Note: ffmpeg is also required for audio processing.".

Definition FFMPEG_MISSING : string :=
  "ffmpeg is not installed or not found." +:+ nl +:+ nl +:+
  "To enable automatic file splitting, please install ffmpeg:" +:+ nl +:+ nl +:+
  "Option 1 (Recommended): Download from https://ffmpeg.org/download.html" +:+ nl +:+
  "  - Extract and add to PATH, OR" +:+ nl +:+
  "  - Place ffmpeg.exe in the same folder as this app" +:+ nl +:+ nl +:+
  "Option 2: Use package manager" +:+ nl +:+
  "  - Chocolatey: choco install ffmpeg" +:+ nl +:+
  "  - Winget: winget install ffmpeg" +:+ nl +:+ nl +:+
  "After installing, restart the application.".

(** [progress_callback(message, value)] when a callback was passed *)
Definition emit (cb : bool) (message : string) (value : Z) : M unit :=
  when cb (modify (log_progress message value)).

(** [tempfile.mkdtemp()] *)
Definition mkdtemp : M string := λ w,
  let d := mkdtemp_name (files w) (dirs w) in
  (Ret d, set_dirs (union {[d]}) w).

(** [chunk.export(chunk_path, format="mp3", bitrate=bitrate)]: the file
    the process has written is one it can open. *)
Definition export_chunk (chunk_path : string) (start_ms end_ms : Z) (bitrate : string)
  : M unit := λ w,
  let c := ExportCall chunk_path start_ms end_ms bitrate in
  match export c with
  | Ret size =>
      (Ret tt, set_files (insert chunk_path size)
                 (set_unreadable (λ locked, locked ∖ {[chunk_path]}) (log_export c w)))
  | Raise e => (Raise e, log_export c w)
  end.

(** Lines 76-106 of [_split_audio_file]: the second look at
    [AudioSegment.converter] and [AudioSegment.ffprobe]. *)
Definition fix_converter (ffmpeg_path : string) : M unit := λ w,
  if negb PYDUB_AVAILABLE then (Ret tt, w) else
  let converter_path := converter w in
  let ffprobe_path := ffprobe w in
  let w :=
    if negb (Py.truthy converter_path) || negb (exists_ (back_slashes converter_path) w) then
      let w :=
        if isfile ffmpeg_path w then
          set_converter (forward_slashes (abspath ffmpeg_path)) w
        else if isdir ffmpeg_path w then
          let ffmpeg_exe := joinpath ffmpeg_path "ffmpeg.exe" in
          if exists_ ffmpeg_exe w
          then set_converter (forward_slashes (abspath ffmpeg_exe)) w
          else w
        else w in
      set_ffmpeg (converter w) w
    else w in
  let w :=
    if negb (Py.truthy ffprobe_path) || negb (exists_ (back_slashes ffprobe_path) w) then
      if isdir ffmpeg_path w then
        let ffprobe_exe := joinpath ffmpeg_path "ffprobe.exe" in
        if exists_ ffprobe_exe w
        then set_ffprobe (forward_slashes (abspath ffprobe_exe)) w
        else set_ffprobe (converter w) w
      else w
    else w in
  (Ret tt, w).

(** [os.path.join(temp_dir, f"chunk_{i+1}.mp3")] *)
Definition chunk_file (temp_dir : string) (i : nat) : string :=
  joinpath temp_dir ("chunk_" +:+ Py.str (Z.of_nat i + 1) +:+ ".mp3").

(** The loop of lines 134-151, over the indices still to do. *)
Fixpoint export_chunks (chunk_duration_ms duration_ms max_size : Z) (temp_dir : string)
    (indices : list nat) (chunk_paths : list string) : M (list string) :=
  match indices with
  | [] => mret chunk_paths
  | i :: indices =>
      let start_ms := start_ms chunk_duration_ms i in
      let end_ms := end_ms chunk_duration_ms duration_ms i in
      let chunk_path := chunk_file temp_dir i in
      export_chunk chunk_path start_ms end_ms AUDIO_BITRATE_HIGH;;
      chunk_size ← getsize chunk_path;
      (if max_size <? chunk_size then
         export_chunk chunk_path start_ms end_ms AUDIO_BITRATE_LOW;;
         chunk_size ← getsize chunk_path;
         mret tt
       else mret tt);;
      export_chunks chunk_duration_ms duration_ms max_size temp_dir indices
                    (chunk_paths ++ [chunk_path])
  end.

(** [_split_audio_file(self, audio_path, max_size_mb=CHUNK_SIZE_MB)];
    the result is the pair [(chunk_paths, error)]. *)
Definition _split_audio_file (audio_path : string) (max_size_mb : Z)
  : M (option (list string) * option string) :=
  modify (log_split audio_path);;
  if negb PYDUB_AVAILABLE then mret (None, Some PYDUB_MISSING) else
  ffmpeg_custom ← gets (λ w, default "" (environ w !! "FFMPEG_PATH"));
  '(ffmpeg_available, ffmpeg_path) ← check_ffmpeg (Some ffmpeg_custom);
  if negb ffmpeg_available then mret (None, Some FFMPEG_MISSING) else
  try_except
    (configure_pydub PYDUB_AVAILABLE ffmpeg_path;;
     fix_converter (default "" ffmpeg_path);;
     audio ← lift (from_file audio_path);
     file_size ← getsize audio_path;
     let max_size := max_size_mb * 1024 * 1024 in
     if file_size <=? max_size then mret (None, None) else
     let duration_ms := Z.of_N audio in
     chunk_duration_ms ← lift (chunk_duration_ms file_size max_size duration_ms);
     temp_dir ← mkdtemp;
     num_chunks ← lift (num_chunks duration_ms chunk_duration_ms);
     chunk_paths ← export_chunks chunk_duration_ms duration_ms max_size temp_dir
                                 (range num_chunks) [];
     mret (Some chunk_paths, None))
    (λ e, mret (None, Some ("Error splitting audio file: " +:+ e +:+ nl +:+
                            "Note: ffmpeg may be required. Install from: https://ffmpeg.org/"))).

(** [str(e)] of the [PermissionError] of [open] *)
Definition permission_denied (path : string) : string :=
  "[Errno 13] Permission denied: '" +:+ path +:+ "'".

(** [open(audio_path, "rb")] *)
Definition open_rb (audio_path : string) : M unit := λ w,
  if isfile audio_path w then
    if bool_decide (audio_path ∈ unreadable w)
    then (Raise (permission_denied audio_path), w)
    else (Ret tt, w)
  else if isdir audio_path w then (Raise (permission_denied audio_path), w)
  else (Raise ("[Errno 2] No such file or directory: '" +:+ audio_path +:+ "'"), w).

(** ["400" in error_msg or "invalid_request_error" in error_msg] *)
Definition bad_input (error_msg : string) : bool :=
  Py.contains "400" error_msg || Py.contains "invalid_request_error" error_msg.

(** ["401" in error_msg or "unauthorized" in error_msg.lower()] *)
Definition auth_failure (error_msg : string) : bool :=
  Py.contains "401" error_msg || Py.contains "unauthorized" (Py.lower error_msg).

(** The handler of [transcribe_audio_chunk] (lines 173-180) on
    [error_msg = str(e)]. *)
Definition categorize (error_msg : string) : string :=
  if bad_input error_msg then
    "Error: Invalid file format or file is corrupted. Details: " +:+ error_msg
  else if auth_failure error_msg then
    "Error: Invalid API key. Details: " +:+ error_msg
  else
    "Error during transcription: " +:+ error_msg.

(** [self.client.audio.transcriptions.create(model=..., file=audio_file,
    response_format="text")] *)
Definition create_transcription (self : TranscriptionAssistant) (audio_path : string)
  : M string := λ w,
  match client self with
  | None => (Raise "'NoneType' object has no attribute 'audio'", w)
  | Some create =>
      let transcription := create (audio_model self) audio_path in
      (transcription, log_remote audio_path transcription w)
  end.

(** [transcribe_audio_chunk(self, audio_path)] *)
Definition transcribe_audio_chunk (self : TranscriptionAssistant) (audio_path : string)
  : M string :=
  try_except
    (open_rb audio_path;;
     transcription ← create_transcription self audio_path;
     mret transcription)
    (λ error_msg, mret (categorize error_msg)).

(** [20 + int((i / num_chunks) * 70)]; [num_chunks] is the length of a
    non-empty list. *)
Definition chunk_progress (i num_chunks : nat) : outcome Z :=
  match Py.int (Py.fmul (Py.truediv (Z.of_nat i) (Z.of_nat num_chunks)) (Py.of_int 70)) with
  | Ret p => Ret (20 + p)
  | Raise e => Raise e
  end.

(** Lines 210-212: the progress report that opens an iteration. *)
Definition announce_chunk (cb : bool) (i num_chunks : nat) : M unit :=
  if cb then
    progress ← lift (chunk_progress i num_chunks);
    emit cb ("Transcribing chunk " +:+ Py.str (Z.of_nat i + 1) +:+ " of " +:+
             Py.str (Z.of_nat num_chunks) +:+ "...") progress
  else mret tt.

(** The loop of lines 209-218 over [enumerate(chunk_paths)] from index
    [i] on: [inl] is the string of an early [return], [inr] the list
    [transcriptions] when the loop runs to its end. *)
Fixpoint transcribe_chunks (self : TranscriptionAssistant) (cb : bool) (num_chunks : nat)
    (i : nat) (chunk_paths : list string) (transcriptions : list string)
  : M (string + list string) :=
  match chunk_paths with
  | [] => mret (inr transcriptions)
  | chunk_path :: chunk_paths =>
      announce_chunk cb i num_chunks;;
      chunk_transcription ← transcribe_audio_chunk self chunk_path;
      if Py.startswith chunk_transcription "Error" then mret (inl chunk_transcription)
      else transcribe_chunks self cb num_chunks (S i) chunk_paths
                             (transcriptions ++ [chunk_transcription])
  end.

(** [os.remove(p)] *)
Definition remove (p : string) : M unit := λ w,
  if isfile p w then
    if bool_decide (p ∈ undeletable w) then (Raise (permission_denied p), w)
    else (Ret tt, set_files (delete p) w)
  else (Raise ("[Errno 2] No such file or directory: '" +:+ p +:+ "'"), w).

(** [os.rmdir(d)]: only an empty directory can be removed; what a
    directory holds are the paths whose [dirname] it is. *)
Definition rmdir (d : string) : M unit := λ w,
  if negb (isdir d w) then
    (Raise ("[Errno 2] No such file or directory: '" +:+ d +:+ "'"), w)
  else if bool_decide (d ∈ undeletable w) then (Raise (permission_denied d), w)
  else if bool_decide (set_Forall (λ p, dirname p ≠ d) (dom (files w)))
          && bool_decide (set_Forall (λ p, p = d ∨ dirname p ≠ d) (dirs w))
  then (Ret tt, set_dirs (λ ds, ds ∖ {[d]}) w)
  else (Raise ("[Errno 39] Directory not empty: '" +:+ d +:+ "'"), w).

(** [for chunk_path in chunk_paths: if os.path.exists(chunk_path): os.remove(chunk_path)] *)
Fixpoint remove_chunks (chunk_paths : list string) : M unit :=
  match chunk_paths with
  | [] => mret tt
  | chunk_path :: chunk_paths =>
      e ← gets (exists_ chunk_path);
      when e (remove chunk_path);;
      remove_chunks chunk_paths
  end.

(** The [finally] block of lines 231-240. *)
Definition cleanup (chunk_paths : list string) (temp_dir : string) : M unit :=
  try_except
    (remove_chunks chunk_paths;;
     e ← gets (exists_ temp_dir);
     when e (rmdir temp_dir))
    (λ _ : string, mret tt).

Definition NO_API_KEY : string :=
  "Error: OpenAI API key not set. Please enter your API key in the settings.".

(** [transcribe_audio(self, audio_path, progress_callback)]; [cb] says
    whether a callback was passed. *)
Definition transcribe_audio (self : TranscriptionAssistant) (audio_path : string) (cb : bool)
  : M string :=
  if negb (bool_decide (is_Some (client self))) then mret NO_API_KEY else
  file_size ← getsize audio_path;
  if MAX_FILE_SIZE_BYTES <? file_size then
    emit cb PROGRESS_SPLITTING 10;;
    '(chunk_paths, error) ← _split_audio_file audio_path CHUNK_SIZE_MB;
    if from_option Py.truthy false error then mret (default "" error) else
    match chunk_paths with
    | None | Some [] => transcribe_audio_chunk self audio_path
    | Some ((first :: _) as chunk_paths) =>
        let num_chunks := length chunk_paths in
        let temp_dir := dirname first in
        try_finally
          (r ← transcribe_chunks self cb num_chunks 0 chunk_paths [];
           match r with
           | inl chunk_transcription => mret chunk_transcription
           | inr transcriptions =>
               emit cb PROGRESS_COMBINING 95;;
               let combined_transcription := Py.join (nl +:+ nl) transcriptions in
               emit cb PROGRESS_COMPLETE 100;;
               mret combined_transcription
           end)
          (cleanup chunk_paths temp_dir)
    end
  else
    emit cb PROGRESS_TRANSCRIBING 30;;
    try_except
      (transcription ← transcribe_audio_chunk self audio_path;
       emit cb PROGRESS_COMPLETE 100;;
       mret transcription)
      (λ e, mret ("Error during transcription: " +:+ e)).

Definition PLEASE_SELECT : string := "Please select an audio or video file.".
Definition FILE_NOT_FOUND : string := "Error: File not found. Please select a valid file.".
Definition UNSUPPORTED_FORMAT : string :=
  "Error: Unsupported file format. Supported formats: " +:+ Py.join ", " SUPPORTED_FORMATS.

(** [process_audio(self, audio_path, progress_callback)]; [audio_path]
    is [None] or a string. *)
Definition process_audio (self : TranscriptionAssistant) (audio_path : option string)
    (cb : bool) : M string :=
  emit cb "Processing file..." 10;;
  if negb (from_option Py.truthy false audio_path) then mret PLEASE_SELECT else
  let audio_path := default "" audio_path in
  try_except
    (e ← gets (exists_ audio_path);
     if negb e then mret FILE_NOT_FOUND else
     let file_lower := Py.lower audio_path in
     if negb (Py.any (Py.endswith file_lower) SUPPORTED_FORMATS) then mret UNSUPPORTED_FORMAT else
     transcription ← transcribe_audio self audio_path cb;
     if Py.startswith transcription "Error" then mret transcription
     else mret transcription)
    (λ e, mret ("Error processing file: " +:+ e)).

End Pipeline.

(** ** [env_manager.py]

    The text of the file [.env] in the application directory is an
    argument of [read_env_file] ([None] when the file does not exist)
    and the result of [write_env_file]. *)

Module EnvFile.

(** A character that ends a line of a file opened in text mode. *)
Definition is_newline (c : ascii) : bool :=
  bool_decide (c = "010"%char) || bool_decide (c = "013"%char).

(** [for line in f], without the line ends: the code strips every line
    and passes over the empty ones, so neither the line ends nor the
    empty line between a carriage return and a line feed show. *)
Fixpoint lines_go (cur : string) (s : string) : list string :=
  match s with
  | EmptyString => if bool_decide (cur = "") then [] else [String.rev cur]
  | String c s' =>
      if is_newline c then String.rev cur :: lines_go "" s'
      else lines_go (String c cur) s'
  end.
Definition lines (s : string) : list string := lines_go "" s.

(** [line.split('=', 1)] for a line that contains ['='] *)
Fixpoint split_once (s : string) : string * string :=
  match s with
  | EmptyString => ("", "")
  | String c s' =>
      if decide (c = "="%char) then ("", s')
      else let '(key, value) := split_once s' in (String c key, value)
  end.

(** The body of the loop of [read_env_file]. *)
Definition read_line (env_vars : gmap string string) (line : string) : gmap string string :=
  let line := Py.strip line in
  if Py.truthy line && Py.contains "=" line && negb (Py.startswith line "#") then
    let '(key, value) := split_once line in
    <[Py.strip key := Py.strip value]> env_vars
  else env_vars.

(** [read_env_file()] *)
Definition read_env_file (env : option string) : gmap string string :=
  match env with
  | None => ∅
  | Some text => foldl read_line ∅ (lines text)
  end.

(** [write_env_file(env_vars)]: the text the file holds afterwards. *)
Definition write_env_file (env_vars : gmap string string) : string :=
  match env_vars !! "OPENAI_API_KEY" with
  | Some value => "OPENAI_API_KEY=" +:+ value +:+ nl
  | None => ""
  end.

(** Lines 253-259 of [gui._save_api_key]: read the file, set the key,
    write the file. *)
Definition save_env (env : option string) (api_key : string) : string :=
  let env_vars := read_env_file env in
  let env_vars := <["OPENAI_API_KEY" := api_key]> env_vars in
  write_env_file env_vars.

(** A string without a line end. *)
Fixpoint single_line (s : string) : bool :=
  match s with
  | EmptyString => true
  | String c s' => negb (is_newline c) && single_line s'
  end.

End EnvFile.

(** ** Two concrete hosts, for running the code on examples

    [os.path] and [shutil.which] for a separator [sep] and a [PATH]
    separator [psep], on absolute, already normal paths (on which
    [normpath] and [abspath] are the identity). *)

Module Hosts.

(** [os.path.join(d, f)] for a relative [f] *)
Definition join_with (sep : ascii) (d f : string) : string :=
  d +:+ String sep f.

Fixpoint from_sep (sep : ascii) (s : string) : string :=
  match s with
  | EmptyString => EmptyString
  | String c s' => if decide (c = sep) then s else from_sep sep s'
  end.

Fixpoint skip_sep (sep : ascii) (s : string) : string :=
  match s with
  | EmptyString => EmptyString
  | String c s' => if decide (c = sep) then skip_sep sep s' else s
  end.

(** [os.path.dirname(p)]: everything before the last separator,
    without trailing separators unless it consists of them. *)
Definition dirname_with (sep : ascii) (p : string) : string :=
  let head := from_sep sep (String.rev p) in
  let stripped := skip_sep sep head in
  String.rev (if bool_decide (stripped = "") then head else stripped).

(** [s.split(psep)] *)
Fixpoint split_go (psep : ascii) (cur : string) (s : string) : list string :=
  match s with
  | EmptyString => [String.rev cur]
  | String c s' =>
      if decide (c = psep) then String.rev cur :: split_go psep "" s'
      else split_go psep (String c cur) s'
  end.
Definition split (psep : ascii) (s : string) : list string := split_go psep "" s.

(** First hit of [names] in the directories of [PATH]; a file matches
    a name when [same] says so. *)
Definition search (sep psep : ascii) (same : string → string → bool)
    (names : list string) (fs : gmap string N) (env : gmap string string)
  : option string :=
  let candidates :=
    d ← filter (λ d, d ≠ "") (split psep (default "" (env !! "PATH")));
    (join_with sep d <$> names) in
  list_find (λ c, Exists (λ f, same c f = true) (elements (dom fs))) candidates
    ≫= λ '(_, c), Some c.

(** A POSIX host running the sources from [/opt/whispera]:
    [shutil.which(cmd)] looks for a file called [cmd]. *)
#[local] Instance posix : Host := {|
  normpath p := p;
  abspath p := p;
  joinpath := join_with "/";
  dirname := dirname_with "/";
  pathsep := ":";
  which cmd fs _ env := search "/" ":" (λ a b, bool_decide (a = b)) [cmd] fs env;
  ffmpeg_runs fs _ env :=
    bool_decide (is_Some (search "/" ":" (λ a b, bool_decide (a = b)) ["ffmpeg"] fs env));
  mkdtemp_name _ _ := "/tmp/tmpk3v9";
  frozen := false;
  executable := "/usr/bin/python3";
  utils_file := "/opt/whispera/src/back/utils.py";
|}.

(** A Windows host running the packaged program from [C:\Whispera]:
    file names match without regard to case and [shutil.which(cmd)]
    tries [cmd] with the extensions of [PATHEXT], which are in upper
    case. *)
Definition PATHEXT : list string := [".COM"; ".EXE"; ".BAT"; ".CMD"].

Definition same_nocase (a b : string) : bool :=
  bool_decide (Py.lower a = Py.lower b).

#[local] Instance windows : Host := {|
  normpath p := p;
  abspath p := p;
  joinpath := join_with "\";
  dirname := dirname_with "\";
  pathsep := ";";
  which cmd fs _ env := search "\" ";" same_nocase ((λ ext, cmd +:+ ext) <$> PATHEXT) fs env;
  ffmpeg_runs fs _ env :=
    bool_decide (is_Some (search "\" ";" same_nocase ((λ ext, "ffmpeg" +:+ ext) <$> PATHEXT) fs env));
  mkdtemp_name _ _ := "C:\Temp\tmpk3v9";
  frozen := true;
  executable := "C:\Whispera\Whispera.exe";
  utils_file := "C:\Whispera\_internal\src\back\utils.py";
|}.

(** A state with the given files, all of them readable, the given
    directories, nothing that could not be removed, the given [PATH],
    pydub's defaults for [AudioSegment] and nothing observed yet. *)
Definition initial (fs : list (string * N)) (ds : list string) (PATH : string) : world :=
  World (list_to_map fs) (list_to_set ds) ∅ ∅ {[ "PATH" := PATH ]}
        "ffmpeg" "ffprobe" "ffmpeg" [] [] [] [].

End Hosts.

Module Scenario.
Import Hosts.

Definition MB : N := 1048576.

(** A POSIX machine with ffmpeg installed and a 50 MB recording. *)
Definition desk : world :=
  initial [("/usr/bin/ffmpeg", 400000%N); ("/in/talk.mp3", (50 * MB)%N);
           ("/in/memo.wav", (10 * MB)%N); ("/in/notes.txt", 120%N)]
          ["/usr/bin"; "/in"; "/tmp"] "/usr/local/bin:/usr/bin".

(** pydub reading ten minutes of audio and writing 3 MB chunks. *)
#[local] Instance studio : Pydub := {|
  PYDUB_AVAILABLE := true;
  from_file _ := Ret 600000%N;
  export _ := Ret (3 * MB)%N;
|}.

(** The same, but the encoder fails on the second chunk. *)
#[local] Instance faulty : Pydub := {|
  PYDUB_AVAILABLE := true;
  from_file _ := Ret 600000%N;
  export c :=
    if bool_decide (ex_path c = "/tmp/tmpk3v9/chunk_2.mp3")
    then Raise "Encoding failed. ffmpeg/avlib returned error code: 1"
    else Ret (3 * MB)%N;
|}.

(** pydub reading a file that holds no audio: a duration of 0 ms. *)
#[local] Instance silent : Pydub := {|
  PYDUB_AVAILABLE := true;
  from_file _ := Ret 0%N;
  export _ := Ret 0%N;
|}.

(** pydub reading a file that holds a single millisecond of audio. *)
#[local] Instance blip : Pydub := {|
  PYDUB_AVAILABLE := true;
  from_file _ := Ret 1%N;
  export _ := Ret 1000%N;
|}.

(** A client that answers by file, and cannot connect for any other. *)
Definition answering (table : list (string * outcome string)) : Client :=
  λ _ path, default (Raise "Connection error.") (list_to_map (M:=gmap string _) table !! path).

Definition chunk1 : string := "/tmp/tmpk3v9/chunk_1.mp3".
Definition chunk2 : string := "/tmp/tmpk3v9/chunk_2.mp3".
Definition chunk3 : string := "/tmp/tmpk3v9/chunk_3.mp3".

(** The service rejects the key at the second chunk. *)
Definition rejected : TranscriptionAssistant :=
  Assistant AUDIO_MODEL (Some "sk-expired")
    (Some (answering [(chunk1, Ret "Good morning.");
                      (chunk2, Raise "Error code: 401 - Unauthorized");
                      (chunk3, Ret "Thank you.")])).

(** The second chunk is transcribed, and its text begins with [Error]. *)
Definition lecture : TranscriptionAssistant :=
  Assistant AUDIO_MODEL (Some "sk-valid")
    (Some (answering [(chunk1, Ret "Good morning.");
                      (chunk2, Ret "Error bars are drawn in grey.");
                      (chunk3, Ret "Thank you.")])).

(** All three chunks are transcribed; so is the short memo. *)
Definition working : TranscriptionAssistant :=
  Assistant AUDIO_MODEL (Some "sk-valid")
    (Some (answering [(chunk1, Ret "Good morning.");
                      (chunk2, Ret "Today we look at sorting.");
                      (chunk3, Ret "Thank you.");
                      ("/in/memo.wav", Ret "Buy milk.")])).
(** What the service answers to a key it does not know: the text of
    the [AuthenticationError] the client library raises for the
    response with status 401. *)
Definition incorrect_api_key : string :=
  "Error code: 401 - {'error': {'message': 'Incorrect API key provided: sk-wrong. " +:+
  "You can find your API key at https://platform.openai.com/account/api-keys.', " +:+
  "'type': 'invalid_request_error', 'param': None, 'code': 'invalid_api_key'}}".

(** An assistant whose key the service does not know. *)
Definition mistyped : TranscriptionAssistant :=
  Assistant AUDIO_MODEL (Some "sk-wrong") (Some (λ _ _, Raise incorrect_api_key)).

(** The desk with a memo the process may not read. *)
Definition guarded : world := set_unreadable (union {["/in/memo.wav"]}) desk.

(** The service behind every key: it transcribes the short memo. *)
#[local] Instance service : OpenAISdk := {|
  OpenAI _ := answering [("/in/memo.wav", Ret "Buy milk.")];
|}.
End Scenario.

Module Install.
Import Hosts.

(** The packaged program on Windows after its own download of the
    tools into [C:\Whispera\ffmpeg]. *)
Definition bundled : world :=
  initial [("C:\Whispera\Whispera.exe", 40000000%N);
           ("C:\Whispera\ffmpeg\ffmpeg.exe", 90000000%N);
           ("C:\Whispera\ffmpeg\ffprobe.exe", 90000000%N)]
          ["C:\Whispera"; "C:\Whispera\ffmpeg"; "C:\Windows\system32"]
          "C:\Windows\system32".
End Install.

(** ** The vocabulary of the properties *)

(** A list of ranges tiles [[lo, hi)]: the first starts at [lo], each
    is non-empty and starts where the one before ends, and the last
    ends at [hi]. *)
Fixpoint tiles (lo hi : Z) (ranges : list (Z * Z)) : Prop :=
  match ranges with
  | [] => lo = hi
  | (a, b) :: ranges => a = lo ∧ a < b ∧ tiles b hi ranges
  end.

(** [n] is the quotient of [a] by [b] rounded up. *)
Definition is_ceil_div (n a b : Z) : Prop := (n - 1) * b < a ≤ n * b.

(** The time range of chunk [i]. *)
Definition chunk_range (chunk_duration_ms duration_ms : Z) (i : nat) : Z * Z :=
  (start_ms chunk_duration_ms i, end_ms chunk_duration_ms duration_ms i).

(** [w'] differs from [w] at most in the environment and in the
    attributes of [AudioSegment]. *)
Definition configured (w w' : world) : Prop :=
  files w' = files w ∧ dirs w' = dirs w ∧ exports w' = exports w ∧
  remote_calls w' = remote_calls w ∧ progress w' = progress w ∧
  split_calls w' = split_calls w ∧ unreadable w' = unreadable w ∧
  undeletable w' = undeletable w.

(** The relation [keeps f]: the component [f] of the state is the same
    after as before. *)
Definition keeps {B} (f : world → B) : relation world := λ w w', f w' = f w.

Definition preserves {A} (R : relation world) (m : M A) : Prop :=
  ∀ w, R w (snd (m w)).

(** What the pipeline takes a client answer for: a raised error and a
    text that begins with [Error] both end the run. *)
Definition aborting (answer : outcome string) : bool :=
  match answer with
  | Ret text => Py.startswith text "Error"
  | Raise _ => true
  end.

(** The string [transcribe_audio_chunk] returns for a client answer. *)
Definition reported (answer : outcome string) : string :=
  match answer with
  | Ret text => text
  | Raise error_msg => categorize error_msg
  end.

(** The calls of a run end with the first aborting answer, and what was
    reported for it is the result [r] of the run. *)
Definition stops_at_first_failure {A} (inj : string → A)
    (calls : list (string * outcome string)) (r : outcome A) : Prop :=
  ∀ k p answer, calls !! k = Some (p, answer) → aborting answer = true →
    r = Ret (inj (reported answer)) ∧ length calls = S k.

(** Every chunk is exported once at the high bitrate (and possibly a
    second time at the low one): the chunks of a run, in the order they
    were cut, are its high-bitrate exports. *)
Definition first_export (c : export_call) : Prop := ex_bitrate c = AUDIO_BITRATE_HIGH.

#[global] Instance first_export_dec c : Decision (first_export c).
Proof. unfold first_export. apply _. Defined.

(** What a run from [w] to [w'] appended to a log. *)
Definition added {A} (log : world → list A) (w w' : world) : list A :=
  drop (length (log w)) (log w').

(** The time ranges of the chunks cut between [w] and [w']. *)
Definition chunk_ranges (w w' : world) : list (Z * Z) :=
  (λ c, (ex_start c, ex_end c)) <$> filter first_export (added exports w w').

(** The files of the chunks cut between [w] and [w']. *)
Definition chunk_files (w w' : world) : list string :=
  ex_path <$> filter first_export (added exports w w').

(** The state after a progress report. *)
Definition emitted (cb : bool) (message : string) (value : Z) (w : world) : world :=
  if cb then log_progress message value w else w.

(** The state after the opening progress report of [process_audio]. *)
Definition announced (cb : bool) (w : world) : world :=
  emitted cb "Processing file..." 10 w.

Section Vocabulary.
Context `{Host}.

(** The export the loop makes first for chunk [i]. *)
Definition planned_export (cd d : Z) (temp_dir : string) (i : nat) : export_call :=
  ExportCall (chunk_file temp_dir i) (start_ms cd i) (end_ms cd d i) AUDIO_BITRATE_HIGH.

(** The places [check_ffmpeg] inspects itself, as functions of the file
    system alone: each gives the directory to put on [PATH] and the path
    to return.  First the hint (lines 35-58). *)
Definition hinted (custom_path : option string) (w : world) : option (string * string) :=
  match custom_path with
  | Some custom_path =>
      if Py.truthy custom_path && Py.truthy (Py.strip custom_path) then
        let custom_path := normpath (Py.strip custom_path) in
        if isdir custom_path w then
          let ffmpeg_exe := joinpath custom_path "ffmpeg.exe" in
          if exists_ ffmpeg_exe w then
            let ffmpeg_exe := normpath (abspath ffmpeg_exe) in
            Some (dirname ffmpeg_exe, ffmpeg_exe)
          else None
        else if isfile custom_path w then
          if exists_ custom_path w then
            let custom_path := normpath (abspath custom_path) in
            Some (dirname custom_path, custom_path)
          else None
        else None
      else None
  | None => None
  end.

(** Then, after the search of [PATH], the directories of the packaged
    program and of the application (lines 65-108). *)
Definition bundled (w : world) : option (string * string) :=
  let application :=
    let app_path :=
      if frozen then dirname executable
      else dirname (dirname (dirname (abspath utils_file))) in
    let ffmpeg_exe := joinpath app_path "ffmpeg.exe" in
    if exists_ ffmpeg_exe w then Some (app_path, ffmpeg_exe)
    else
      let ffmpeg_dir := joinpath app_path "ffmpeg" in
      let ffmpeg_exe := joinpath ffmpeg_dir "ffmpeg.exe" in
      if exists_ ffmpeg_dir w && exists_ ffmpeg_exe w then
        let ffmpeg_exe := normpath (abspath ffmpeg_exe) in
        Some (dirname ffmpeg_exe, ffmpeg_exe)
      else None in
  if frozen then
    let exe_dir := dirname executable in
    let ffmpeg_exe := joinpath exe_dir "ffmpeg.exe" in
    if exists_ ffmpeg_exe w then Some (exe_dir, ffmpeg_exe)
    else
      let ffmpeg_dir := joinpath exe_dir "ffmpeg" in
      let ffmpeg_exe := joinpath ffmpeg_dir "ffmpeg.exe" in
      if exists_ ffmpeg_dir w && exists_ ffmpeg_exe w then Some (ffmpeg_dir, ffmpeg_exe)
      else application
  else application.

(** What the search of [PATH] gives [check_ffmpeg]: a non-empty path. *)
Definition searched (w : world) : option string :=
  match which "ffmpeg" (files w) (dirs w) (environ w) with
  | Some ffmpeg_path => if Py.truthy ffmpeg_path then Some ffmpeg_path else None
  | None => None
  end.

(** The place [check_ffmpeg] inspects itself at which it finds the
    tool, when that is how the call resolves: the hint if it resolves;
    else, if the search of [PATH] finds nothing, a bundled place. *)
Definition own_location (custom_path : option string) (w : world)
  : option (string * string) :=
  match hinted custom_path w with
  | Some place => Some place
  | None =>
      match searched w with
      | Some _ => None
      | None => bundled w
      end
  end.

End Vocabulary.

Section ExportVocabulary.
Context `{Host} `{Pydub}.

(** The exports lines 141-149 make for chunk [i]: one at the high
    bitrate, and one more at the low bitrate, to the same path and for
    the same range, when the file the first one wrote is larger than
    [max_size]. *)
Definition exports_for_chunk (cd d max_size : Z) (temp_dir : string) (i : nat)
  : list export_call :=
  let high := planned_export cd d temp_dir i in
  let low := ExportCall (chunk_file temp_dir i) (start_ms cd i) (end_ms cd d i)
                        AUDIO_BITRATE_LOW in
  match export high with
  | Ret size => if max_size <? Z.of_N size then [high; low] else [high]
  | Raise _ => [high]
  end.

End ExportVocabulary.

(** pydub writing chunks that are too large at the high bitrate and
    small enough at the low one. *)
Module Dense.
#[local] Instance pydub : Pydub := {|
  PYDUB_AVAILABLE := true;
  from_file _ := Ret 600000%N;
  export c :=
    if bool_decide (ex_bitrate c = AUDIO_BITRATE_HIGH)
    then Ret (24 * Scenario.MB)%N else Ret (12 * Scenario.MB)%N;
|}.
End Dense.

(** The state a split leaves behind, with a first chunk that cannot be
    removed. *)
Module Aftermath.
End Aftermath.

(** ** Properties of the split plan *)

Lemma num_chunks_ceil d cd n :
  0 < d → 0 < cd → num_chunks d cd = Ret n → is_ceil_div n d cd ∧ 0 < n.
Proof.
  intros Hd Hcd. unfold num_chunks, is_ceil_div.
  destruct (Z.eqb_spec cd 0) as [|_]; [lia|].
  intros [= <-].
  pose proof (Z.div_mod d cd ltac:(lia)) as Hdm.
  pose proof (Z.mod_pos_bound d cd Hcd) as Hm.
  assert (0 ≤ d / cd) by (apply Z.div_pos; lia).
  destruct (Z.ltb_spec 0 (d mod cd)); nia.
Qed.

Lemma num_chunks_positive_divisor d cd n :
  0 ≤ d → 0 ≤ cd → num_chunks d cd = Ret n → 0 < cd.
Proof.
  unfold num_chunks. intros Hd Hcd.
  destruct (Z.eqb_spec cd 0); [discriminate | lia].
Qed.

Lemma tiles_chunk_ranges cd d :
  0 < cd → ∀ m k,
  (Z.of_nat k + Z.of_nat m) * cd < d ≤ (Z.of_nat k + Z.of_nat m + 1) * cd →
  tiles (Z.of_nat k * cd) d (chunk_range cd d <$> seq k (S m)).
Proof.
  intros Hcd. induction m as [|m IH]; intros k Hk.
  - cbn. unfold start_ms, end_ms. repeat split; lia.
  - change (seq k (S (S m))) with (k :: seq (S k) (S m)).
    rewrite fmap_cons. cbn [tiles chunk_range].
    unfold start_ms at 1 2, end_ms at 1 2.
    assert (Z.min ((Z.of_nat k + 1) * cd) d = Z.of_nat (S k) * cd) as -> by nia.
    split; [reflexivity|]. split; [nia|].
    apply IH. lia.
Qed.

Lemma chunk_ranges_tile cd d n :
  0 < cd → 0 < n → is_ceil_div n d cd →
  tiles 0 d (chunk_range cd d <$> range n).
Proof.
  intros Hcd Hn Hc. unfold range, is_ceil_div in *.
  destruct (Z.to_nat n) as [|m] eqn:Hm; [lia|].
  apply (tiles_chunk_ranges cd d Hcd m 0%nat). lia.
Qed.

(** ** What each step leaves untouched *)

Lemma configured_refl w : configured w w.
Proof. by repeat split. Qed.

Lemma configured_trans w1 w2 w3 : configured w1 w2 → configured w2 w3 → configured w1 w3.
Proof.
  unfold configured. intros (?&?&?&?&?&?&?&?) (?&?&?&?&?&?&?&?). repeat split; congruence.
Qed.

Section LocatorFacts.
Context `{Host}.

Lemma check_ffmpeg_returns custom_path w :
  ∃ available ffmpeg_path,
    fst (check_ffmpeg custom_path w) = Ret (available, ffmpeg_path).
Proof.
  unfold check_ffmpeg. repeat case_match; simpl; eauto.
Qed.

Lemma check_ffmpeg_configured custom_path w :
  configured w (snd (check_ffmpeg custom_path w)).
Proof.
  unfold check_ffmpeg. repeat case_match; simpl; by repeat split.
Qed.

Lemma configure_pydub_configured av p w :
  fst (configure_pydub av p w) = Ret tt ∧ configured w (snd (configure_pydub av p w)).
Proof.
  unfold configure_pydub. repeat case_match; simpl; by repeat split.
Qed.
End LocatorFacts.

(** *** Relations every step of a computation preserves *)

#[global] Instance keeps_preorder {B} (f : world → B) : PreOrder (keeps f).
Proof. split; unfold keeps; [intros ?; reflexivity | intros ? ? ? ? ?; congruence]. Qed.

Section Preserves.
Context (R : relation world) `{!PreOrder R}.

Lemma preserves_ret {A} (a : A) : preserves R (mret a).
Proof. intros w. reflexivity. Qed.

Lemma preserves_raise {A} e : preserves R (raise (A:=A) e).
Proof. intros w. reflexivity. Qed.

Lemma preserves_lift {A} (o : outcome A) : preserves R (lift o).
Proof. intros w. reflexivity. Qed.

Lemma preserves_gets {A} (f : world → A) : preserves R (gets f).
Proof. intros w. reflexivity. Qed.

Lemma preserves_bind {A B} (m : M A) (k : A → M B) :
  preserves R m → (∀ a, preserves R (k a)) → preserves R (m ≫= k).
Proof.
  intros Hm Hk w. unfold mbind, M_bind, bind.
  specialize (Hm w). destruct (m w) as [[a|e] w1]; simpl in *; [|done].
  etrans; [exact Hm | apply Hk].
Qed.

Lemma preserves_try_except {A} (m : M A) (h : string → M A) :
  preserves R m → (∀ e, preserves R (h e)) → preserves R (try_except m h).
Proof.
  intros Hm Hh w. unfold try_except.
  specialize (Hm w). destruct (m w) as [[a|e] w1]; simpl in *; [done|].
  etrans; [exact Hm | apply Hh].
Qed.

Lemma preserves_try_finally {A} (m : M A) (final : M unit) :
  preserves R m → preserves R final → preserves R (try_finally m final).
Proof.
  intros Hm Hf w. unfold try_finally.
  specialize (Hm w). destruct (m w) as [r w1]; simpl in *.
  etrans; [exact Hm | apply Hf].
Qed.

Lemma preserves_when (b : bool) (m : M unit) :
  preserves R m → preserves R (when b m).
Proof. intros Hm. destruct b; [exact Hm | apply preserves_ret]. Qed.

End Preserves.

Create HintDb steps.
#[global] Hint Unfold modify mkdtemp export_chunk getsize remove rmdir open_rb
  create_transcription fix_converter configure_pydub check_ffmpeg emit when
  prepend_PATH keeps : steps.

(** A single step that leaves the component alone in every branch. *)
Ltac preserve_step :=
  let w := fresh "w" in
  intros w; autounfold with steps; repeat case_match; reflexivity.

(** Splits a goal [preserves R m] along the structure of [m]. *)
Ltac preserve :=
  repeat first
    [ apply preserves_ret; apply _
    | apply preserves_raise; apply _
    | apply preserves_lift; apply _
    | apply preserves_gets; apply _
    | apply preserves_bind; [apply _ | | intros ?]
    | apply preserves_try_except; [apply _ | | intros ?]
    | apply preserves_try_finally; [apply _ | | ]
    | apply preserves_when; [apply _ | ]
    | progress case_match
    | preserve_step ].

Section PipelineFacts.
Context `{Host} `{Pydub} `{OpenAISdk}.

Lemma emit_keeps {B} (f : world → B) cb msg v :
  (∀ w, f (log_progress msg v w) = f w) → preserves (keeps f) (emit cb msg v).
Proof. intros Hf. unfold emit. apply preserves_when; [apply _|]. intros w. apply Hf. Qed.

Lemma emit_returns cb msg v w : fst (emit cb msg v w) = Ret tt.
Proof. unfold emit, when, modify. by destruct cb. Qed.

Lemma getsize_same p w : snd (getsize p w) = w.
Proof. unfold getsize. by repeat case_match. Qed.

Lemma export_chunks_keeps_remote_calls cd d max_size temp_dir indices chunk_paths :
  preserves (keeps remote_calls) (export_chunks cd d max_size temp_dir indices chunk_paths).
Proof.
  revert chunk_paths. induction indices as [|i indices IH]; intros chunk_paths; cbn [export_chunks].
  - preserve.
  - preserve. apply IH.
Qed.

Lemma split_keeps_remote_calls audio_path max_size_mb :
  preserves (keeps remote_calls) (_split_audio_file audio_path max_size_mb).
Proof.
  unfold _split_audio_file. preserve. apply export_chunks_keeps_remote_calls.
Qed.

Lemma remove_chunks_keeps_remote_calls chunk_paths :
  preserves (keeps remote_calls) (remove_chunks chunk_paths).
Proof.
  induction chunk_paths as [|p chunk_paths IH]; cbn [remove_chunks]; preserve. apply IH.
Qed.

Lemma cleanup_keeps_remote_calls chunk_paths temp_dir :
  preserves (keeps remote_calls) (cleanup chunk_paths temp_dir).
Proof.
  unfold cleanup. preserve. apply remove_chunks_keeps_remote_calls.
Qed.

End PipelineFacts.

(** ** Runs of the transcription loop *)

Section LoopFacts.
Context `{Host} `{Pydub} `{OpenAISdk}.

Lemma categorize_startswith error_msg :
  Py.startswith (categorize error_msg) "Error" = true.
Proof. unfold categorize. repeat case_match; reflexivity. Qed.

Lemma transcribe_audio_chunk_run self p w :
  ∃ t, fst (transcribe_audio_chunk self p w) = Ret t ∧
    ((snd (transcribe_audio_chunk self p w) = w ∧ Py.startswith t "Error" = true) ∨
     (∃ answer, client self = Some answer ∧ isfile p w = true ∧
        snd (transcribe_audio_chunk self p w)
        = log_remote p (answer (audio_model self) p) w ∧
        t = reported (answer (audio_model self) p))).
Proof.
  unfold transcribe_audio_chunk, try_except, mbind, M_bind, bind, open_rb,
    create_transcription.
  destruct (isfile p w) eqn:Hf.
  - destruct (bool_decide (p ∈ unreadable w)).
    { simpl. eexists; split; [reflexivity|]. left. split; [done|apply categorize_startswith]. }
    destruct (client self) as [answer|] eqn:Hc; simpl.
    + destruct (answer (audio_model self) p) as [t|e] eqn:Ha; simpl.
      * eexists; split; [reflexivity|]. right. exists answer. by rewrite Ha.
      * eexists; split; [reflexivity|]. right. exists answer. by rewrite Ha.
    + eexists; split; [reflexivity|]. left. split; [done|apply categorize_startswith].
  - destruct (isdir p w); simpl; eexists; (split; [reflexivity|]); left;
      (split; [done|apply categorize_startswith]).
Qed.

Lemma announce_chunk_keeps_remote_calls cb i n :
  preserves (keeps remote_calls) (announce_chunk cb i n).
Proof. unfold announce_chunk. preserve. Qed.

Lemma transcribe_chunks_run self cb n chunk_paths : ∀ i transcriptions w r w',
  transcribe_chunks self cb n i chunk_paths transcriptions w = (r, w') →
  ∃ calls,
    remote_calls w' = remote_calls w ++ calls ∧ stops_at_first_failure inl calls r.
Proof.
  induction chunk_paths as [|p chunk_paths IH]; intros i acc w r w' Hrun;
    cbn [transcribe_chunks] in Hrun.
  - injection Hrun as <- <-. exists []. split; [by rewrite app_nil_r|].
    intros k ? ? Hk. by inversion Hk.
  - unfold mbind, M_bind, bind in Hrun.
    pose proof (announce_chunk_keeps_remote_calls cb i n w) as Hr. unfold keeps in Hr.
    destruct (announce_chunk cb i n w) as [[[]|e] w1]; simpl in Hr.
    2:{ injection Hrun as <- <-. exists []. rewrite Hr, app_nil_r. split; [done|].
        intros k ? ? Hk. by inversion Hk. }
    destruct (transcribe_audio_chunk_run self p w1) as (t & Ht & Hcases).
    destruct (transcribe_audio_chunk self p w1) as [r2 w2]. simpl in Ht, Hcases. subst r2.
    destruct (Py.startswith t "Error") eqn:Hs.
    + injection Hrun as <- <-.
      destruct Hcases as [[-> _]|(answer & _ & _ & -> & ->)]; simpl.
      * exists []. rewrite Hr, app_nil_r. split; [done|].
        intros k ? ? Hk. by inversion Hk.
      * eexists [_]. rewrite Hr. split; [done|].
        intros [|k] ? ? Hk Ha; [|by inversion Hk].
        injection Hk as <- <-. done.
    + destruct Hcases as [[_ Hs']|(answer & _ & _ & -> & ->)]; [congruence|].
      destruct (IH _ _ _ _ _ Hrun) as (calls & Hcalls & Hstop).
      exists ((p, answer (audio_model self) p) :: calls). split.
      * rewrite Hcalls. simpl. rewrite Hr. by rewrite <- app_assoc.
      * intros [|k] q a Hk Ha.
        -- injection Hk as <- <-. exfalso.
           destruct (answer (audio_model self) p) as [t|e]; simpl in *; [congruence|].
           rewrite categorize_startswith in Hs. discriminate.
        -- destruct (Hstop k q a Hk Ha) as [-> Hl]. split; [done|]. simpl. by rewrite Hl.
Qed.

Lemma stops_nil {A} (inj : string → A) r : stops_at_first_failure inj [] r.
Proof. intros k ? ? Hk. by inversion Hk. Qed.

Lemma stops_map {A B} (inj : string → A) (inj' : string → B) calls r r' :
  stops_at_first_failure inj calls r →
  (∀ s, r = Ret (inj s) → r' = Ret (inj' s)) →
  stops_at_first_failure inj' calls r'.
Proof.
  intros Hs Hr k p a Hk Ha. destruct (Hs k p a Hk Ha) as [-> Hl].
  split; [by apply Hr | done].
Qed.

Lemma bind_run {A B} (m : M A) (k : A → M B) w r w' :
  (m ≫= k) w = (r, w') →
  (∃ a w1, m w = (Ret a, w1) ∧ k a w1 = (r, w')) ∨
  (∃ e, m w = (Raise e, w') ∧ r = Raise e).
Proof.
  unfold mbind, M_bind, bind. destruct (m w) as [[a|e] w1]; intros Hrun.
  - left. eauto.
  - right. injection Hrun as <- <-. eauto.
Qed.

Lemma transcribe_audio_chunk_stops self p w r w' :
  transcribe_audio_chunk self p w = (r, w') →
  ∃ calls t, r = Ret t ∧ remote_calls w' = remote_calls w ++ calls ∧
    stops_at_first_failure id calls r.
Proof.
  intros Hrun. destruct (transcribe_audio_chunk_run self p w) as (t & Ht & Hcases).
  rewrite Hrun in Ht, Hcases. simpl in Ht, Hcases. subst r.
  destruct Hcases as [[-> _]|(answer & _ & _ & -> & ->)].
  - exists [], t. split; [done|]. split; [by rewrite app_nil_r | apply stops_nil].
  - eexists [_], _. split; [done|]. split; [done|].
    intros [|k] ? ? Hk Ha; [|by inversion Hk]. by injection Hk as <- <-.
Qed.

Lemma transcribe_audio_run self audio_path cb w r w' :
  transcribe_audio self audio_path cb w = (r, w') →
  ∃ calls,
    remote_calls w' = remote_calls w ++ calls ∧ stops_at_first_failure id calls r.
Proof.
  intros Hrun. unfold transcribe_audio in Hrun.
  destruct (bool_decide (is_Some (client self))); simpl in Hrun.
  2:{ injection Hrun as <- <-. exists []. split; [by rewrite app_nil_r | apply stops_nil]. }
  apply bind_run in Hrun as [(file_size & w1 & Hsz & Hrun)|(e & Hsz & ->)].
  2:{ pose proof (getsize_same audio_path w) as Hw. rewrite Hsz in Hw. simpl in Hw. subst w'.
      exists []. split; [by rewrite app_nil_r | apply stops_nil]. }
  pose proof (getsize_same audio_path w) as Hw. rewrite Hsz in Hw. simpl in Hw. subst w1.
  destruct (MAX_FILE_SIZE_BYTES <? file_size).
  - apply bind_run in Hrun as [([] & w2 & Hemit & Hrun)|(e & Hemit & ->)].
    2:{ exfalso. revert Hemit. unfold emit, when, modify. by destruct cb. }
    assert (remote_calls w2 = remote_calls w) as Hw2.
    { pose proof (emit_keeps remote_calls cb PROGRESS_SPLITTING 10 (λ _, eq_refl) w) as Hk.
      by rewrite Hemit in Hk. }
    pose proof (split_keeps_remote_calls audio_path CHUNK_SIZE_MB w2) as Hw3. unfold keeps in Hw3.
    apply bind_run in Hrun as [([chunk_paths error] & w3 & Hsplit & Hrun)|(e & Hsplit & ->)];
      rewrite Hsplit in Hw3; simpl in Hw3.
    2:{ exists []. split; [by rewrite app_nil_r, Hw3, Hw2 | apply stops_nil]. }
    destruct (from_option Py.truthy false error).
    { injection Hrun as <- <-. exists [].
      split; [by rewrite app_nil_r, Hw3, Hw2 | apply stops_nil]. }
    destruct chunk_paths as [[|first chunk_paths]|].
    1,3: apply transcribe_audio_chunk_stops in Hrun as (calls & t & -> & Hcalls & Hstop);
         exists calls; split; [by rewrite Hcalls, Hw3, Hw2 | done].
    unfold try_finally in Hrun.
    match type of Hrun with context [cleanup ?ps ?d] =>
      pose proof (cleanup_keeps_remote_calls ps d) as Hclean end.
    match type of Hrun with (let (_, _) := ?body w3 in _) = _ =>
      destruct (body w3) as [r4 w4] eqn:Hbody end.
    injection Hrun as <- <-. rewrite (Hclean w4).
    apply bind_run in Hbody as [(x & w5 & Hloop & Hrest)|(e & Hloop & ->)];
      apply transcribe_chunks_run in Hloop as (calls & Hcalls & Hstop).
    2:{ exists calls. split; [by rewrite Hcalls, Hw3, Hw2|].
        eapply stops_map; [exact Hstop | intros s [=]]. }
    destruct x as [t|transcriptions].
    + injection Hrest as <- <-. exists calls. split; [by rewrite Hcalls, Hw3, Hw2|].
      eapply stops_map; [exact Hstop | by intros s [= ->]].
    + exists calls. split.
      * revert Hrest. unfold mbind, M_bind, bind, emit, when, modify, mret, M_ret, ret.
        destruct cb; intros [= _ <-]; simpl; by rewrite Hcalls, Hw3, Hw2.
      * eapply stops_map; [exact Hstop | intros s [=]].
  - apply bind_run in Hrun as [([] & w2 & Hemit & Hrun)|(e & Hemit & ->)].
    2:{ exfalso. revert Hemit. unfold emit, when, modify. by destruct cb. }
    assert (remote_calls w2 = remote_calls w) as Hw2.
    { pose proof (emit_keeps remote_calls cb PROGRESS_TRANSCRIBING 30 (λ _, eq_refl) w) as Hk.
      by rewrite Hemit in Hk. }
    unfold try_except, mbind, M_bind, bind in Hrun.
    destruct (transcribe_audio_chunk self audio_path w2) as [r3 w3] eqn:Hchunk.
    apply transcribe_audio_chunk_stops in Hchunk as (calls & t & -> & Hcalls & Hstop).
    exists calls. split.
    + revert Hrun. unfold emit, when, modify, mret, M_ret, ret.
      destruct cb; intros [= _ <-]; simpl; by rewrite Hcalls, Hw2.
    + eapply stops_map; [exact Hstop|]. intros s [= ->].
      revert Hrun. unfold emit, when, modify, mret, M_ret, ret.
      by destruct cb; intros [= <- _].
Qed.

End LoopFacts.

Section RunFacts.
Context `{Host} `{Pydub} `{OpenAISdk}.

Lemma process_audio_run self audio_path cb w r w' :
  process_audio self audio_path cb w = (r, w') →
  ∃ calls,
    remote_calls w' = remote_calls w ++ calls ∧ stops_at_first_failure id calls r.
Proof.
  intros Hrun. unfold process_audio in Hrun.
  apply bind_run in Hrun as [([] & w1 & Hemit & Hrun)|(e & Hemit & ->)].
  2:{ exfalso. pose proof (emit_returns cb "Processing file..." 10 w) as Hr.
      by rewrite Hemit in Hr. }
  assert (remote_calls w1 = remote_calls w) as Hw1.
  { pose proof (emit_keeps remote_calls cb "Processing file..." 10 (λ _, eq_refl) w) as Hk.
    by rewrite Hemit in Hk. }
  destruct (negb (from_option Py.truthy false audio_path)).
  { injection Hrun as <- <-. exists []. split; [by rewrite app_nil_r | apply stops_nil]. }
  unfold try_except, mbind, M_bind, bind, gets in Hrun.
  destruct (negb (exists_ (default "" audio_path) w1)).
  { injection Hrun as <- <-. exists []. split; [by rewrite app_nil_r | apply stops_nil]. }
  destruct (negb (Py.any _ SUPPORTED_FORMATS)).
  { injection Hrun as <- <-. exists []. split; [by rewrite app_nil_r | apply stops_nil]. }
  destruct (transcribe_audio self (default "" audio_path) cb w1) as [r2 w2] eqn:Hta.
  apply transcribe_audio_run in Hta as (calls & Hcalls & Hstop).
  exists calls. destruct r2 as [t|e].
  - assert (r = Ret t ∧ w' = w2) as [-> ->].
    { by destruct (Py.startswith t "Error"); injection Hrun as <- <-. }
    split; [by rewrite Hcalls, Hw1 | done].
  - injection Hrun as <- <-. split; [by rewrite Hcalls, Hw1|].
    eapply stops_map; [exact Hstop | intros s [=]].
Qed.

Lemma aborting_reported answer :
  aborting answer = Py.startswith (reported answer) "Error".
Proof. destruct answer; simpl; [done | by rewrite categorize_startswith]. Qed.

End RunFacts.

(** ** Runs of the split *)

Section SplitFacts.
Context `{Host} `{Pydub} `{OpenAISdk}.

Lemma added_app {A} (log : world → list A) w w' new :
  log w' = log w ++ new → added log w w' = new.
Proof. unfold added. intros ->. by rewrite drop_app_length. Qed.

Lemma export_chunks_run cd d max_size temp_dir indices : ∀ chunk_paths w paths w',
  export_chunks cd d max_size temp_dir indices chunk_paths w = (Ret paths, w') →
  paths = chunk_paths ++ (chunk_file temp_dir <$> indices) ∧
  ∃ new, exports w' = exports w ++ new ∧
         filter first_export new = planned_export cd d temp_dir <$> indices.
Proof.
  induction indices as [|i indices IH]; intros acc w paths w' Hrun;
    cbn [export_chunks] in Hrun.
  - injection Hrun as <- <-. split; [by rewrite app_nil_r|].
    exists []. by rewrite app_nil_r.
  - apply bind_run in Hrun as [([] & w1 & Hhigh & Hrun)|(e & _ & [=])].
    unfold export_chunk in Hhigh.
    destruct (export _) as [size|e]; [|discriminate]. injection Hhigh as <-.
    apply bind_run in Hrun as [(chunk_size & w2 & Hsize & Hrun)|(e & _ & [=])].
    match type of Hsize with getsize ?p ?w0 = _ =>
      pose proof (getsize_same p w0) as Hw2; rewrite Hsize in Hw2 end.
    simpl in Hw2. subst w2.
    apply bind_run in Hrun as [([] & w3 & Hlow & Hrun)|(e & _ & [=])].
    apply IH in Hrun as (-> & new & Hnew & Hfilter).
    split; [by rewrite <- app_assoc|].
    destruct (max_size <? chunk_size).
    + apply bind_run in Hlow as [([] & w4 & Hlow & Hrest)|(e & _ & [=])].
      unfold export_chunk in Hlow.
      destruct (export _) as [size'|e]; [|discriminate]. injection Hlow as <-.
      apply bind_run in Hrest as [(? & w5 & Hsize' & Hrest)|(e & _ & [=])].
      injection Hrest as <-.
      match type of Hsize' with getsize ?p ?w0 = _ =>
        pose proof (getsize_same p w0) as Hw5; rewrite Hsize' in Hw5 end.
      simpl in Hw5. subst w5. simpl in Hnew.
      eexists (_ :: _ :: new). split; [by rewrite Hnew, <- !app_assoc|].
      rewrite filter_cons_True by done. rewrite filter_cons_False by done.
      by rewrite Hfilter.
    + injection Hlow as <-. simpl in Hnew.
      eexists (_ :: new). split; [by rewrite Hnew, <- !app_assoc|].
      rewrite filter_cons_True by done. by rewrite Hfilter.
Qed.

Lemma kept {A} {B} (f : world → B) (m : M A) w r w' :
  preserves (keeps f) m → m w = (r, w') → f w' = f w.
Proof. intros Hm Hrun. specialize (Hm w). by rewrite Hrun in Hm. Qed.

Lemma split_run audio_path max_size_mb w chunk_paths error w' :
  _split_audio_file audio_path max_size_mb w = (Ret (Some chunk_paths, error), w') →
  ∃ audio file_size cd n temp_dir,
    from_file audio_path = Ret audio ∧
    max_size_mb * 1024 * 1024 < file_size ∧
    chunk_duration_ms file_size (max_size_mb * 1024 * 1024) (Z.of_N audio) = Ret cd ∧
    num_chunks (Z.of_N audio) cd = Ret n ∧
    chunk_paths = chunk_file temp_dir <$> range n ∧
    filter first_export (added exports w w')
    = planned_export cd (Z.of_N audio) temp_dir <$> range n ∧
    error = None.
Proof.
  intros Hrun. unfold _split_audio_file in Hrun.
  apply bind_run in Hrun as [([] & w1 & Hlog & Hrun)|(e & _ & [=])].
  apply (kept exports) in Hlog as Hw1; [|preserve].
  destruct (negb PYDUB_AVAILABLE); [discriminate|].
  apply bind_run in Hrun as [(custom & w2 & Hget & Hrun)|(e & _ & [=])].
  injection Hget as _ <-.
  apply bind_run in Hrun as [([available ffmpeg_path] & w3 & Hcheck & Hrun)|(e & _ & [=])].
  apply (kept exports) in Hcheck as Hw3; [|preserve].
  destruct (negb available); [discriminate|].
  unfold try_except in Hrun.
  match type of Hrun with (let (_, _) := ?body w3 in _) = _ =>
    destruct (body w3) as [[result|e] w4] eqn:Hbody end; [|discriminate].
  injection Hrun as -> ->.
  apply bind_run in Hbody as [([] & w5 & Hconf & Hbody)|(e & _ & [=])].
  apply (kept exports) in Hconf as Hw5; [|preserve].
  apply bind_run in Hbody as [([] & w6 & Hfix & Hbody)|(e & _ & [=])].
  apply (kept exports) in Hfix as Hw6; [|preserve].
  apply bind_run in Hbody as [(audio & w7 & Hfrom & Hbody)|(e & _ & [=])].
  unfold lift in Hfrom. injection Hfrom as Hfrom <-.
  apply bind_run in Hbody as [(file_size & w8 & Hsize & Hbody)|(e & _ & [=])].
  apply (kept exports) in Hsize as Hw8; [|preserve].
  destruct (Z.leb_spec file_size (max_size_mb * 1024 * 1024)); [discriminate|].
  apply bind_run in Hbody as [(cd & w9 & Hcd & Hbody)|(e & _ & [=])].
  unfold lift in Hcd. injection Hcd as Hcd <-.
  apply bind_run in Hbody as [(temp_dir & w10 & Htmp & Hbody)|(e & _ & [=])].
  apply (kept exports) in Htmp as Hw10; [|preserve].
  apply bind_run in Hbody as [(n & w11 & Hn & Hbody)|(e & _ & [=])].
  unfold lift in Hn. injection Hn as Hn <-.
  apply bind_run in Hbody as [(paths & w12 & Hloop & Hbody)|(e & _ & [=])].
  injection Hbody as <- <- <-.
  apply export_chunks_run in Hloop as (-> & new & Hnew & Hfilter).
  exists audio, file_size, cd, n, temp_dir. repeat split; try done.
  rewrite (added_app exports w w12 new); [done|].
  rewrite Hnew. congruence.
Qed.

End SplitFacts.

Section Claims.
Context `{Host} `{Pydub} `{OpenAISdk}.

Lemma chunk_duration_ms_nonneg file_size max_size d cd :
  0 ≤ d → chunk_duration_ms file_size max_size d = Ret cd → 0 ≤ cd.
Proof.
  unfold chunk_duration_ms, fallback_chunk_duration_ms. intros Hd.
  destruct (target_chunk_duration_ms _ _ _) as [t|]; [|discriminate].
  intros [= <-]. destruct (Z.leb_spec t 0); [|lia].
  apply Z.div_pos; lia.
Qed.

Lemma chunk_duration_ms_zero file_size max_size :
  chunk_duration_ms file_size max_size 0 = Ret 0.
Proof. reflexivity. Qed.

(** C2. When [_split_audio_file] returns a list of chunks (which it does
    only for a file larger than the ceiling), the audio has a positive
    duration, the chunk duration of the plan is positive, and the time
    ranges of the exported chunks, in the order of their export, tile
    [0, duration_ms): each starts where the one before ends, none is
    empty, the first starts at 0 and the last ends at [duration_ms].
    Their number is [duration_ms / chunk_duration_ms] rounded up, and it
    is the number of chunk paths returned. *)
Theorem split_ranges_tile_duration audio_path max_size_mb w chunk_paths error w' :
  _split_audio_file audio_path max_size_mb w = (Ret (Some chunk_paths, error), w') →
  ∃ audio file_size cd,
    from_file audio_path = Ret audio ∧
    max_size_mb * 1024 * 1024 < file_size ∧
    chunk_duration_ms file_size (max_size_mb * 1024 * 1024) (Z.of_N audio) = Ret cd ∧
    0 < Z.of_N audio ∧ 0 < cd ∧
    chunk_ranges w w' = chunk_range cd (Z.of_N audio) <$> range (Z.of_nat (length chunk_paths)) ∧
    tiles 0 (Z.of_N audio) (chunk_ranges w w') ∧
    is_ceil_div (Z.of_nat (length (chunk_ranges w w'))) (Z.of_N audio) cd ∧
    length chunk_paths = length (chunk_ranges w w').
Proof.
  intros Hrun.
  apply split_run in Hrun as (audio & file_size & cd & n & temp_dir &
    Hfrom & Hbig & Hcd & Hn & -> & Hfilter & ->).
  exists audio, file_size, cd.
  assert (0 ≤ Z.of_N audio) as Hd0 by lia.
  pose proof (chunk_duration_ms_nonneg _ _ _ _ Hd0 Hcd) as Hcd0.
  pose proof (num_chunks_positive_divisor _ _ _ Hd0 Hcd0 Hn) as Hcdpos.
  assert (0 < Z.of_N audio) as Hd.
  { destruct (Z.of_N audio) eqn:Hz; [|lia|lia].
    rewrite chunk_duration_ms_zero in Hcd. injection Hcd as <-. lia. }
  destruct (num_chunks_ceil _ _ _ Hd Hcdpos Hn) as [Hceil Hnpos].
  assert (chunk_ranges w w' = chunk_range cd (Z.of_N audio) <$> range n) as Hranges.
  { unfold chunk_ranges. rewrite Hfilter, <- list_fmap_compose. done. }
  assert (length (range n) = Z.to_nat n) as Hlen by (unfold range; apply length_seq).
  rewrite length_fmap, Hlen, Z2Nat.id by lia.
  rewrite Hranges, length_fmap, Hlen, Z2Nat.id by lia.
  repeat split; try done; try lia; try apply Hceil.
  by apply chunk_ranges_tile.
Qed.

End Claims.

Lemma split_ranges_tile_duration_witness :
  ∃ w', tiles 0 600000 (chunk_ranges Scenario.desk w').
Proof.
  let r := eval vm_compute in
    (@_split_audio_file Hosts.posix Scenario.studio "/in/talk.mp3" CHUNK_SIZE_MB Scenario.desk)
  in pose (run := r).
  exists (snd run).
  destruct (@split_ranges_tile_duration Hosts.posix Scenario.studio
              "/in/talk.mp3" CHUNK_SIZE_MB Scenario.desk
              ["/tmp/tmpk3v9/chunk_1.mp3"; "/tmp/tmpk3v9/chunk_2.mp3"; "/tmp/tmpk3v9/chunk_3.mp3"]
              None (snd run))
    as (audio & file_size & cd & Hfrom & _ & _ & _ & _ & _ & Htiles & _).
  - vm_compute. reflexivity.
  - injection Hfrom as <-. exact Htiles.
Defined.

Section Claims2.
Context `{Host} `{Pydub} `{OpenAISdk}.

Lemma emit_run cb message value w :
  emit cb message value w = (Ret tt, emitted cb message value w).
Proof. by destruct cb. Qed.

Lemma getsize_file p size w :
  files w !! p = Some size → getsize p w = (Ret (Z.of_N size), w).
Proof. intros Hf. unfold getsize. by rewrite Hf. Qed.

Lemma isfile_file p size w : files w !! p = Some size → isfile p w = true.
Proof. intros Hf. unfold isfile. rewrite Hf. by apply bool_decide_eq_true_2. Qed.

Lemma transcribe_audio_chunk_on_file self p size w create :
  files w !! p = Some size → p ∉ unreadable w → client self = Some create →
  transcribe_audio_chunk self p w
  = (Ret (reported (create (audio_model self) p)),
     log_remote p (create (audio_model self) p) w).
Proof.
  intros Hf Hopen Hc.
  unfold transcribe_audio_chunk, try_except, mbind, M_bind, bind, open_rb,
    create_transcription.
  rewrite (isfile_file p size w Hf), (bool_decide_eq_false_2 _ Hopen), Hc.
  by destruct (create (audio_model self) p).
Qed.

Lemma transcribe_audio_chunk_denied self p size w :
  files w !! p = Some size → p ∈ unreadable w →
  transcribe_audio_chunk self p w = (Ret (categorize (permission_denied p)), w).
Proof.
  intros Hf Hlocked.
  unfold transcribe_audio_chunk, try_except, mbind, M_bind, bind, open_rb.
  by rewrite (isfile_file p size w Hf), (bool_decide_eq_true_2 _ Hlocked).
Qed.

Lemma transcribe_audio_small self p size cb w create :
  files w !! p = Some size → Z.of_N size ≤ MAX_FILE_SIZE_BYTES →
  p ∉ unreadable w → client self = Some create →
  transcribe_audio self p cb w
  = (Ret (reported (create (audio_model self) p)),
     emitted cb PROGRESS_COMPLETE 100
       (log_remote p (create (audio_model self) p)
          (emitted cb PROGRESS_TRANSCRIBING 30 w))).
Proof.
  intros Hf Hsize Hopen Hc.
  assert ((MAX_FILE_SIZE_BYTES <? Z.of_N size) = false) as Hsmall by lia.
  unfold transcribe_audio. rewrite Hc.
  rewrite bool_decide_eq_true_2 by eauto. cbn [negb].
  unfold mbind, M_bind, bind, try_except.
  rewrite (getsize_file p size w Hf), Hsmall, emit_run.
  rewrite (transcribe_audio_chunk_on_file self p size _ create);
    [|by destruct cb|by destruct cb|done].
  by rewrite emit_run.
Qed.

Lemma transcribe_audio_small_denied self p size cb w create :
  files w !! p = Some size → Z.of_N size ≤ MAX_FILE_SIZE_BYTES →
  p ∈ unreadable w → client self = Some create →
  transcribe_audio self p cb w
  = (Ret (categorize (permission_denied p)),
     emitted cb PROGRESS_COMPLETE 100 (emitted cb PROGRESS_TRANSCRIBING 30 w)).
Proof.
  intros Hf Hsize Hlocked Hc.
  assert ((MAX_FILE_SIZE_BYTES <? Z.of_N size) = false) as Hsmall by lia.
  unfold transcribe_audio. rewrite Hc.
  rewrite bool_decide_eq_true_2 by eauto. cbn [negb].
  unfold mbind, M_bind, bind, try_except.
  rewrite (getsize_file p size w Hf), Hsmall, emit_run.
  rewrite (transcribe_audio_chunk_denied self p size); [|by destruct cb|by destruct cb].
  by rewrite emit_run.
Qed.

(** C7. [process_audio] checks its preconditions first and in this
    order; each failed check returns its own message and leaves the state
    as it was but for the opening progress report (no file, directory or
    variable touched, no export, no split, no remote call): an empty or
    absent path gives the please-select message; a path that does not
    exist gives the file-not-found message; an existing path whose
    lower-cased name ends in none of the supported extensions gives the
    unsupported-format message, which lists the seven extensions. *)
Theorem preconditions_checked_first self audio_path cb w :
  (from_option Py.truthy false audio_path = false →
     process_audio self audio_path cb w = (Ret PLEASE_SELECT, announced cb w)) ∧
  (∀ p, audio_path = Some p → Py.truthy p = true → exists_ p w = false →
     process_audio self audio_path cb w = (Ret FILE_NOT_FOUND, announced cb w)) ∧
  (∀ p, audio_path = Some p → Py.truthy p = true → exists_ p w = true →
     Py.any (Py.endswith (Py.lower p)) SUPPORTED_FORMATS = false →
     process_audio self audio_path cb w = (Ret UNSUPPORTED_FORMAT, announced cb w)) ∧
  UNSUPPORTED_FORMAT
  = "Error: Unsupported file format. Supported formats: .mp3, .mp4, .mpeg, .mpga, .m4a, .wav, .webm" ∧
  PLEASE_SELECT ≠ FILE_NOT_FOUND ∧ PLEASE_SELECT ≠ UNSUPPORTED_FORMAT ∧
  FILE_NOT_FOUND ≠ UNSUPPORTED_FORMAT.
Proof.
  assert (∀ p, exists_ p (announced cb w) = exists_ p w) as Hex by (by destruct cb).
  pose proof (emit_run cb "Processing file..." 10 w) as Hemit. fold (announced cb w) in Hemit.
  split; [|split; [|split; [|split; [|split; [|split]]]]].
  4: reflexivity.
  4-6: by intros [=].
  - intros Hp. unfold process_audio, mbind, M_bind, bind. rewrite Hemit, Hp. done.
  - intros p -> Hp Hne. unfold process_audio, mbind, M_bind, bind, try_except, gets.
    rewrite Hemit. cbn [from_option default]. unfold id. rewrite Hp. cbn [negb]. cbv beta.
    rewrite Hex, Hne. reflexivity.
  - intros p -> Hp He Hfmt. unfold process_audio, mbind, M_bind, bind, try_except, gets.
    rewrite Hemit. cbn [from_option default]. unfold id. rewrite Hp. cbn [negb]. cbv beta.
    rewrite Hex, He. cbn [negb]. rewrite Hfmt. reflexivity.
Qed.

(** C5 (amended). For an existing regular file with a supported
    extension and a size of at most 25 MB, [process_audio] never calls
    [_split_audio_file], exports nothing and leaves files, directories
    and environment alone.  With a client configured and a file that
    can be opened for reading, it calls the client exactly once, on the
    file itself, and returns what the client answered: its text
    verbatim, or the categorised message when it raised.  When [open]
    refuses the file, it makes no remote call and returns the
    categorised message of that refusal.  Without a client it makes no
    remote call either and returns the API-key message, whether or not
    the file can be opened. *)
Theorem small_file_single_call self p size cb w :
  Py.truthy p = true →
  files w !! p = Some size →
  Z.of_N size ≤ MAX_FILE_SIZE_BYTES →
  Py.any (Py.endswith (Py.lower p)) SUPPORTED_FORMATS = true →
  let r := fst (process_audio self (Some p) cb w) in
  let w' := snd (process_audio self (Some p) cb w) in
  split_calls w' = split_calls w ∧ exports w' = exports w ∧
  files w' = files w ∧ dirs w' = dirs w ∧ environ w' = environ w ∧
  match client self with
  | Some create =>
      (p ∉ unreadable w →
         remote_calls w' = remote_calls w ++ [(p, create (audio_model self) p)] ∧
         r = Ret (reported (create (audio_model self) p))) ∧
      (p ∈ unreadable w →
         remote_calls w' = remote_calls w ∧
         r = Ret (categorize (permission_denied p)))
  | None => remote_calls w' = remote_calls w ∧ r = Ret NO_API_KEY
  end.
Proof.
  intros Hp Hfile Hsize Hfmt.
  assert (files (announced cb w) !! p = Some size) as Hfile' by (by destruct cb).
  assert (unreadable (announced cb w) = unreadable w) as Hlocked by (by destruct cb).
  assert (exists_ p (announced cb w) = true) as Hex.
  { unfold exists_. rewrite Hfile'. rewrite bool_decide_eq_true_2 by eauto. done. }
  unfold process_audio, mbind, M_bind, bind, try_except, gets.
  rewrite emit_run. fold (announced cb w).
  cbn [from_option default]. unfold id. rewrite Hp. cbn [negb]. cbv beta.
  rewrite Hex. cbn [negb]. rewrite Hfmt. cbn [negb].
  destruct (client self) as [create|] eqn:Hc.
  - destruct (decide (p ∈ unreadable w)) as [Hdenied|Hopen].
    + rewrite (transcribe_audio_small_denied self p size cb _ create Hfile' Hsize)
        by (by rewrite ?Hlocked).
      destruct (Py.startswith _ "Error"); destruct cb; cbn;
        (repeat split; try done); by intros ?.
    + rewrite (transcribe_audio_small self p size cb _ create Hfile' Hsize)
        by (by rewrite ?Hlocked).
      destruct (Py.startswith _ "Error"); destruct cb; cbn;
        (repeat split; try done); by intros ?.
  - unfold transcribe_audio. rewrite Hc.
    rewrite bool_decide_eq_false_2 by (by intros [? ?]). cbn [negb].
    by destruct cb.
Qed.

End Claims2.

Section Claims3.
Context `{Host} `{Pydub} `{OpenAISdk}.

Lemma earlier_calls_succeeded {A} (inj : string → A) calls r k :
  stops_at_first_failure inj calls r → length calls = S k →
  ∀ j q answer, calls !! j = Some (q, answer) → (j < k)%nat →
    ∃ text, answer = Ret text ∧ Py.startswith text "Error" = false.
Proof.
  intros Hstop Hlen j q answer Hj Hlt.
  destruct (aborting answer) eqn:Ha.
  - destruct (Hstop j q answer Hj Ha) as [_ Hl]. lia.
  - destruct answer as [text|e]; [eauto | discriminate].
Qed.

(** C10. A chunk counts as failed when the string obtained for it
    begins with [Error], whatever the client signalled: in every run of
    [process_audio], if what [transcribe_audio_chunk] reports for the
    answer to the [k]-th remote call - the text itself when the client
    returned one, the categorised message when it raised - begins with
    [Error], then the run returns exactly that string, that call is the
    last one, and the texts of the earlier calls (all of which had
    succeeded) are not returned. *)
Theorem error_prefix_aborts_run self audio_path cb w r w' calls k p answer :
  process_audio self audio_path cb w = (r, w') →
  remote_calls w' = remote_calls w ++ calls →
  calls !! k = Some (p, answer) →
  Py.startswith (reported answer) "Error" = true →
  r = Ret (reported answer) ∧
  length calls = S k ∧
  (∀ j q earlier, calls !! j = Some (q, earlier) → (j < k)%nat →
     ∃ text, earlier = Ret text ∧ Py.startswith text "Error" = false).
Proof.
  intros Hrun Hcalls Hk Hprefix.
  apply process_audio_run in Hrun as (calls' & Hcalls' & Hstop).
  assert (calls' = calls) as -> by (rewrite Hcalls in Hcalls'; by apply app_inv_head in Hcalls').
  rewrite <- aborting_reported in Hprefix.
  destruct (Hstop k p answer Hk Hprefix) as [-> Hlen].
  split; [done|]. split; [done|]. by eapply earlier_calls_succeeded.
Qed.

End Claims3.

Lemma preconditions_checked_first_witness :
  @process_audio Hosts.posix Scenario.studio Scenario.working None false Scenario.desk
  = (Ret PLEASE_SELECT, Scenario.desk) ∧
  @process_audio Hosts.posix Scenario.studio Scenario.working (Some "/in/lost.mp3") false
    Scenario.desk
  = (Ret FILE_NOT_FOUND, Scenario.desk) ∧
  @process_audio Hosts.posix Scenario.studio Scenario.working (Some "/in/notes.txt") false
    Scenario.desk
  = (Ret UNSUPPORTED_FORMAT, Scenario.desk).
Proof.
  split; [|split].
  - apply (proj1 (@preconditions_checked_first Hosts.posix Scenario.studio
                    Scenario.working None false Scenario.desk)).
    reflexivity.
  - apply (proj1 (proj2 (@preconditions_checked_first Hosts.posix Scenario.studio
                    Scenario.working (Some "/in/lost.mp3") false Scenario.desk))
             "/in/lost.mp3"); [reflexivity | reflexivity | by vm_compute].
  - apply (proj1 (proj2 (proj2 (@preconditions_checked_first Hosts.posix Scenario.studio
                    Scenario.working (Some "/in/notes.txt") false Scenario.desk)))
             "/in/notes.txt"); [reflexivity | reflexivity | by vm_compute | by vm_compute].
Defined.

Lemma small_file_single_call_witness :
  fst (@process_audio Hosts.posix Scenario.studio Scenario.working (Some "/in/memo.wav") true
         Scenario.desk)
  = Ret "Buy milk." ∧
  (remote_calls (snd (@process_audio Hosts.posix Scenario.studio Scenario.working
                        (Some "/in/memo.wav") true Scenario.guarded))
   = remote_calls Scenario.guarded ∧
   fst (@process_audio Hosts.posix Scenario.studio Scenario.working (Some "/in/memo.wav") true
          Scenario.guarded)
   = Ret (categorize (permission_denied "/in/memo.wav"))).
Proof.
  split.
  - refine (proj2 (proj1 (proj2 (proj2 (proj2 (proj2 (proj2
      (@small_file_single_call Hosts.posix Scenario.studio Scenario.working
         "/in/memo.wav" (10 * Scenario.MB)%N true Scenario.desk _ _ _ _)))))) _)).
    + reflexivity.
    + vm_compute; reflexivity.
    + vm_compute; discriminate.
    + vm_compute; reflexivity.
    + apply not_elem_of_empty.
  - refine (proj2 (proj2 (proj2 (proj2 (proj2 (proj2
      (@small_file_single_call Hosts.posix Scenario.studio Scenario.working
         "/in/memo.wav" (10 * Scenario.MB)%N true Scenario.guarded _ _ _ _)))))) _).
    + reflexivity.
    + vm_compute; reflexivity.
    + vm_compute; discriminate.
    + vm_compute; reflexivity.
    + apply elem_of_union_l. by apply elem_of_singleton.
Defined.

Lemma error_prefix_aborts_run_witness :
  fst (@process_audio Hosts.posix Scenario.studio Scenario.lecture (Some "/in/talk.mp3") true
         Scenario.desk)
  = Ret "Error bars are drawn in grey.".
Proof.
  refine (proj1 (@error_prefix_aborts_run Hosts.posix Scenario.studio
    Scenario.lecture (Some "/in/talk.mp3") true Scenario.desk _
    (snd (@process_audio Hosts.posix Scenario.studio Scenario.lecture
            (Some "/in/talk.mp3") true Scenario.desk))
    [(Scenario.chunk1, Ret "Good morning.");
     (Scenario.chunk2, Ret "Error bars are drawn in grey.")]
    1 Scenario.chunk2 (Ret "Error bars are drawn in grey.") _ _ _ _)).
  - apply surjective_pairing.
  - by vm_compute.
  - reflexivity.
  - reflexivity.
Defined.

Section LocatorClaims.
Context `{Host}.

Lemma check_ffmpeg_stages custom_path w :
  check_ffmpeg custom_path w =
  match hinted custom_path w with
  | Some (d, p) => (Ret (true, Some p), prepend_PATH pathsep d w)
  | None =>
      match searched w with
      | Some p => (Ret (true, Some p), w)
      | None =>
          match bundled w with
          | Some (d, p) => (Ret (true, Some p), prepend_PATH pathsep d w)
          | None =>
              if ffmpeg_runs (files w) (dirs w) (environ w)
              then (Ret (true, Some "ffmpeg"), w)
              else (Ret (false, None), w)
          end
      end
  end.
Proof.
  unfold check_ffmpeg, hinted, searched, bundled.
  repeat case_match; simplify_eq; reflexivity.
Qed.

Lemma hinted_prepend custom_path d w :
  hinted custom_path (prepend_PATH pathsep d w) = hinted custom_path w.
Proof. reflexivity. Qed.

Lemma bundled_prepend d w : bundled (prepend_PATH pathsep d w) = bundled w.
Proof. reflexivity. Qed.

Lemma hinted_holds custom_path w d p :
  hinted custom_path w = Some (d, p) → d = dirname p.
Proof. unfold hinted. repeat case_match; by intros [= <- <-]. Qed.

Lemma bundled_holds w d p :
  bundled w = Some (d, p) → d = dirname p ∨ p = joinpath d "ffmpeg.exe".
Proof. unfold bundled. repeat case_match; intros [= <- <-]; eauto. Qed.

(** C8 (amended). When [check_ffmpeg] succeeds, how it found the tool
    decides what happens to [PATH], and nothing but [PATH] changes.
    Found at a place it inspects itself - the hint, or, the search of
    [PATH] having found nothing, the directory of the packaged program
    or of the application or the [ffmpeg] directory beneath one of
    them: the state it returns is the old one with the directory
    holding that executable, then the separator, put in front of
    [PATH].  Found otherwise - by the search of [PATH] ([shutil.which])
    or by running the bare command: the state it returns is the old
    one, [PATH] included. *)
Theorem check_ffmpeg_PATH custom_path w p w' :
  check_ffmpeg custom_path w = (Ret (true, Some p), w') →
  configured w w' ∧
  match own_location custom_path w with
  | Some (d, found) =>
      p = found ∧ (d = dirname p ∨ p = joinpath d "ffmpeg.exe") ∧
      w' = prepend_PATH pathsep d w ∧
      get_PATH w' = d +:+ pathsep +:+ get_PATH w
  | None =>
      w' = w ∧
      ((which "ffmpeg" (files w) (dirs w) (environ w) = Some p ∧ Py.truthy p = true) ∨
       (searched w = None ∧ p = "ffmpeg" ∧
        ffmpeg_runs (files w) (dirs w) (environ w) = true))
  end.
Proof.
  intros Hrun. split.
  { pose proof (check_ffmpeg_configured custom_path w) as Hc. by rewrite Hrun in Hc. }
  assert (∀ d, get_PATH (prepend_PATH pathsep d w) = d +:+ pathsep +:+ get_PATH w) as Hpath.
  { intros d. unfold prepend_PATH, get_PATH at 1. cbn [environ set_environ].
    by rewrite lookup_insert_eq. }
  rewrite check_ffmpeg_stages in Hrun. unfold own_location.
  destruct (hinted custom_path w) as [[d found]|] eqn:Hh.
  { injection Hrun as <- <-. apply hinted_holds in Hh. by eauto. }
  destruct (searched w) as [q|] eqn:Hs.
  { injection Hrun as <- <-. split; [done|]. left.
    unfold searched in Hs. destruct (which _ _ _ _) as [q'|]; [|done].
    destruct (Py.truthy q') eqn:Ht; [|done]. by injection Hs as ->. }
  destruct (bundled w) as [[d found]|] eqn:Hb.
  { injection Hrun as <- <-. apply bundled_holds in Hb. by eauto. }
  destruct (ffmpeg_runs _ _ _) eqn:Hr; [|discriminate].
  injection Hrun as <- <-. split; [done|]. by right.
Qed.

(** C9 (amended). Two calls of [check_ffmpeg] in a row with the same
    hint and an unchanged file system agree on availability.  They
    return the same path as well when the first call resolved through
    the hint, through the search of [PATH] or by running the bare
    command, and when it failed.  When the first call found the tool at
    a bundled place - no hint resolved, the search of [PATH] found
    nothing - it put that directory in front of [PATH], and the second
    call returns what its search of the new [PATH] reports, if that
    finds the tool, and the first call's path otherwise. *)
Theorem check_ffmpeg_twice custom_path w r1 w1 r2 w2 :
  check_ffmpeg custom_path w = (Ret r1, w1) →
  check_ffmpeg custom_path w1 = (Ret r2, w2) →
  fst r2 = fst r1 ∧
  match hinted custom_path w, searched w, bundled w with
  | None, None, Some (d, p) =>
      w1 = prepend_PATH pathsep d w ∧
      r1 = (true, Some p) ∧ r2 = (true, Some (default p (searched w1)))
  | _, _, _ => r2 = r1
  end.
Proof.
  rewrite !check_ffmpeg_stages.
  destruct (hinted custom_path w) as [[d p]|] eqn:Hh.
  { intros [= <- <-]. rewrite hinted_prepend, Hh. by intros [= <- _]. }
  destruct (searched w) as [p|] eqn:Hs.
  { intros [= <- <-]. rewrite Hh, Hs. by intros [= <- _]. }
  destruct (bundled w) as [[d p]|] eqn:Hb.
  - intros [= <- <-]. rewrite hinted_prepend, Hh, bundled_prepend, Hb.
    destruct (searched (prepend_PATH pathsep d w)) as [p'|]; by intros [= <- _].
  - destruct (ffmpeg_runs (files w) (dirs w) (environ w)) eqn:Hr;
      intros [= <- <-]; rewrite Hh, Hs, Hb, Hr; by intros [= <- _].
Qed.

End LocatorClaims.

(** On the desk, [ffmpeg] is found by the search of [PATH]: the call
    succeeds and [PATH] is what it was, without [/usr/bin] in front. *)
Lemma check_ffmpeg_found_in_PATH_leaves_PATH :
  fst (@check_ffmpeg Hosts.posix None Scenario.desk) = Ret (true, Some "/usr/bin/ffmpeg") ∧
  get_PATH (snd (@check_ffmpeg Hosts.posix None Scenario.desk)) = "/usr/local/bin:/usr/bin" ∧
  get_PATH (snd (@check_ffmpeg Hosts.posix None Scenario.desk))
  ≠ @dirname Hosts.posix "/usr/bin/ffmpeg" +:+ @pathsep Hosts.posix +:+ get_PATH Scenario.desk.
Proof. by vm_compute. Qed.

Lemma check_ffmpeg_PATH_witness :
  get_PATH (snd (@check_ffmpeg Hosts.windows None Install.bundled))
  = "C:\Whispera\ffmpeg;C:\Windows\system32" ∧
  snd (@check_ffmpeg Hosts.posix None Scenario.desk) = Scenario.desk.
Proof.
  split.
  - destruct (@check_ffmpeg_PATH Hosts.windows None Install.bundled
                "C:\Whispera\ffmpeg\ffmpeg.exe"
                (snd (@check_ffmpeg Hosts.windows None Install.bundled))) as [_ Hroute].
    + vm_compute; reflexivity.
    + vm_compute in Hroute. vm_compute. reflexivity.
  - destruct (@check_ffmpeg_PATH Hosts.posix None Scenario.desk "/usr/bin/ffmpeg"
                (snd (@check_ffmpeg Hosts.posix None Scenario.desk))) as [_ Hroute].
    + vm_compute; reflexivity.
    + vm_compute; reflexivity.
Defined.

(** The packaged program on Windows: the first call finds the bundled
    [ffmpeg.exe] and puts its directory on [PATH]; the second finds the
    same file through the search of [PATH], which spells the extension
    as [PATHEXT] does. *)
Lemma check_ffmpeg_twice_differs :
  fst (@check_ffmpeg Hosts.windows None Install.bundled)
  = Ret (true, Some "C:\Whispera\ffmpeg\ffmpeg.exe") ∧
  fst (@check_ffmpeg Hosts.windows None
         (snd (@check_ffmpeg Hosts.windows None Install.bundled)))
  = Ret (true, Some "C:\Whispera\ffmpeg\ffmpeg.EXE") ∧
  files (snd (@check_ffmpeg Hosts.windows None Install.bundled)) = files Install.bundled ∧
  dirs (snd (@check_ffmpeg Hosts.windows None Install.bundled)) = dirs Install.bundled.
Proof.
  split; [vm_compute; reflexivity|]. split; [vm_compute; reflexivity|].
  split; apply (@check_ffmpeg_configured Hosts.windows).
Qed.

Lemma check_ffmpeg_twice_witness :
  fst (@check_ffmpeg Hosts.windows None
         (snd (@check_ffmpeg Hosts.windows None Install.bundled)))
  = Ret (true, Some "C:\Whispera\ffmpeg\ffmpeg.EXE") ∧
  fst (@check_ffmpeg Hosts.posix (Some "/usr/bin/ffmpeg")
         (snd (@check_ffmpeg Hosts.posix (Some "/usr/bin/ffmpeg") Scenario.desk)))
  = fst (@check_ffmpeg Hosts.posix (Some "/usr/bin/ffmpeg") Scenario.desk).
Proof.
  split.
  - destruct (@check_ffmpeg_twice Hosts.windows None Install.bundled
                (true, Some "C:\Whispera\ffmpeg\ffmpeg.exe")
                (snd (@check_ffmpeg Hosts.windows None Install.bundled))
                (true, Some "C:\Whispera\ffmpeg\ffmpeg.EXE")
                (snd (@check_ffmpeg Hosts.windows None
                        (snd (@check_ffmpeg Hosts.windows None Install.bundled)))))
      as [_ Hsecond].
    + vm_compute; reflexivity.
    + vm_compute; reflexivity.
    + vm_compute; reflexivity.
  - destruct (@check_ffmpeg_twice Hosts.posix (Some "/usr/bin/ffmpeg") Scenario.desk
                (true, Some "/usr/bin/ffmpeg")
                (snd (@check_ffmpeg Hosts.posix (Some "/usr/bin/ffmpeg") Scenario.desk))
                (true, Some "/usr/bin/ffmpeg")
                (snd (@check_ffmpeg Hosts.posix (Some "/usr/bin/ffmpeg")
                        (snd (@check_ffmpeg Hosts.posix (Some "/usr/bin/ffmpeg")
                                Scenario.desk)))))
      as [_ Hsecond].
    + vm_compute; reflexivity.
    + vm_compute; reflexivity.
    + vm_compute; reflexivity.
Defined.

(** ** Where the code falls short of the specification *)

(** C4. A 50 MB file whose probed duration is 0 ms: the fallback
    [duration_ms // 2] is again 0, the chunk count divides by it, and
    [_split_audio_file] returns the text of the [ZeroDivisionError]
    instead of two halves.  Nothing is exported, and the temporary
    directory made just before the division stays behind.  A duration
    of 1 ms ends the same way. *)
Theorem zero_duration_divides_by_zero :
  chunk_duration_ms (50 * 1024 * 1024) (CHUNK_SIZE_MB * 1024 * 1024) 0 = Ret 0 ∧
  num_chunks 0 0 = Raise "integer division or modulo by zero" ∧
  fst (@_split_audio_file Hosts.posix Scenario.silent "/in/talk.mp3" CHUNK_SIZE_MB Scenario.desk)
  = Ret (None, Some ("Error splitting audio file: integer division or modulo by zero" +:+ nl +:+
                     "Note: ffmpeg may be required. Install from: https://ffmpeg.org/")) ∧
  exports (snd (@_split_audio_file Hosts.posix Scenario.silent "/in/talk.mp3" CHUNK_SIZE_MB
                  Scenario.desk)) = [] ∧
  isdir "/tmp/tmpk3v9" (snd (@_split_audio_file Hosts.posix Scenario.silent "/in/talk.mp3"
                               CHUNK_SIZE_MB Scenario.desk)) = true ∧
  isdir "/tmp/tmpk3v9" Scenario.desk = false ∧
  chunk_duration_ms (50 * 1024 * 1024) (CHUNK_SIZE_MB * 1024 * 1024) 1 = Ret 0 ∧
  fst (@_split_audio_file Hosts.posix Scenario.blip "/in/talk.mp3" CHUNK_SIZE_MB Scenario.desk)
  = Ret (None, Some ("Error splitting audio file: integer division or modulo by zero" +:+ nl +:+
                     "Note: ffmpeg may be required. Install from: https://ffmpeg.org/")).
Proof.
  repeat split; vm_compute; reflexivity.
Qed.

(** C1. The encoder fails on the second of three chunks:
    [process_audio] returns the split error, and the first chunk's file
    and the temporary directory, neither of which existed before the
    call, both exist after it.  The [finally] block that removes them
    belongs to the transcription loop, which this run never enters. *)
Theorem export_failure_leaves_chunks :
  fst (@process_audio Hosts.posix Scenario.faulty Scenario.working (Some "/in/talk.mp3") true
         Scenario.desk)
  = Ret ("Error splitting audio file: Encoding failed. ffmpeg/avlib returned error code: 1"
         +:+ nl +:+ "Note: ffmpeg may be required. Install from: https://ffmpeg.org/") ∧
  exists_ "/tmp/tmpk3v9/chunk_1.mp3" Scenario.desk = false ∧
  exists_ "/tmp/tmpk3v9" Scenario.desk = false ∧
  exists_ "/tmp/tmpk3v9/chunk_1.mp3"
    (snd (@process_audio Hosts.posix Scenario.faulty Scenario.working (Some "/in/talk.mp3") true
            Scenario.desk)) = true ∧
  exists_ "/tmp/tmpk3v9"
    (snd (@process_audio Hosts.posix Scenario.faulty Scenario.working (Some "/in/talk.mp3") true
            Scenario.desk)) = true.
Proof. repeat split; vm_compute; reflexivity. Qed.

(** C3. A key the service does not know, on a file that is cut into
    three chunks: the client raises at the first chunk, the run stops
    there and returns the categorised message, as the claim says.  But
    the message is the one for a bad or corrupt file, not the one for an
    authentication failure: the text of the error holds [401], which
    the second test of the handler looks for, and also the type
    [invalid_request_error], which the first test finds before.  An
    authentication error without that type gets the API-key wording. *)
Theorem auth_failure_reported_as_bad_file :
  Py.contains "401" Scenario.incorrect_api_key = true ∧
  Py.contains "invalid_request_error" Scenario.incorrect_api_key = true ∧
  fst (@process_audio Hosts.posix Scenario.studio Scenario.mistyped (Some "/in/talk.mp3") true
         Scenario.desk)
  = Ret ("Error: Invalid file format or file is corrupted. Details: "
         +:+ Scenario.incorrect_api_key) ∧
  fst (@process_audio Hosts.posix Scenario.studio Scenario.mistyped (Some "/in/talk.mp3") true
         Scenario.desk)
  ≠ Ret ("Error: Invalid API key. Details: " +:+ Scenario.incorrect_api_key) ∧
  remote_calls (snd (@process_audio Hosts.posix Scenario.studio Scenario.mistyped
                       (Some "/in/talk.mp3") true Scenario.desk))
  = [(Scenario.chunk1, Raise Scenario.incorrect_api_key)] ∧
  fst (@process_audio Hosts.posix Scenario.studio Scenario.rejected (Some "/in/talk.mp3") true
         Scenario.desk)
  = Ret "Error: Invalid API key. Details: Error code: 401 - Unauthorized".
Proof. repeat split; vm_compute; (reflexivity || by intros [=]). Qed.

(** An assistant made without a key, as [TranscriptionAssistant()] is,
    given the 10 MB memo: no remote call, and the API-key message. *)
Lemma small_file_without_key_makes_no_call :
  client (@__init__ Scenario.service AUDIO_MODEL None) = None ∧
  fst (@process_audio Hosts.posix Scenario.studio (@__init__ Scenario.service AUDIO_MODEL None)
         (Some "/in/memo.wav") true Scenario.desk)
  = Ret NO_API_KEY ∧
  remote_calls (snd (@process_audio Hosts.posix Scenario.studio
                       (@__init__ Scenario.service AUDIO_MODEL None)
                       (Some "/in/memo.wav") true Scenario.desk)) = [] ∧
  Py.any (Py.endswith (Py.lower "/in/memo.wav")) SUPPORTED_FORMATS = true ∧
  files Scenario.desk !! "/in/memo.wav" = Some (10 * Scenario.MB)%N ∧
  Z.of_N (10 * Scenario.MB) ≤ MAX_FILE_SIZE_BYTES.
Proof. repeat split; vm_compute; (reflexivity || by intros [=]). Qed.

(** ** Runs that succeed *)

Section Forward.
Context `{Host} `{Pydub} `{OpenAISdk}.

Lemma bind_ret {A B} (m : M A) (k : A → M B) w a w1 :
  m w = (Ret a, w1) → (m ≫= k) w = k a w1.
Proof. intros Hm. unfold mbind, M_bind, bind. by rewrite Hm. Qed.

Lemma exists_same_view p w0 w :
  files w0 = files w → dirs w0 = dirs w → exists_ p w0 = exists_ p w.
Proof. intros Hf Hd. unfold exists_. by rewrite Hf, Hd. Qed.

Lemma check_ffmpeg_same_view custom_path w0 w :
  files w0 = files w → dirs w0 = dirs w → environ w0 = environ w →
  fst (check_ffmpeg custom_path w0) = fst (check_ffmpeg custom_path w).
Proof.
  intros Hf Hd He. rewrite !check_ffmpeg_stages.
  assert (hinted custom_path w0 = hinted custom_path w) as ->.
  { unfold hinted, exists_, isdir, isfile. by rewrite Hf, Hd. }
  assert (searched w0 = searched w) as ->.
  { unfold searched. by rewrite Hf, Hd, He. }
  assert (bundled w0 = bundled w) as ->.
  { unfold bundled, exists_. by rewrite Hf, Hd. }
  rewrite Hf, Hd, He. by repeat case_match.
Qed.

Lemma fix_converter_configured p w :
  fst (fix_converter p w) = Ret tt ∧ configured w (snd (fix_converter p w)).
Proof. unfold fix_converter. repeat case_match; simpl; by repeat split. Qed.

Lemma export_chunks_succeeds cd d max_size temp_dir :
  (∀ c, ∃ n, export c = Ret n) →
  ∀ indices chunk_paths w, ∃ w',
    export_chunks cd d max_size temp_dir indices chunk_paths w
    = (Ret (chunk_paths ++ (chunk_file temp_dir <$> indices)), w') ∧
    (∀ q, is_Some (files w !! q) → is_Some (files w' !! q)) ∧
    (∀ i, i ∈ indices → is_Some (files w' !! chunk_file temp_dir i)).
Proof.
  intros Hexport. induction indices as [|i indices IH]; intros acc w; cbn [export_chunks].
  - exists w. rewrite app_nil_r. split; [done|]. split; [done|]. intros i Hi. by inversion Hi.
  - assert (∀ s e b v, ∃ n,
      export_chunk (chunk_file temp_dir i) s e b v
      = (Ret tt, set_files (insert (chunk_file temp_dir i) n)
                   (set_unreadable (λ locked, locked ∖ {[chunk_file temp_dir i]})
                      (log_export (ExportCall (chunk_file temp_dir i) s e b) v)))) as Hstep.
    { intros s e b v. unfold export_chunk.
      destruct (Hexport (ExportCall (chunk_file temp_dir i) s e b)) as [n ->]. eauto. }
    destruct (Hstep (start_ms cd i) (end_ms cd d i) AUDIO_BITRATE_HIGH w) as [n1 Hhigh].
    rewrite (bind_ret _ _ _ _ _ Hhigh).
    erewrite bind_ret; [|apply getsize_file; apply lookup_insert_eq].
    destruct (max_size <? Z.of_N n1).
    + match goal with |- context [export_chunk _ _ _ AUDIO_BITRATE_LOW] =>
        destruct (Hstep (start_ms cd i) (end_ms cd d i) AUDIO_BITRATE_LOW
                    (set_files (insert (chunk_file temp_dir i) n1)
                       (set_unreadable (λ locked, locked ∖ {[chunk_file temp_dir i]})
                          (log_export (ExportCall (chunk_file temp_dir i) (start_ms cd i)
                                         (end_ms cd d i) AUDIO_BITRATE_HIGH) w))))
          as [n2 Hlow] end.
      erewrite bind_ret; [|erewrite bind_ret; [|exact Hlow];
                           erewrite bind_ret; [reflexivity|];
                           apply getsize_file; apply lookup_insert_eq].
      match goal with |- context [export_chunks _ _ _ _ _ _ ?v] =>
        destruct (IH (acc ++ [chunk_file temp_dir i]) v) as (w' & Hrun & Hold & Hnew) end.
      exists w'. rewrite Hrun, <- app_assoc. split; [done|]. split.
      * intros q Hq. apply Hold. simpl.
        destruct (decide (chunk_file temp_dir i = q)) as [->|Hne];
          [rewrite lookup_insert_eq; eauto|].
        rewrite !lookup_insert_ne by done. exact Hq.
      * intros j [->|Hj]%elem_of_cons; [|by apply Hnew].
        apply Hold. simpl. rewrite lookup_insert_eq. eauto.
    + erewrite bind_ret; [|reflexivity].
      match goal with |- context [export_chunks _ _ _ _ _ _ ?v] =>
        destruct (IH (acc ++ [chunk_file temp_dir i]) v) as (w' & Hrun & Hold & Hnew) end.
      exists w'. rewrite Hrun, <- app_assoc. split; [done|]. split.
      * intros q Hq. apply Hold. simpl.
        destruct (decide (chunk_file temp_dir i = q)) as [->|Hne];
          [rewrite lookup_insert_eq; eauto|].
        rewrite lookup_insert_ne by done. exact Hq.
      * intros j [->|Hj]%elem_of_cons; [|by apply Hnew].
        apply Hold. simpl. rewrite lookup_insert_eq. eauto.
Qed.

End Forward.

Section Forward2.
Context `{Host} `{Pydub} `{OpenAISdk}.

Lemma split_succeeds audio_path max_size_mb w ffmpeg_path audio size cd n :
  PYDUB_AVAILABLE = true →
  fst (check_ffmpeg (Some (default "" (environ w !! "FFMPEG_PATH"))) w)
  = Ret (true, ffmpeg_path) →
  from_file audio_path = Ret audio →
  files w !! audio_path = Some size →
  max_size_mb * 1024 * 1024 < Z.of_N size →
  chunk_duration_ms (Z.of_N size) (max_size_mb * 1024 * 1024) (Z.of_N audio) = Ret cd →
  num_chunks (Z.of_N audio) cd = Ret n →
  (∀ c, ∃ k, export c = Ret k) →
  ∃ w',
    _split_audio_file audio_path max_size_mb w
    = (Ret (Some (chunk_file (mkdtemp_name (files w) (dirs w)) <$> range n), None), w') ∧
    (∀ i, i ∈ range n →
       is_Some (files w' !! chunk_file (mkdtemp_name (files w) (dirs w)) i)) ∧
    filter first_export (added exports w w')
    = planned_export cd (Z.of_N audio) (mkdtemp_name (files w) (dirs w)) <$> range n.
Proof.
  intros Hpydub Htool Hfrom Hfile Hbig Hcd Hn Hexport.
  unfold _split_audio_file.
  erewrite bind_ret; [|reflexivity]. rewrite Hpydub. cbn [negb].
  erewrite bind_ret; [|reflexivity]. cbn [environ log_split].
  pose proof (check_ffmpeg_same_view (Some (default "" (environ w !! "FFMPEG_PATH")))
                (log_split audio_path w) w eq_refl eq_refl eq_refl) as Hview.
  rewrite Htool in Hview.
  pose proof (check_ffmpeg_configured (Some (default "" (environ w !! "FFMPEG_PATH")))
                (log_split audio_path w)) as (Hf1 & Hd1 & Hx1 & _).
  destruct (check_ffmpeg _ (log_split audio_path w)) as [r1 w1] eqn:Hcheck.
  simpl in Hview, Hf1, Hd1, Hx1. subst r1.
  erewrite bind_ret; [|exact Hcheck]. cbn [negb].
  unfold try_except.
  destruct (configure_pydub_configured true ffmpeg_path w1) as (Hr2 & Hf2 & Hd2 & Hx2 & _).
  destruct (configure_pydub true ffmpeg_path w1) as [r2 w2] eqn:Hconf.
  simpl in Hr2, Hf2, Hd2, Hx2. subst r2.
  destruct (fix_converter_configured (default "" ffmpeg_path) w2)
    as (Hr3 & Hf3 & Hd3 & Hx3 & _).
  destruct (fix_converter (default "" ffmpeg_path) w2) as [r3 w3] eqn:Hfix.
  simpl in Hr3, Hf3, Hd3, Hx3. subst r3.
  assert (exports w3 = exports w) as Hx by (rewrite Hx3, Hx2, Hx1; reflexivity).
  assert (files w3 = files w) as Hf by (rewrite Hf3, Hf2, Hf1; reflexivity).
  assert (dirs w3 = dirs w) as Hd by (rewrite Hd3, Hd2, Hd1; reflexivity).
  erewrite bind_ret; [|exact Hconf].
  erewrite bind_ret; [|exact Hfix].
  erewrite bind_ret; [|unfold lift; rewrite Hfrom; reflexivity].
  erewrite bind_ret; [|apply getsize_file; rewrite Hf; exact Hfile].
  destruct (Z.leb_spec (Z.of_N size) (max_size_mb * 1024 * 1024)) as [?|_]; [lia|].
  erewrite bind_ret; [|unfold lift; rewrite Hcd; reflexivity].
  erewrite bind_ret; [|reflexivity].
  erewrite bind_ret; [|unfold lift; rewrite Hn; reflexivity].
  rewrite Hf, Hd.
  destruct (export_chunks_succeeds cd (Z.of_N audio) (max_size_mb * 1024 * 1024)
              (mkdtemp_name (files w) (dirs w)) Hexport (range n) []
              (set_dirs (union {[mkdtemp_name (files w) (dirs w)]}) w3))
    as (w' & Hrun & _ & Hnew).
  erewrite bind_ret; [|exact Hrun].
  exists w'. split; [reflexivity|]. split; [exact Hnew|].
  apply export_chunks_run in Hrun as (_ & new & Hexports & Hfilter).
  cbn [exports set_dirs] in Hexports. rewrite Hx in Hexports.
  by rewrite (added_app exports w w' new Hexports).
Qed.

(** The way from the call of [_split_audio_file] to its export loop,
    when it returns chunks. *)
Lemma split_inv audio_path max_size_mb w chunk_paths error w' :
  _split_audio_file audio_path max_size_mb w = (Ret (Some chunk_paths, error), w') →
  ∃ audio file_size cd n w0,
    from_file audio_path = Ret audio ∧
    getsize audio_path w0 = (Ret file_size, w0) ∧
    max_size_mb * 1024 * 1024 < file_size ∧
    chunk_duration_ms file_size (max_size_mb * 1024 * 1024) (Z.of_N audio) = Ret cd ∧
    num_chunks (Z.of_N audio) cd = Ret n ∧
    configured w0 (log_split audio_path w) ∧
    export_chunks cd (Z.of_N audio) (max_size_mb * 1024 * 1024)
      (mkdtemp_name (files w) (dirs w)) (range n) []
      (set_dirs (union {[mkdtemp_name (files w) (dirs w)]}) w0)
    = (Ret chunk_paths, w').
Proof.
  intros Hrun. unfold _split_audio_file in Hrun.
  apply bind_run in Hrun as [([] & w1 & Hlog & Hrun)|(e & _ & [=])].
  injection Hlog as <-.
  destruct (negb PYDUB_AVAILABLE); [discriminate|].
  apply bind_run in Hrun as [(custom & w2 & Hget & Hrun)|(e & _ & [=])].
  injection Hget as _ <-.
  apply bind_run in Hrun as [([available ffmpeg_path] & w3 & Hcheck & Hrun)|(e & _ & [=])].
  pose proof (check_ffmpeg_configured (Some custom) (log_split audio_path w)) as Hc3.
  rewrite Hcheck in Hc3. cbn [snd] in Hc3.
  destruct (negb available); [discriminate|].
  unfold try_except in Hrun.
  match type of Hrun with (let (_, _) := ?body w3 in _) = _ =>
    destruct (body w3) as [[result|e] w4] eqn:Hbody end; [|discriminate].
  injection Hrun as -> ->.
  apply bind_run in Hbody as [([] & w5 & Hconf & Hbody)|(e & _ & [=])].
  pose proof (configure_pydub_configured PYDUB_AVAILABLE ffmpeg_path w3) as (_ & Hc5).
  rewrite Hconf in Hc5. cbn [snd] in Hc5.
  apply bind_run in Hbody as [([] & w6 & Hfix & Hbody)|(e & _ & [=])].
  pose proof (fix_converter_configured (default "" ffmpeg_path) w5) as (_ & Hc6).
  rewrite Hfix in Hc6. cbn [snd] in Hc6.
  apply bind_run in Hbody as [(audio & w7 & Hfrom & Hbody)|(e & _ & [=])].
  unfold lift in Hfrom. injection Hfrom as Hfrom <-.
  apply bind_run in Hbody as [(file_size & w8 & Hsize & Hbody)|(e & _ & [=])].
  pose proof (getsize_same audio_path w6) as Hw8. rewrite Hsize in Hw8. cbn [snd] in Hw8.
  subst w8.
  destruct (Z.leb_spec file_size (max_size_mb * 1024 * 1024)); [discriminate|].
  apply bind_run in Hbody as [(cd & w9 & Hcd & Hbody)|(e & _ & [=])].
  unfold lift in Hcd. injection Hcd as Hcd <-.
  apply bind_run in Hbody as [(temp_dir & w10 & Htmp & Hbody)|(e & _ & [=])].
  unfold mkdtemp in Htmp. injection Htmp as <- <-.
  apply bind_run in Hbody as [(n & w11 & Hn & Hbody)|(e & _ & [=])].
  unfold lift in Hn. injection Hn as Hn <-.
  apply bind_run in Hbody as [(paths & w12 & Hloop & Hbody)|(e & _ & [=])].
  injection Hbody as <- <- <-.
  assert (configured w6 (log_split audio_path w)) as Hc.
  { clear -Hc3 Hc5 Hc6. unfold configured in *.
    repeat match goal with H : _ ∧ _ |- _ => destruct H end. repeat split; congruence. }
  exists audio, file_size, cd, n, w6. repeat split; try done; try apply Hc.
  destruct Hc as (Hf & Hd & _). cbn [files dirs log_split] in Hf, Hd.
  rewrite Hf, Hd. exact Hloop.
Qed.

(** The chunk files an export loop wrote can be opened. *)
Lemma export_chunks_readable cd d max_size temp_dir indices : ∀ chunk_paths w paths w',
  export_chunks cd d max_size temp_dir indices chunk_paths w = (Ret paths, w') →
  unreadable w' ⊆ unreadable w ∧
  ∀ i, i ∈ indices → chunk_file temp_dir i ∉ unreadable w'.
Proof.
  induction indices as [|i indices IH]; intros acc w paths w' Hrun;
    cbn [export_chunks] in Hrun.
  - injection Hrun as <- <-. split; [done|]. intros i Hi. by inversion Hi.
  - apply bind_run in Hrun as [([] & w1 & Hhigh & Hrun)|(e & _ & [=])].
    unfold export_chunk in Hhigh.
    destruct (export _) as [size|e]; [|discriminate]. injection Hhigh as <-.
    apply bind_run in Hrun as [(chunk_size & w2 & Hsize & Hrun)|(e & _ & [=])].
    match type of Hsize with getsize ?p ?w0 = _ =>
      pose proof (getsize_same p w0) as Hw2; rewrite Hsize in Hw2 end.
    cbn [snd] in Hw2. subst w2.
    apply bind_run in Hrun as [([] & w3 & Hlow & Hrun)|(e & _ & [=])].
    assert (unreadable w3 = unreadable w ∖ {[chunk_file temp_dir i]}) as Hu3.
    { destruct (max_size <? chunk_size).
      - apply bind_run in Hlow as [([] & w4 & Hlow & Hrest)|(e & _ & [=])].
        unfold export_chunk in Hlow.
        destruct (export _) as [size'|e]; [|discriminate]. injection Hlow as <-.
        apply bind_run in Hrest as [(? & w5 & Hsize' & Hrest)|(e & _ & [=])].
        injection Hrest as <-.
        match type of Hsize' with getsize ?p ?w0 = _ =>
          pose proof (getsize_same p w0) as Hw5; rewrite Hsize' in Hw5 end.
        cbn [snd] in Hw5. subst w5. cbn [unreadable set_files set_unreadable log_export].
        apply set_eq. intros q. rewrite !elem_of_difference. tauto.
      - by injection Hlow as <-. }
    apply IH in Hrun as (Hsub & Hnew). rewrite Hu3 in Hsub. split.
    + intros q Hq. apply Hsub in Hq. by apply elem_of_difference in Hq as [? _].
    + intros j [->|Hj]%elem_of_cons; [|by apply Hnew].
      intros Hq. apply Hsub in Hq. apply elem_of_difference in Hq as [_ Hq].
      apply Hq. by apply elem_of_singleton.
Qed.

Lemma split_readable audio_path max_size_mb w chunk_paths error w' :
  _split_audio_file audio_path max_size_mb w = (Ret (Some chunk_paths, error), w') →
  ∀ q, q ∈ chunk_paths → q ∉ unreadable w'.
Proof.
  intros Hrun.
  apply split_inv in Hrun as (audio & file_size & cd & n & w0 & _ & _ & _ & _ & _ & _ & Hloop).
  pose proof (export_chunks_run _ _ _ _ _ _ _ _ _ Hloop) as (-> & _).
  apply export_chunks_readable in Hloop as (_ & Hnew).
  intros q (i & -> & Hi)%list_elem_of_fmap. by apply Hnew.
Qed.

End Forward2.

Section Forward3.
Context `{Host} `{Pydub} `{OpenAISdk}.

Lemma emitted_view cb message value w :
  files (emitted cb message value w) = files w ∧
  dirs (emitted cb message value w) = dirs w ∧
  environ (emitted cb message value w) = environ w ∧
  exports (emitted cb message value w) = exports w ∧
  remote_calls (emitted cb message value w) = remote_calls w.
Proof. by destruct cb. Qed.

Lemma announce_chunk_run cb i n v w :
  chunk_progress i n = Ret v →
  ∃ w', announce_chunk cb i n w = (Ret tt, w') ∧
        files w' = files w ∧ exports w' = exports w ∧ remote_calls w' = remote_calls w ∧
        unreadable w' = unreadable w.
Proof.
  intros Hv. unfold announce_chunk. destruct cb; [|by exists w].
  erewrite bind_ret; [|unfold lift; rewrite Hv; reflexivity].
  rewrite emit_run. eexists. split; [reflexivity|]. done.
Qed.

Lemma transcribe_chunks_succeeds self create cb n chunk_paths texts :
  client self = Some create →
  Forall2 (λ p t, create (audio_model self) p = Ret t ∧ Py.startswith t "Error" = false)
          chunk_paths texts →
  ∀ i transcriptions w,
    (∀ p, p ∈ chunk_paths → is_Some (files w !! p) ∧ p ∉ unreadable w) →
    (∀ j, (i ≤ j < i + length chunk_paths)%nat → ∃ v, chunk_progress j n = Ret v) →
    ∃ w',
      transcribe_chunks self cb n i chunk_paths transcriptions w
      = (Ret (inr (transcriptions ++ texts)), w') ∧
      remote_calls w' = remote_calls w ++ zip chunk_paths (Ret <$> texts) ∧
      files w' = files w ∧ exports w' = exports w.
Proof.
  intros Hclient Hanswers.
  induction Hanswers as [|p t chunk_paths texts [Hanswer Hok] _ IH];
    intros i acc w Hfiles Hprogress; cbn [transcribe_chunks].
  - exists w. by rewrite !app_nil_r.
  - destruct (Hprogress i) as [v Hv]; [simpl; lia|].
    destruct (announce_chunk_run cb i n v w Hv) as (w1 & Hann & Hf1 & He1 & Hr1 & Hu1).
    erewrite bind_ret; [|exact Hann].
    destruct (Hfiles p) as [[size Hsize] Hopen]; [by left|].
    erewrite bind_ret;
      [|apply (transcribe_audio_chunk_on_file self p size w1 create);
        [by rewrite Hf1 | by rewrite Hu1 | done]].
    rewrite Hanswer. cbn [reported]. rewrite Hok.
    destruct (IH (S i) (acc ++ [t]) (log_remote p (Ret t) w1)) as (w' & Hrun & Hr & Hf & He).
    { intros q Hq. cbn [files unreadable log_remote]. rewrite Hf1, Hu1. apply Hfiles. by right. }
    { intros j Hj. apply Hprogress. simpl. lia. }
    exists w'. rewrite Hrun, <- app_assoc. split; [done|].
    simpl in Hr, Hf, He. rewrite Hr, Hf, He, Hr1, Hf1, He1, <- app_assoc. done.
Qed.

Lemma transcribe_chunks_keeps_exports self cb n chunk_paths : ∀ i transcriptions,
  preserves (keeps exports) (transcribe_chunks self cb n i chunk_paths transcriptions).
Proof.
  induction chunk_paths as [|p chunk_paths IH]; intros i acc; cbn [transcribe_chunks].
  - preserve.
  - unfold announce_chunk, transcribe_audio_chunk. preserve. apply IH.
Qed.

Lemma remove_chunks_keeps_exports chunk_paths :
  preserves (keeps exports) (remove_chunks chunk_paths).
Proof.
  induction chunk_paths as [|p chunk_paths IH]; cbn [remove_chunks]; preserve. apply IH.
Qed.

Lemma cleanup_keeps_exports chunk_paths temp_dir :
  preserves (keeps exports) (cleanup chunk_paths temp_dir).
Proof. unfold cleanup. preserve. apply remove_chunks_keeps_exports. Qed.

End Forward3.

Section LargeFile.
Context `{Host} `{Pydub} `{OpenAISdk}.

(** C6. A file of 50 MB (in the megabytes of [constants.py], 1024 * 1024
    bytes) and 600000 ms, with the 20 MB chunk ceiling and the factor
    0.9: the plan computes a chunk duration of exactly 216000 ms and
    3 chunks.  When the media tool is found, every export succeeds and
    the client returns for the three chunk files the texts [t1], [t2],
    [t3] (none beginning with [Error]), [process_audio] exports the
    chunks [0, 216000), [216000, 432000), [432000, 600000) in this
    order as [chunk_1.mp3], [chunk_2.mp3], [chunk_3.mp3], calls the
    client three times, once per chunk file in the same order, and
    returns [t1], [t2], [t3] joined by two newlines. *)
Theorem large_file_three_chunks self create p cb w ffmpeg_path t1 t2 t3 :
  let temp_dir := mkdtemp_name (files w) (dirs w) in
  Py.truthy p = true →
  Py.any (Py.endswith (Py.lower p)) SUPPORTED_FORMATS = true →
  files w !! p = Some (50 * 1024 * 1024)%N →
  from_file p = Ret 600000%N →
  PYDUB_AVAILABLE = true →
  fst (check_ffmpeg (Some (default "" (environ w !! "FFMPEG_PATH"))) w)
  = Ret (true, ffmpeg_path) →
  (∀ c, ∃ n, export c = Ret n) →
  client self = Some create →
  create (audio_model self) (chunk_file temp_dir 0) = Ret t1 →
  create (audio_model self) (chunk_file temp_dir 1) = Ret t2 →
  create (audio_model self) (chunk_file temp_dir 2) = Ret t3 →
  Py.startswith t1 "Error" = false →
  Py.startswith t2 "Error" = false →
  Py.startswith t3 "Error" = false →
  chunk_duration_ms (50 * 1024 * 1024) (CHUNK_SIZE_MB * 1024 * 1024) 600000 = Ret 216000 ∧
  num_chunks 600000 216000 = Ret 3 ∧
  chunk_ranges w (snd (process_audio self (Some p) cb w))
  = [(0, 216000); (216000, 432000); (432000, 600000)] ∧
  chunk_files w (snd (process_audio self (Some p) cb w))
  = [chunk_file temp_dir 0; chunk_file temp_dir 1; chunk_file temp_dir 2] ∧
  joinpath temp_dir "chunk_1.mp3" = chunk_file temp_dir 0 ∧
  joinpath temp_dir "chunk_2.mp3" = chunk_file temp_dir 1 ∧
  joinpath temp_dir "chunk_3.mp3" = chunk_file temp_dir 2 ∧
  added remote_calls w (snd (process_audio self (Some p) cb w))
  = [(chunk_file temp_dir 0, Ret t1); (chunk_file temp_dir 1, Ret t2);
     (chunk_file temp_dir 2, Ret t3)] ∧
  fst (process_audio self (Some p) cb w)
  = Ret (t1 +:+ (nl +:+ nl) +:+ t2 +:+ (nl +:+ nl) +:+ t3).
Proof.
  intros temp_dir Hp Hfmt Hfile Hfrom Hpydub Htool Hexport Hclient Ha1 Ha2 Ha3 Hok1 Hok2 Hok3.
  assert (chunk_duration_ms (50 * 1024 * 1024) (CHUNK_SIZE_MB * 1024 * 1024) 600000
          = Ret 216000) as Hcd by (vm_compute; reflexivity).
  assert (num_chunks 600000 216000 = Ret 3) as Hn by (vm_compute; reflexivity).
  split; [exact Hcd|]. split; [exact Hn|].
  (* the run up to the split *)
  destruct (emitted_view cb "Processing file..." 10 w) as (Hfa & Hda & Hea & Hxa & Hra).
  fold (announced cb w) in Hfa, Hda, Hea, Hxa, Hra.
  destruct (emitted_view cb PROGRESS_SPLITTING 10 (announced cb w))
    as (Hfs & Hds & Hes & Hxs & Hrs).
  set (ws := emitted cb PROGRESS_SPLITTING 10 (announced cb w)) in *.
  assert (files ws = files w) as Hfw by congruence.
  assert (dirs ws = dirs w) as Hdw by congruence.
  assert (environ ws = environ w) as Hew by congruence.
  assert (fst (check_ffmpeg (Some (default "" (environ ws !! "FFMPEG_PATH"))) ws)
          = Ret (true, ffmpeg_path)) as Htool'.
  { rewrite Hew. rewrite <- Htool. by apply check_ffmpeg_same_view. }
  assert (files ws !! p = Some (50 * 1024 * 1024)%N) as Hfile' by (rewrite Hfw; exact Hfile).
  assert (CHUNK_SIZE_MB * 1024 * 1024 < Z.of_N (50 * 1024 * 1024)) as Hbig
    by (vm_compute; reflexivity).
  destruct (split_succeeds p CHUNK_SIZE_MB ws ffmpeg_path 600000%N (50 * 1024 * 1024)%N
              216000 3 Hpydub Htool' Hfrom Hfile' Hbig Hcd Hn Hexport)
    as (w3 & Hsplit & Hchunks & Hfilter).
  rewrite Hfw, Hdw in Hsplit, Hchunks, Hfilter. fold temp_dir in Hsplit, Hchunks, Hfilter.
  change (range 3) with [0; 1; 2]%nat in Hsplit, Hchunks, Hfilter.
  cbn [fmap list_fmap] in Hsplit, Hfilter.
  pose proof (kept remote_calls _ _ _ _ (split_keeps_remote_calls p CHUNK_SIZE_MB) Hsplit)
    as Hr3.
  (* the transcription loop *)
  destruct (transcribe_chunks_succeeds self create cb 3
              [chunk_file temp_dir 0; chunk_file temp_dir 1; chunk_file temp_dir 2]
              [t1; t2; t3] Hclient) with (i := 0%nat) (transcriptions := @nil string) (w := w3)
    as (w4 & Hloop & Hr4 & Hf4 & Hx4).
  { repeat constructor; done. }
  { intros q Hq. split; [|by apply (split_readable _ _ _ _ _ _ Hsplit)].
    apply list_elem_of_In in Hq. cbn [In] in Hq.
    destruct Hq as [<-|[<-|[<-|[]]]]; apply Hchunks; apply list_elem_of_In; cbn [In]; tauto. }
  { intros j Hj. cbn [length Nat.add] in Hj.
    assert (j = 0 ∨ j = 1 ∨ j = 2)%nat as [-> | [-> | ->]] by lia;
      eexists; vm_compute; reflexivity. }
  (* the whole run *)
  assert (∃ wf,
    transcribe_audio self p cb (announced cb w)
    = (Ret (t1 +:+ (nl +:+ nl) +:+ t2 +:+ (nl +:+ nl) +:+ t3), wf) ∧
    exports wf = exports w3 ∧ remote_calls wf = remote_calls w4) as (wf & Hta & Hxf & Hrf).
  { unfold transcribe_audio. rewrite Hclient.
    rewrite bool_decide_eq_true_2 by eauto. cbn [negb].
    erewrite bind_ret; [|apply getsize_file; rewrite Hfa; exact Hfile].
    assert ((MAX_FILE_SIZE_BYTES <? Z.of_N (50 * 1024 * 1024)) = true) as ->
      by (vm_compute; reflexivity).
    erewrite bind_ret; [|apply emit_run]. fold ws.
    erewrite bind_ret; [|exact Hsplit]. cbn [from_option].
    unfold try_finally.
    erewrite bind_ret; [|exact Hloop]. cbn [app].
    erewrite bind_ret; [|apply emit_run].
    erewrite bind_ret; [|apply emit_run].
    unfold mret, M_ret, ret. cbv beta iota.
    match goal with |- context [cleanup ?ps ?d ?v] =>
      pose proof (cleanup_keeps_exports ps d v) as Hcx;
      pose proof (cleanup_keeps_remote_calls ps d v) as Hcr;
      destruct (cleanup ps d v) as [rc wc] end.
    unfold keeps in Hcx, Hcr. cbn [fst snd] in Hcx, Hcr. cbn [fst snd].
    unfold Py.join. cbn [String.concat].
    eexists. split; [reflexivity|].
    rewrite Hcx, Hcr.
    destruct (emitted_view cb PROGRESS_COMPLETE 100
                (emitted cb PROGRESS_COMBINING 95 w4)) as (_ & _ & _ & -> & ->).
    destruct (emitted_view cb PROGRESS_COMBINING 95 w4) as (_ & _ & _ & -> & ->).
    split; [exact Hx4 | reflexivity]. }
  assert (process_audio self (Some p) cb w
          = (Ret (t1 +:+ (nl +:+ nl) +:+ t2 +:+ (nl +:+ nl) +:+ t3), wf)) as Hrun.
  { unfold process_audio. erewrite bind_ret; [|apply emit_run]. fold (announced cb w).
    cbn [from_option default]. unfold id. rewrite Hp. cbn [negb].
    unfold try_except. erewrite bind_ret; [|reflexivity].
    assert (exists_ p (announced cb w) = true) as ->.
    { unfold exists_. rewrite Hfa, Hfile. rewrite bool_decide_eq_true_2 by eauto. done. }
    cbn [negb]. rewrite Hfmt. cbn [negb].
    erewrite bind_ret; [|exact Hta].
    match goal with |- context [if ?b then _ else _] => destruct b end; reflexivity. }
  rewrite Hrun. cbn [fst snd].
  assert (added exports w wf = added exports ws w3) as Hadded.
  { unfold added. by rewrite Hxf, Hxs, Hxa. }
  assert (Py.str 1 = "1" ∧ Py.str 2 = "2" ∧ Py.str 3 = "3") as (Hs1 & Hs2 & Hs3)
    by (repeat split; vm_compute; reflexivity).
  split; [|split; [|split; [|split; [|split; [|split]]]]].
  - unfold chunk_ranges. rewrite Hadded, Hfilter. reflexivity.
  - unfold chunk_files. rewrite Hadded, Hfilter. reflexivity.
  - unfold chunk_file. change (Z.of_nat 0 + 1) with 1. by rewrite Hs1.
  - unfold chunk_file. change (Z.of_nat 1 + 1) with 2. by rewrite Hs2.
  - unfold chunk_file. change (Z.of_nat 2 + 1) with 3. by rewrite Hs3.
  - apply added_app. rewrite Hrf, Hr4, Hr3, Hrs, Hra. reflexivity.
  - reflexivity.
Qed.


End LargeFile.

Lemma large_file_three_chunks_witness :
  fst (@process_audio Hosts.posix Scenario.studio Scenario.working (Some "/in/talk.mp3") true
         Scenario.desk)
  = Ret ("Good morning." +:+ (nl +:+ nl) +:+ "Today we look at sorting." +:+ (nl +:+ nl) +:+
         "Thank you.").
Proof.
  refine (proj2 (proj2 (proj2 (proj2 (proj2 (proj2 (proj2 (proj2
    (@large_file_three_chunks Hosts.posix Scenario.studio Scenario.working
       (Scenario.answering [(Scenario.chunk1, Ret "Good morning.");
                            (Scenario.chunk2, Ret "Today we look at sorting.");
                            (Scenario.chunk3, Ret "Thank you.");
                            ("/in/memo.wav", Ret "Buy milk.")])
       "/in/talk.mp3" true Scenario.desk (Some "/usr/bin/ffmpeg")
       "Good morning." "Today we look at sorting." "Thank you."
       _ _ _ _ _ _ _ _ _ _ _ _ _ _))))))))).
  all: try (vm_compute; reflexivity).
  intros c. eexists. reflexivity.
Defined.

(** * Further properties of the code *)

(** ** Strings *)

Lemma append_nil_r s : s +:+ "" = s.
Proof. induction s as [|c s IH]; [done|]. change (String c (s +:+ "") = String c s). by rewrite IH. Qed.

Lemma append_assoc a b c : (a +:+ b) +:+ c = a +:+ (b +:+ c).
Proof.
  induction a as [|x a IH]; [done|].
  change (String x ((a +:+ b) +:+ c) = String x (a +:+ (b +:+ c))). by rewrite IH.
Qed.

Lemma rev_app_append s : ∀ acc t, String.rev_app s acc +:+ t = String.rev_app s (acc +:+ t).
Proof. induction s as [|c s IH]; intros acc t; [done|]. cbn [String.rev_app]. by rewrite IH. Qed.

Lemma rev_app_rev s acc : String.rev_app s acc = String.rev s +:+ acc.
Proof. unfold String.rev. by rewrite rev_app_append. Qed.

Lemma rev_append a b : String.rev (a +:+ b) = String.rev b +:+ String.rev a.
Proof.
  unfold String.rev. generalize "" at 1 3. induction a as [|c a IH]; intros acc.
  - change ("" +:+ b) with b. by rewrite rev_app_append.
  - change (String c a +:+ b) with (String c (a +:+ b)). cbn [String.rev_app]. apply IH.
Qed.

Lemma rev_involutive s : String.rev (String.rev s) = s.
Proof.
  induction s as [|c s IH]; [done|].
  change (String c s) with (String c "" +:+ s) at 1. rewrite rev_append, rev_append, IH.
  reflexivity.
Qed.

Lemma prefix_append a b : String.prefix a (a +:+ b) = true.
Proof.
  induction a as [|c a IH]; [by destruct b|].
  change (String.prefix (String c a) (String c (a +:+ b)) = true).
  cbn [String.prefix]. by destruct (Ascii.ascii_dec c c).
Qed.

Lemma lower_append a b : Py.lower (a +:+ b) = Py.lower a +:+ Py.lower b.
Proof.
  induction a as [|c a IH]; [done|].
  change (Py.lower (String c (a +:+ b)) = String (Py.lower_ascii c) (Py.lower a +:+ Py.lower b)).
  cbn [Py.lower]. by rewrite IH.
Qed.

Lemma endswith_append a b : Py.endswith (a +:+ b) b = true.
Proof. unfold Py.endswith. rewrite rev_append. apply prefix_append. Qed.


(** ** The temporary files of a run *)

Section Cleanup.
Context `{Host} `{Pydub} `{OpenAISdk}.

(** What the export loop does to the file system: it writes the chunk
    files and nothing else. *)
Lemma export_chunks_fs cd d max_size temp_dir indices : ∀ chunk_paths w paths w',
  export_chunks cd d max_size temp_dir indices chunk_paths w = (Ret paths, w') →
  dirs w' = dirs w ∧ undeletable w' = undeletable w ∧
  (∀ q, q ∉ (chunk_file temp_dir <$> indices) → files w' !! q = files w !! q) ∧
  (∀ q, is_Some (files w !! q) → is_Some (files w' !! q)) ∧
  (∀ q, q ∈ (chunk_file temp_dir <$> indices) → is_Some (files w' !! q)).
Proof.
  induction indices as [|i indices IH]; intros acc w paths w' Hrun;
    cbn [export_chunks] in Hrun.
  - injection Hrun as <- <-. repeat split; try done. intros q Hq. by inversion Hq.
  - apply bind_run in Hrun as [([] & w1 & Hhigh & Hrun)|(e & _ & [=])].
    unfold export_chunk in Hhigh.
    destruct (export _) as [size|e]; [|discriminate]. injection Hhigh as <-.
    apply bind_run in Hrun as [(chunk_size & w2 & Hsize & Hrun)|(e & _ & [=])].
    match type of Hsize with getsize ?p ?w0 = _ =>
      pose proof (getsize_same p w0) as Hw2; rewrite Hsize in Hw2 end.
    cbn [snd] in Hw2. subst w2.
    apply bind_run in Hrun as [([] & w3 & Hlow & Hrun)|(e & _ & [=])].
    assert (dirs w3 = dirs w ∧ undeletable w3 = undeletable w ∧
            ∃ s, files w3 = <[chunk_file temp_dir i := s]> (files w)) as (Hd3 & Hk3 & s & Hf3).
    { destruct (max_size <? chunk_size).
      - apply bind_run in Hlow as [([] & w4 & Hlow & Hrest)|(e & _ & [=])].
        unfold export_chunk in Hlow.
        destruct (export _) as [size'|e]; [|discriminate]. injection Hlow as <-.
        apply bind_run in Hrest as [(? & w5 & Hsize' & Hrest)|(e & _ & [=])].
        injection Hrest as <-.
        match type of Hsize' with getsize ?p ?w0 = _ =>
          pose proof (getsize_same p w0) as Hw5; rewrite Hsize' in Hw5 end.
        cbn [snd] in Hw5. subst w5. split; [reflexivity|]. split; [reflexivity|].
        exists size'. cbn [files set_files set_unreadable log_export]. apply insert_insert_eq.
      - injection Hlow as <-. split; [reflexivity|]. split; [reflexivity|]. by exists size. }
    apply IH in Hrun as (Hd & Hk & Hout & Hmono & Hin).
    rewrite Hd3 in Hd. rewrite Hk3 in Hk. split; [exact Hd|]. split; [exact Hk|].
    rewrite Hf3 in Hout, Hmono.
    split; [|split].
    + intros q Hq. rewrite fmap_cons in Hq. apply not_elem_of_cons in Hq as [Hne Hq].
      rewrite (Hout q Hq). by apply lookup_insert_ne.
    + intros q Hq. apply Hmono.
      destruct (decide (chunk_file temp_dir i = q)) as [<-|Hne].
      * rewrite lookup_insert_eq. eauto.
      * by rewrite lookup_insert_ne.
    + intros q Hq. rewrite fmap_cons in Hq. apply elem_of_cons in Hq as [->|Hq].
      * apply Hmono. rewrite lookup_insert_eq. eauto.
      * by apply Hin.
Qed.

(** What a successful split does to the file system: one new directory,
    the one [mkdtemp] names, and in it the chunk files. *)
Lemma split_fs audio_path max_size_mb w chunk_paths error w' :
  _split_audio_file audio_path max_size_mb w = (Ret (Some chunk_paths, error), w') →
  dirs w' = {[mkdtemp_name (files w) (dirs w)]} ∪ dirs w ∧
  undeletable w' = undeletable w ∧
  (∀ q, q ∉ chunk_paths → files w' !! q = files w !! q) ∧
  (∀ q, q ∈ chunk_paths → is_Some (files w' !! q)) ∧
  chunk_paths ≠ [].
Proof.
  intros Hrun.
  assert (chunk_paths ≠ []) as Hne.
  { pose proof Hrun as Hplan.
    apply split_run in Hplan as (audio & file_size & cd & n & temp_dir &
      Hfrom & Hbig & Hcd & Hn & -> & _ & _).
    assert (0 ≤ Z.of_N audio) as Hd0 by lia.
    pose proof (chunk_duration_ms_nonneg _ _ _ _ Hd0 Hcd) as Hcd0.
    pose proof (num_chunks_positive_divisor _ _ _ Hd0 Hcd0 Hn) as Hcdpos.
    assert (0 < Z.of_N audio) as Hd.
    { destruct (Z.of_N audio) eqn:Hz; [|lia|lia].
      rewrite chunk_duration_ms_zero in Hcd. injection Hcd as <-. lia. }
    destruct (num_chunks_ceil _ _ _ Hd Hcdpos Hn) as [_ Hnpos].
    unfold range. destruct (Z.to_nat n) eqn:Hz; [lia|]. done. }
  apply split_inv in Hrun as (audio & file_size & cd & n & w0 &
    _ & _ & _ & _ & _ & Hc & Hloop).
  destruct Hc as (Hf & Hd & _ & _ & _ & _ & _ & Hk).
  cbn [files dirs undeletable log_split] in Hf, Hd, Hk.
  pose proof (export_chunks_run _ _ _ _ _ _ _ _ _ Hloop) as (-> & _).
  apply export_chunks_fs in Hloop as (Hd' & Hk' & Hout & _ & Hin).
  cbn [files dirs undeletable set_dirs] in Hd', Hk', Hout. cbn [app] in *.
  rewrite <- Hf in Hout. rewrite Hd', <- Hd. rewrite Hk', <- Hk. done.
Qed.

Lemma transcribe_chunks_keeps_files self cb n chunk_paths : ∀ i transcriptions,
  preserves (keeps files) (transcribe_chunks self cb n i chunk_paths transcriptions).
Proof.
  induction chunk_paths as [|p chunk_paths IH]; intros i acc; cbn [transcribe_chunks].
  - preserve.
  - unfold announce_chunk, transcribe_audio_chunk. preserve. apply IH.
Qed.

Lemma transcribe_chunks_keeps_dirs self cb n chunk_paths : ∀ i transcriptions,
  preserves (keeps dirs) (transcribe_chunks self cb n i chunk_paths transcriptions).
Proof.
  induction chunk_paths as [|p chunk_paths IH]; intros i acc; cbn [transcribe_chunks].
  - preserve.
  - unfold announce_chunk, transcribe_audio_chunk. preserve. apply IH.
Qed.

Lemma transcribe_chunks_keeps_undeletable self cb n chunk_paths : ∀ i transcriptions,
  preserves (keeps undeletable) (transcribe_chunks self cb n i chunk_paths transcriptions).
Proof.
  induction chunk_paths as [|p chunk_paths IH]; intros i acc; cbn [transcribe_chunks].
  - preserve.
  - unfold announce_chunk, transcribe_audio_chunk. preserve. apply IH.
Qed.

(** The first loop of the [finally] block deletes every chunk file,
    when no chunk path is a directory and nothing prevents the
    removal. *)
Lemma remove_chunks_fs chunk_paths : ∀ w,
  (∀ q, q ∈ chunk_paths → (q ∉ dirs w) ∧ (q ∉ undeletable w)) →
  ∃ w', remove_chunks chunk_paths w = (Ret tt, w') ∧ dirs w' = dirs w ∧
        undeletable w' = undeletable w ∧
        ∀ q, files w' !! q = if decide (q ∈ chunk_paths) then None else files w !! q.
Proof.
  induction chunk_paths as [|p chunk_paths IH]; intros w Hfree; cbn [remove_chunks].
  - exists w. repeat split; try done.
  - erewrite bind_ret; [|reflexivity].
    destruct (Hfree p) as [Hnodir Hdel]; [left|].
    assert (exists_ p w = isfile p w) as ->.
    { unfold exists_, isfile. rewrite (bool_decide_eq_false_2 (p ∈ dirs w)) by done.
      apply orb_false_r. }
    destruct (isfile p w) eqn:Hfile.
    + unfold when. erewrite bind_ret;
        [|unfold remove; rewrite Hfile, (bool_decide_eq_false_2 _ Hdel); reflexivity].
      destruct (IH (set_files (delete p) w)) as (w' & Hrun & Hd & Hk & Hf).
      { intros q Hq. apply Hfree. by right. }
      exists w'. split; [exact Hrun|]. split; [exact Hd|]. split; [exact Hk|].
      intros q. rewrite Hf. cbn [files set_files].
      destruct (decide (q = p)) as [->|Hne].
      * rewrite lookup_delete_eq. rewrite (decide_True (P := p ∈ p :: chunk_paths)) by left.
        by destruct (decide (p ∈ chunk_paths)).
      * rewrite lookup_delete_ne by done.
        destruct (decide (q ∈ chunk_paths)) as [Hin|Hout].
        -- rewrite decide_True; [done|by right].
        -- rewrite decide_False; [done|]. intros [?|?]%elem_of_cons; done.
    + unfold when. erewrite bind_ret; [|reflexivity].
      destruct (IH w) as (w' & Hrun & Hd & Hk & Hf).
      { intros q Hq. apply Hfree. by right. }
      exists w'. split; [exact Hrun|]. split; [exact Hd|]. split; [exact Hk|].
      intros q. rewrite Hf.
      destruct (decide (q = p)) as [->|Hne].
      * rewrite (decide_True (P := p ∈ p :: chunk_paths)) by left.
        unfold isfile in Hfile. apply bool_decide_eq_false in Hfile.
        destruct (decide (p ∈ chunk_paths)); [done|].
        destruct (files w !! p) eqn:Hl; [|done]. exfalso. apply Hfile. eauto.
      * destruct (decide (q ∈ chunk_paths)) as [Hin|Hout].
        -- rewrite decide_True; [done|by right].
        -- rewrite decide_False; [done|]. intros [?|?]%elem_of_cons; done.
Qed.

(** The [finally] block, on a directory that holds the chunk files and
    nothing else, when nothing prevents the removal: the files and the
    directory are gone afterwards. *)
Lemma cleanup_fs chunk_paths temp_dir w :
  temp_dir ∈ dirs w → temp_dir ∉ undeletable w →
  (∀ q, q ∈ chunk_paths → (q ∉ dirs w) ∧ (q ∉ undeletable w)) →
  (∀ q, is_Some (files w !! q) → q ∉ chunk_paths → dirname q ≠ temp_dir) →
  (∀ q, q ∈ dirs w → q = temp_dir ∨ dirname q ≠ temp_dir) →
  dirs (snd (cleanup chunk_paths temp_dir w)) = dirs w ∖ {[temp_dir]} ∧
  ∀ q, files (snd (cleanup chunk_paths temp_dir w)) !! q
       = if decide (q ∈ chunk_paths) then None else files w !! q.
Proof.
  intros Htmp Hdel Hfree Hfiles Hdirs.
  destruct (remove_chunks_fs chunk_paths w Hfree) as (w1 & Hrun & Hd1 & Hk1 & Hf1).
  unfold cleanup, try_except.
  erewrite bind_ret; [|exact Hrun].
  erewrite bind_ret; [|reflexivity].
  assert (exists_ temp_dir w1 = true) as ->.
  { unfold exists_. rewrite (bool_decide_eq_true_2 (temp_dir ∈ dirs w1)) by (by rewrite Hd1).
    apply orb_true_r. }
  unfold when, rmdir, isdir.
  rewrite (bool_decide_eq_true_2 (temp_dir ∈ dirs w1)) by (by rewrite Hd1). cbn [negb].
  rewrite (bool_decide_eq_false_2 (temp_dir ∈ undeletable w1)) by (by rewrite Hk1).
  rewrite bool_decide_eq_true_2.
  2:{ intros q Hq. apply elem_of_dom in Hq. rewrite Hf1 in Hq.
      destruct (decide (q ∈ chunk_paths)); [by destruct Hq|]. by apply Hfiles. }
  rewrite bool_decide_eq_true_2.
  2:{ intros q Hq. rewrite Hd1 in Hq. by apply Hdirs. }
  cbn [andb snd dirs files set_dirs]. by rewrite Hd1.
Qed.



(** X1. When the split of a file above the size limit succeeded and the
    directory [mkdtemp] named is new - nothing of the file system lies
    in it - while the chunk paths lie directly in it, and nothing
    prevents the removal of the chunk files and of the directory, a run
    of [process_audio] leaves the file system exactly as it found it:
    whatever the remote client answered for the chunks, text or error,
    every chunk file and the temporary directory are gone when it
    returns. *)
Theorem chunks_removed_after_transcription
    self create p size cb w chunk_paths error w3 :
  let temp_dir := mkdtemp_name (files w) (dirs w) in
  Py.truthy p = true →
  Py.any (Py.endswith (Py.lower p)) SUPPORTED_FORMATS = true →
  files w !! p = Some size →
  MAX_FILE_SIZE_BYTES < Z.of_N size →
  client self = Some create →
  _split_audio_file p CHUNK_SIZE_MB (emitted cb PROGRESS_SPLITTING 10 (announced cb w))
  = (Ret (Some chunk_paths, error), w3) →
  temp_dir ∉ dirs w →
  (∀ q, is_Some (files w !! q) ∨ q ∈ dirs w → dirname q ≠ temp_dir) →
  (∀ q, q ∈ chunk_paths → dirname q = temp_dir ∧ q ≠ temp_dir) →
  temp_dir ∉ undeletable w →
  (∀ q, q ∈ chunk_paths → q ∉ undeletable w) →
  let w' := snd (process_audio self (Some p) cb w) in
  files w' = files w ∧ dirs w' = dirs w ∧
  isdir temp_dir w' = false ∧
  ∀ q, q ∈ chunk_paths → exists_ q w' = false.
Proof.
  intros temp_dir Hp Hfmt Hfile Hbig Hclient Hsplit Hnew Hfresh Hlaw Htmpdel Hdel.
  destruct (emitted_view cb "Processing file..." 10 w) as (Hfa & Hda & _).
  fold (announced cb w) in Hfa, Hda.
  destruct (emitted_view cb PROGRESS_SPLITTING 10 (announced cb w)) as (Hfs & Hds & _).
  set (ws := emitted cb PROGRESS_SPLITTING 10 (announced cb w)) in *.
  assert (files ws = files w) as Hfw by congruence.
  assert (dirs ws = dirs w) as Hdw by congruence.
  assert (undeletable ws = undeletable w) as Hkw by (unfold ws, announced; by destruct cb).
  pose proof (split_run _ _ _ _ _ _ Hsplit) as (_ & _ & _ & _ & _ & _ & _ & _ & _ & _ & _ & ->).
  destruct (split_fs _ _ _ _ _ _ Hsplit) as (Hd3 & Hk3 & Hout & Hin & Hne).
  rewrite Hfw, Hdw in Hd3. rewrite Hfw in Hout. rewrite Hkw in Hk3. fold temp_dir in Hd3.
  (* the state after the run *)
  assert (∃ r wb, transcribe_audio self p cb (announced cb w)
                  = (r, snd (cleanup chunk_paths temp_dir wb)) ∧
                  files wb = files w3 ∧ dirs wb = dirs w3 ∧
                  undeletable wb = undeletable w3) as (r & wb & Hta & Hfb & Hdb & Hkb).
  { unfold transcribe_audio. rewrite Hclient.
    rewrite bool_decide_eq_true_2 by eauto. cbn [negb].
    erewrite bind_ret; [|apply getsize_file; rewrite Hfa; exact Hfile].
    apply Z.ltb_lt in Hbig. rewrite Hbig.
    erewrite bind_ret; [|apply emit_run]. fold ws.
    erewrite bind_ret; [|exact Hsplit]. cbn [from_option].
    destruct chunk_paths as [|first rest]; [done|].
    assert (dirname first = temp_dir) as -> by (apply Hlaw; left).
    unfold try_finally.
    match goal with |- context [let (_, _) := ?body w3 in _] =>
      assert (preserves (keeps files) body) as Hkf;
      [|assert (preserves (keeps dirs) body) as Hkd;
        [|assert (preserves (keeps undeletable) body) as Hkk;
          [|specialize (Hkf w3); specialize (Hkd w3); specialize (Hkk w3);
            destruct (body w3) as [rb wb]]]] end.
    - preserve. apply transcribe_chunks_keeps_files.
    - preserve. apply transcribe_chunks_keeps_dirs.
    - preserve. apply transcribe_chunks_keeps_undeletable.
    - exists rb, wb. done. }
  assert (snd (process_audio self (Some p) cb w) = snd (cleanup chunk_paths temp_dir wb))
    as Hrun.
  { unfold process_audio. erewrite bind_ret; [|apply emit_run]. fold (announced cb w).
    cbn [from_option default]. unfold id. rewrite Hp. cbn [negb].
    unfold try_except. erewrite bind_ret; [|reflexivity].
    assert (exists_ p (announced cb w) = true) as ->.
    { unfold exists_. rewrite Hfa, Hfile. rewrite bool_decide_eq_true_2 by eauto. done. }
    cbn [negb]. rewrite Hfmt. cbn [negb].
    unfold mbind, M_bind, bind. rewrite Hta.
    destruct r as [t|e]; [|reflexivity].
    match goal with |- context [if ?b then _ else _] => destruct b end; reflexivity. }
  intros w'. unfold w'. rewrite Hrun.
  assert (∀ q, q ∈ chunk_paths → (q ∉ dirs w) ∧ files w !! q = None) as Hchunk.
  { intros q Hq. destruct (Hlaw q Hq) as [Hdir _]. split.
    - intros Hqd. by apply (Hfresh q (or_intror Hqd)).
    - destruct (files w !! q) eqn:Hl; [|done]. exfalso.
      apply (Hfresh q); [left; rewrite Hl; eauto|done]. }
  destruct (cleanup_fs chunk_paths temp_dir wb) as [Hdc Hfc].
  { rewrite Hdb, Hd3. apply elem_of_union_l. by apply elem_of_singleton. }
  { by rewrite Hkb, Hk3. }
  { intros q Hq. rewrite Hdb, Hd3, Hkb, Hk3. destruct (Hchunk q Hq) as [Hqd _].
    destruct (Hlaw q Hq) as [_ Hqt]. split; [|by apply Hdel].
    intros [Hqs|Hqw]%elem_of_union; [by apply elem_of_singleton in Hqs|done]. }
  { intros q Hq Hnot. rewrite Hfb, (Hout q Hnot) in Hq. apply Hfresh. by left. }
  { intros q Hq. rewrite Hdb, Hd3 in Hq. apply elem_of_union in Hq as [Hq|Hq].
    - left. by apply elem_of_singleton in Hq.
    - right. apply Hfresh. by right. }
  assert (files (snd (cleanup chunk_paths temp_dir wb)) = files w) as Hfiles.
  { apply map_eq. intros q. rewrite Hfc.
    destruct (decide (q ∈ chunk_paths)) as [Hq|Hq].
    - symmetry. by apply Hchunk.
    - rewrite Hfb. by apply Hout. }
  assert (dirs (snd (cleanup chunk_paths temp_dir wb)) = dirs w) as Hdirs.
  { rewrite Hdc, Hdb, Hd3. apply set_eq. intros q.
    rewrite elem_of_difference, elem_of_union, elem_of_singleton. split.
    - by intros [[?|?] ?].
    - intros Hq. split; [by right|]. by intros ->. }
  split; [exact Hfiles|]. split; [exact Hdirs|]. split.
  - unfold isdir. rewrite Hdirs. by apply bool_decide_eq_false_2.
  - intros q Hq. destruct (Hchunk q Hq) as [Hqd Hqf].
    unfold exists_. rewrite Hfiles, Hdirs, Hqf.
    rewrite (bool_decide_eq_false_2 (q ∈ dirs w)) by done.
    rewrite bool_decide_eq_false_2; [done|]. by intros [? ?].
Qed.

End Cleanup.

Lemma chunks_removed_after_transcription_witness :
  files (snd (@process_audio Hosts.posix Scenario.studio Scenario.lecture
                (Some "/in/talk.mp3") true Scenario.desk))
  = files Scenario.desk.
Proof.
  refine (proj1 (@chunks_removed_after_transcription Hosts.posix Scenario.studio
                   Scenario.lecture _ "/in/talk.mp3" (50 * Scenario.MB)%N true Scenario.desk
                   [Scenario.chunk1; Scenario.chunk2; Scenario.chunk3] None
                   (snd (@_split_audio_file Hosts.posix Scenario.studio "/in/talk.mp3"
                           CHUNK_SIZE_MB
                           (emitted true PROGRESS_SPLITTING 10 (announced true Scenario.desk))))
                   _ _ _ _ _ _ _ _ _ _ _)).
  - vm_compute; reflexivity.
  - vm_compute; reflexivity.
  - vm_compute; reflexivity.
  - vm_compute; reflexivity.
  - reflexivity.
  - vm_compute; reflexivity.
  - intros Hin. apply (bool_decide_eq_true_2 _) in Hin. vm_compute in Hin. discriminate.
  - intros q [[size Hq]|Hq].
    + apply elem_of_list_to_map_2 in Hq. apply list_elem_of_In in Hq. cbn [In] in Hq.
      destruct Hq as [[= <- _]|[[= <- _]|[[= <- _]|[[= <- _]|[]]]]]; vm_compute; discriminate.
    + apply elem_of_list_to_set in Hq. apply list_elem_of_In in Hq. cbn [In] in Hq.
      destruct Hq as [<-|[<-|[<-|[]]]]; vm_compute; discriminate.
  - intros q Hq. apply list_elem_of_In in Hq. cbn [In] in Hq.
    destruct Hq as [<-|[<-|[<-|[]]]]; split; vm_compute; (reflexivity || discriminate).
  - apply not_elem_of_empty.
  - intros q _. apply not_elem_of_empty.
Defined.



(** ** Runs without the media tools *)

Section MissingTools.
Context `{Host} `{Pydub} `{OpenAISdk}.




End MissingTools.


(** ** Which files are sent *)

Section CallOrder.
Context `{Host} `{Pydub} `{OpenAISdk}.

Lemma transcribe_audio_chunk_path self p w r w' :
  transcribe_audio_chunk self p w = (r, w') →
  ∃ t, r = Ret t ∧ exports w' = exports w ∧
    ((remote_calls w' = remote_calls w ∧ Py.startswith t "Error" = true) ∨
     (∃ answer, remote_calls w' = remote_calls w ++ [(p, answer)])).
Proof.
  intros Hrun. destruct (transcribe_audio_chunk_run self p w) as (t & Ht & Hcases).
  rewrite Hrun in Ht, Hcases. cbn [fst snd] in Ht, Hcases. exists t. split; [done|].
  destruct Hcases as [[-> ?]|(answer & _ & _ & -> & _)].
  - split; [done|]. by left.
  - split; [done|]. right. by eexists.
Qed.

Lemma transcribe_audio_chunk_calls self p w r w' :
  transcribe_audio_chunk self p w = (r, w') →
  exports w' = exports w ∧
  ∃ calls, remote_calls w' = remote_calls w ++ calls ∧ calls.*1 `prefix_of` [p].
Proof.
  intros (t & _ & Hx & [[Hr _]|[answer Hr]])%transcribe_audio_chunk_path.
  - split; [done|]. exists []. split; [by rewrite app_nil_r | apply prefix_nil].
  - split; [done|]. by exists [(p, answer)].
Qed.

Lemma transcribe_chunks_paths self cb n chunk_paths : ∀ i transcriptions w r w',
  transcribe_chunks self cb n i chunk_paths transcriptions w = (r, w') →
  ∃ calls, remote_calls w' = remote_calls w ++ calls ∧ calls.*1 `prefix_of` chunk_paths.
Proof.
  induction chunk_paths as [|p chunk_paths IH]; intros i acc w r w' Hrun;
    cbn [transcribe_chunks] in Hrun.
  - injection Hrun as <- <-. exists []. split; [by rewrite app_nil_r | done].
  - apply bind_run in Hrun as [([] & w1 & Hann & Hrun)|(e & Hann & ->)];
      apply (kept remote_calls) in Hann as Hr1; try apply announce_chunk_keeps_remote_calls.
    2:{ exists []. split; [by rewrite app_nil_r | apply prefix_nil]. }
    apply bind_run in Hrun as [(t & w2 & Hchunk & Hrun)|(e & Hchunk & ->)];
      apply transcribe_audio_chunk_path in Hchunk as (t' & Ht' & _ & Hcases);
      [injection Ht' as <-|discriminate].
    destruct (Py.startswith t "Error") eqn:Hs.
    + injection Hrun as <- <-. destruct Hcases as [[Hr _]|[answer Hr]].
      * exists []. split; [by rewrite app_nil_r, Hr, Hr1 | apply prefix_nil].
      * exists [(p, answer)]. split; [by rewrite Hr, Hr1|].
        by apply prefix_cons, prefix_nil.
    + destruct Hcases as [[_ ?]|[answer Hr]]; [congruence|].
      apply IH in Hrun as (rest & Hrest & Hprefix).
      exists ((p, answer) :: rest). split.
      * rewrite Hrest, Hr, Hr1. by rewrite <- app_assoc.
      * rewrite fmap_cons. by apply prefix_cons.
Qed.

(** A file larger than the ceiling: the split gives at least one chunk
    or says what went wrong, never neither. *)
Lemma split_of_large_file p max_size_mb w size chunk_paths error w3 :
  files w !! p = Some size →
  max_size_mb * 1024 * 1024 < Z.of_N size →
  _split_audio_file p max_size_mb w = (Ret (chunk_paths, error), w3) →
  from_option Py.truthy false error = false →
  ∃ first rest, chunk_paths = Some (first :: rest).
Proof.
  intros Hfile Hbig Hrun Hquiet.
  destruct chunk_paths as [[|first rest]|]; [|by eauto|].
  { apply split_fs in Hrun as (_ & _ & _ & _ & Hne). done. }
  exfalso. unfold _split_audio_file in Hrun.
  apply bind_run in Hrun as [([] & w1 & Hlog & Hrun)|(e & _ & [=])].
  injection Hlog as <-.
  destruct (negb PYDUB_AVAILABLE).
  { injection Hrun as <- <-. discriminate. }
  apply bind_run in Hrun as [(custom & w2 & Hget & Hrun)|(e & _ & [=])].
  injection Hget as _ <-.
  apply bind_run in Hrun as [([available ffmpeg_path] & w4 & Hcheck & Hrun)|(e & _ & [=])].
  pose proof (check_ffmpeg_configured (Some custom) (log_split p w)) as (Hf4 & _).
  rewrite Hcheck in Hf4. cbn [snd files log_split] in Hf4.
  destruct (negb available).
  { injection Hrun as <- <-. discriminate. }
  unfold try_except in Hrun.
  match type of Hrun with (let (_, _) := ?body w4 in _) = _ =>
    destruct (body w4) as [[result|e] w5] eqn:Hbody end.
  2:{ injection Hrun as <- <-. discriminate. }
  injection Hrun as -> ->.
  apply bind_run in Hbody as [([] & w6 & Hconf & Hbody)|(e & _ & [=])].
  pose proof (configure_pydub_configured PYDUB_AVAILABLE ffmpeg_path w4) as (_ & Hf6 & _).
  rewrite Hconf in Hf6. cbn [snd] in Hf6.
  apply bind_run in Hbody as [([] & w7 & Hfix & Hbody)|(e & _ & [=])].
  pose proof (fix_converter_configured (default "" ffmpeg_path) w6) as (_ & Hf7 & _).
  rewrite Hfix in Hf7. cbn [snd] in Hf7.
  apply bind_run in Hbody as [(audio & w8 & Hfrom & Hbody)|(e & _ & [=])].
  unfold lift in Hfrom. injection Hfrom as Hfrom <-.
  apply bind_run in Hbody as [(file_size & w9 & Hsize & Hbody)|(e & _ & [=])].
  erewrite getsize_file in Hsize; [|rewrite Hf7, Hf6, Hf4; exact Hfile].
  injection Hsize as <- <-.
  destruct (Z.leb_spec (Z.of_N size) (max_size_mb * 1024 * 1024)); [lia|].
  repeat (apply bind_run in Hbody as [(? & ? & _ & Hbody)|(? & _ & [=])]).
  discriminate.
Qed.

Lemma transcribe_audio_paths self audio_path cb w r w' :
  transcribe_audio self audio_path cb w = (r, w') →
  ∃ calls, remote_calls w' = remote_calls w ++ calls ∧
    ((calls.*1 `prefix_of` [audio_path] ∧
      ∀ size, files w !! audio_path = Some size → Z.of_N size ≤ MAX_FILE_SIZE_BYTES) ∨
     calls.*1 `prefix_of` chunk_files w w').
Proof.
  intros Hrun. unfold transcribe_audio in Hrun.
  destruct (bool_decide (is_Some (client self))); cbn [negb] in Hrun.
  2:{ injection Hrun as <- <-. exists []. split; [by rewrite app_nil_r|]. right. apply prefix_nil. }
  apply bind_run in Hrun as [(file_size & w1 & Hsz & Hrun)|(e & Hsz & ->)];
    pose proof (getsize_same audio_path w) as Hw; rewrite Hsz in Hw; cbn [snd] in Hw.
  2:{ subst w'. exists []. split; [by rewrite app_nil_r|]. right. apply prefix_nil. }
  subst w1.
  destruct (Z.ltb_spec MAX_FILE_SIZE_BYTES file_size) as [Hlarge|Hsmall].
  - apply bind_run in Hrun as [([] & w2 & Hemit & Hrun)|(e & Hemit & ->)].
    2:{ exfalso. pose proof (emit_returns cb PROGRESS_SPLITTING 10 w) as Hret.
        by rewrite Hemit in Hret. }
    apply (kept remote_calls) in Hemit as Hr2; [|by apply emit_keeps].
    apply (kept exports) in Hemit as Hx2; [|by apply emit_keeps].
    apply (kept files) in Hemit as Hf2; [|by apply emit_keeps].
    apply bind_run in Hrun as [([chunk_paths error] & w3 & Hsplit & Hrun)|(e & Hsplit & ->)];
      apply (kept remote_calls) in Hsplit as Hr3; try apply split_keeps_remote_calls.
    2:{ exists []. split; [by rewrite app_nil_r, Hr3, Hr2|]. right. apply prefix_nil. }
    destruct (from_option Py.truthy false error) eqn:Hquiet.
    { injection Hrun as <- <-. exists [].
      split; [by rewrite app_nil_r, Hr3, Hr2|]. right. apply prefix_nil. }
    destruct chunk_paths as [[|first chunk_paths]|].
    1,3: apply transcribe_audio_chunk_calls in Hrun as (_ & calls & Hcalls & Hprefix);
         exists calls; (split; [by rewrite Hcalls, Hr3, Hr2|]); left; (split; [done|]);
         intros size Hfile; exfalso;
         erewrite getsize_file in Hsz by exact Hfile; injection Hsz as <-;
         rewrite <- Hf2 in Hfile;
         assert (CHUNK_SIZE_MB * 1024 * 1024 < Z.of_N size) as Hbig
           by (unfold MAX_FILE_SIZE_BYTES, MAX_FILE_SIZE_MB, CHUNK_SIZE_MB in *; lia);
         destruct (split_of_large_file _ _ _ _ _ _ _ Hfile Hbig Hsplit Hquiet)
           as (? & ? & [=]).
    apply split_run in Hsplit as (audio & size & cd & n & temp_dir &
      _ & _ & _ & _ & Hpaths & Hfilter & _).
    unfold try_finally in Hrun.
    match type of Hrun with context [cleanup ?ps ?d] =>
      pose proof (cleanup_keeps_remote_calls ps d) as Hcr;
      pose proof (cleanup_keeps_exports ps d) as Hcx end.
    match type of Hrun with (let (_, _) := ?body w3 in _) = _ =>
      assert (preserves (keeps exports) body) as Hbx;
      [preserve; apply transcribe_chunks_keeps_exports|];
      specialize (Hbx w3); destruct (body w3) as [r4 w4] eqn:Hbody end.
    unfold keeps in Hbx. cbn [snd] in Hbx.
    injection Hrun as <- <-.
    assert (∃ calls, remote_calls w4 = remote_calls w3 ++ calls ∧
                     calls.*1 `prefix_of` first :: chunk_paths) as (calls & Hcalls & Hprefix).
    { apply bind_run in Hbody as [(x & w5 & Hloop & Hrest)|(e & Hloop & ->)];
        apply transcribe_chunks_paths in Hloop as (calls & Hcalls & Hprefix);
        exists calls; (split; [|done]); [|done].
      destruct x as [t|transcriptions]; [by injection Hrest as <- <-|].
      revert Hrest. unfold mbind, M_bind, bind, emit, when, modify, mret, M_ret, ret.
      destruct cb; intros [= _ <-]; done. }
    exists calls. split; [by rewrite (Hcr w4), Hcalls, Hr3, Hr2|]. right.
    assert (chunk_files w (snd (cleanup (first :: chunk_paths) (dirname first) w4))
            = first :: chunk_paths) as ->; [|done].
    unfold chunk_files, added. rewrite (Hcx w4), Hbx, <- Hx2.
    fold (added exports w2 w3). rewrite Hfilter, Hpaths, <- list_fmap_compose. done.
  - apply bind_run in Hrun as [([] & w2 & Hemit & Hrun)|(e & Hemit & ->)].
    2:{ exfalso. pose proof (emit_returns cb PROGRESS_TRANSCRIBING 30 w) as Hret.
        by rewrite Hemit in Hret. }
    apply (kept remote_calls) in Hemit as Hr2; [|by apply emit_keeps].
    unfold try_except, mbind, M_bind, bind in Hrun.
    destruct (transcribe_audio_chunk self audio_path w2) as [r3 w3] eqn:Hchunk.
    apply transcribe_audio_chunk_path in Hchunk as (t & -> & _ & Hcases).
    assert (remote_calls w' = remote_calls w3) as ->.
    { revert Hrun. unfold emit, when, modify, mret, M_ret, ret.
      by destruct cb; intros [= _ <-]. }
    assert (∀ size, files w !! audio_path = Some size → Z.of_N size ≤ MAX_FILE_SIZE_BYTES)
      as Hwithin.
    { intros size Hfile. erewrite getsize_file in Hsz by exact Hfile. by injection Hsz as <-. }
    destruct Hcases as [[Hr _]|[answer Hr]].
    + exists []. split; [by rewrite app_nil_r, Hr, Hr2|]. right. apply prefix_nil.
    + exists [(audio_path, answer)]. split; [by rewrite Hr, Hr2|]. by left.
Qed.

Lemma process_audio_paths self audio_path cb w r w' :
  process_audio self audio_path cb w = (r, w') →
  ((added remote_calls w w').*1 `prefix_of` [default "" audio_path] ∧
   ∀ size, files w !! default "" audio_path = Some size → Z.of_N size ≤ MAX_FILE_SIZE_BYTES) ∨
  (added remote_calls w w').*1 `prefix_of` chunk_files w w'.
Proof.
  intros Hrun. unfold process_audio in Hrun.
  apply bind_run in Hrun as [([] & w1 & Hemit & Hrun)|(e & Hemit & ->)].
  2:{ exfalso. pose proof (emit_returns cb "Processing file..." 10 w) as Hr.
      by rewrite Hemit in Hr. }
  apply (kept remote_calls) in Hemit as Hr1; [|by apply emit_keeps].
  apply (kept exports) in Hemit as Hx1; [|by apply emit_keeps].
  apply (kept files) in Hemit as Hf1; [|by apply emit_keeps].
  assert (remote_calls w' = remote_calls w →
          (added remote_calls w w').*1 `prefix_of` chunk_files w w') as Hnone.
  { intros Heq. rewrite (added_app remote_calls w w' []); [apply prefix_nil|].
    by rewrite app_nil_r. }
  destruct (negb (from_option Py.truthy false audio_path)).
  { injection Hrun as <- <-. right. by apply Hnone. }
  unfold try_except, mbind, M_bind, bind, gets in Hrun.
  destruct (negb (exists_ (default "" audio_path) w1)).
  { injection Hrun as <- <-. right. by apply Hnone. }
  destruct (negb (Py.any _ SUPPORTED_FORMATS)).
  { injection Hrun as <- <-. right. by apply Hnone. }
  destruct (transcribe_audio self (default "" audio_path) cb w1) as [r2 w2] eqn:Hta.
  apply transcribe_audio_paths in Hta as (calls & Hcalls & Hprefix).
  assert (w' = w2) as ->.
  { destruct r2 as [t|e]; [|by injection Hrun as <- <-].
    by destruct (Py.startswith t "Error"); injection Hrun as <- <-. }
  rewrite (added_app remote_calls w w2 calls) by (by rewrite Hcalls, Hr1).
  rewrite Hf1 in Hprefix.
  assert (chunk_files w1 w2 = chunk_files w w2) as <-; [|done].
  unfold chunk_files, added. by rewrite Hx1.
Qed.

(** X4. The remote client is called on nothing but the selected file or the
    chunk files of the run: the paths of the calls a run of
    [process_audio] makes, in the order of the calls, are the selected
    path alone, or the beginning of the list of its chunk files in the
    order they were cut.  So no chunk is sent twice, none is sent before
    an earlier one, and none is skipped. *)
Theorem calls_follow_the_chunks self audio_path cb w r w' :
  process_audio self audio_path cb w = (r, w') →
  (added remote_calls w w').*1 `prefix_of` [default "" audio_path] ∨
  (added remote_calls w w').*1 `prefix_of` chunk_files w w'.
Proof. intros [[? _]|?]%process_audio_paths; [by left|by right]. Qed.

(** X5. A file above the size limit is never sent whole: whatever happens
    in the run, every call of the remote client is made on a chunk file
    cut in this run.  The two places of [transcribe_audio] that would
    send the file itself when the split returns no chunks and no error
    are never reached. *)
Theorem large_file_never_sent_whole self p size cb w r w' :
  files w !! p = Some size →
  MAX_FILE_SIZE_BYTES < Z.of_N size →
  process_audio self (Some p) cb w = (r, w') →
  (added remote_calls w w').*1 `prefix_of` chunk_files w w'.
Proof.
  intros Hfile Hlarge [[_ Hwithin]|?]%process_audio_paths; [|done].
  specialize (Hwithin size Hfile). lia.
Qed.

End CallOrder.

Lemma large_file_never_sent_whole_witness :
  (added remote_calls Scenario.desk
     (snd (@process_audio Hosts.posix Scenario.studio Scenario.rejected
             (Some "/in/talk.mp3") true Scenario.desk))).*1
  `prefix_of` chunk_files Scenario.desk
     (snd (@process_audio Hosts.posix Scenario.studio Scenario.rejected
             (Some "/in/talk.mp3") true Scenario.desk)).
Proof.
  apply (@large_file_never_sent_whole Hosts.posix Scenario.studio Scenario.rejected
           "/in/talk.mp3" (50 * Scenario.MB)%N true Scenario.desk
           (fst (@process_audio Hosts.posix Scenario.studio Scenario.rejected
                   (Some "/in/talk.mp3") true Scenario.desk))).
  - vm_compute; reflexivity.
  - vm_compute; reflexivity.
  - apply surjective_pairing.
Defined.

Lemma calls_follow_the_chunks_witness :
  (added remote_calls Scenario.desk
     (snd (@process_audio Hosts.posix Scenario.studio Scenario.lecture
             (Some "/in/talk.mp3") true Scenario.desk))).*1
  `prefix_of` [default "" (Some "/in/talk.mp3")] ∨
  (added remote_calls Scenario.desk
     (snd (@process_audio Hosts.posix Scenario.studio Scenario.lecture
             (Some "/in/talk.mp3") true Scenario.desk))).*1
  `prefix_of` chunk_files Scenario.desk
     (snd (@process_audio Hosts.posix Scenario.studio Scenario.lecture
             (Some "/in/talk.mp3") true Scenario.desk)).
Proof.
  apply (@calls_follow_the_chunks Hosts.posix Scenario.studio Scenario.lecture
           (Some "/in/talk.mp3") true Scenario.desk
           (fst (@process_audio Hosts.posix Scenario.studio Scenario.lecture
                   (Some "/in/talk.mp3") true Scenario.desk))).
  apply surjective_pairing.
Defined.

(** ** The exports of a split *)

Section ExportLog.
Context `{Host} `{Pydub} `{OpenAISdk}.

Lemma export_chunks_log cd d max_size temp_dir indices : ∀ chunk_paths w paths w',
  export_chunks cd d max_size temp_dir indices chunk_paths w = (Ret paths, w') →
  exports w' = exports w ++ mjoin (exports_for_chunk cd d max_size temp_dir <$> indices).
Proof.
  induction indices as [|i indices IH]; intros acc w paths w' Hrun;
    cbn [export_chunks] in Hrun.
  - injection Hrun as <- <-. by rewrite app_nil_r.
  - rewrite fmap_cons. cbn [mjoin list_join]. unfold exports_for_chunk at 1.
    unfold planned_export at 1 2.
    apply bind_run in Hrun as [([] & w1 & Hhigh & Hrun)|(e & _ & [=])].
    unfold export_chunk in Hhigh.
    destruct (export _) as [size|e]; [|discriminate]. injection Hhigh as <-.
    apply bind_run in Hrun as [(chunk_size & w2 & Hsize & Hrun)|(e & _ & [=])].
    erewrite getsize_file in Hsize; [|apply lookup_insert_eq].
    injection Hsize as <- <-.
    apply bind_run in Hrun as [([] & w3 & Hlow & Hrun)|(e & _ & [=])].
    apply IH in Hrun as ->.
    destruct (max_size <? Z.of_N size).
    + apply bind_run in Hlow as [([] & w4 & Hlow & Hrest)|(e & _ & [=])].
      unfold export_chunk in Hlow.
      destruct (export _) as [size'|e]; [|discriminate]. injection Hlow as <-.
      apply bind_run in Hrest as [(? & w5 & Hsize' & Hrest)|(e & _ & [=])].
      injection Hrest as <-.
      match type of Hsize' with getsize ?p ?w0 = _ =>
        pose proof (getsize_same p w0) as Hw5; rewrite Hsize' in Hw5 end.
      cbn [snd] in Hw5. subst w5.
      cbn [exports set_files set_unreadable log_export]. by rewrite <- !app_assoc.
    + injection Hlow as <-. cbn [exports set_files set_unreadable log_export]. by rewrite <- !app_assoc.
Qed.

(** X6. The exports of a split that returns chunks, all of them and in
    order: every chunk of the plan is exported at the high bitrate and,
    exactly when the file that export wrote is larger than the ceiling,
    once more at the low bitrate to the same path.  The size of the
    second file is not looked at: there is no third export. *)
Theorem split_exports_each_chunk audio_path max_size_mb w chunk_paths error w' :
  _split_audio_file audio_path max_size_mb w = (Ret (Some chunk_paths, error), w') →
  ∃ audio file_size cd n,
    from_file audio_path = Ret audio ∧
    fst (getsize audio_path w) = Ret file_size ∧
    chunk_duration_ms file_size (max_size_mb * 1024 * 1024) (Z.of_N audio) = Ret cd ∧
    num_chunks (Z.of_N audio) cd = Ret n ∧
    added exports w w'
    = mjoin (exports_for_chunk cd (Z.of_N audio) (max_size_mb * 1024 * 1024)
               (mkdtemp_name (files w) (dirs w)) <$> range n).
Proof.
  intros Hrun.
  apply split_inv in Hrun as (audio & file_size & cd & n & w0 &
    Hfrom & Hsize & _ & Hcd & Hn & Hc & Hloop).
  exists audio, file_size, cd, n.
  destruct Hc as (Hf & Hd & Hx & _). cbn [files dirs exports log_split] in Hf, Hd, Hx.
  split; [done|]. split; [|split; [done|split; [done|]]].
  - unfold getsize in Hsize |- *. rewrite Hf, Hd.
    by destruct (files w0 !! audio_path), (bool_decide (audio_path ∈ dirs w0));
      injection Hsize as <-.
  - apply export_chunks_log in Hloop. apply added_app. rewrite Hloop.
    cbn [exports set_dirs]. by rewrite <- Hx.
Qed.

End ExportLog.

Lemma split_exports_each_chunk_witness :
  ∃ audio file_size cd n,
    @from_file Dense.pydub "/in/talk.mp3" = Ret audio ∧
    fst (getsize "/in/talk.mp3" Scenario.desk) = Ret file_size ∧
    chunk_duration_ms file_size (CHUNK_SIZE_MB * 1024 * 1024) (Z.of_N audio) = Ret cd ∧
    num_chunks (Z.of_N audio) cd = Ret n ∧
    added exports Scenario.desk
      (snd (@_split_audio_file Hosts.posix Dense.pydub "/in/talk.mp3" CHUNK_SIZE_MB
              Scenario.desk))
    = mjoin (@exports_for_chunk Hosts.posix Dense.pydub cd (Z.of_N audio)
               (CHUNK_SIZE_MB * 1024 * 1024)
               (@mkdtemp_name Hosts.posix (files Scenario.desk) (dirs Scenario.desk))
             <$> range n).
Proof.
  apply (@split_exports_each_chunk Hosts.posix Dense.pydub "/in/talk.mp3" CHUNK_SIZE_MB
           Scenario.desk [Scenario.chunk1; Scenario.chunk2; Scenario.chunk3] None).
  vm_compute; reflexivity.
Defined.

(** ** No exception escapes *)

Section Robustness.
Context `{Host} `{Pydub} `{OpenAISdk}.

(** X7. [_split_audio_file] never lets an exception escape: a failure of the
    media library, of the plan or of an export comes back as the error
    string of the pair. *)
Theorem split_returns_a_pair audio_path max_size_mb w :
  ∃ chunk_paths error,
    fst (_split_audio_file audio_path max_size_mb w) = Ret (chunk_paths, error) ∧
    (chunk_paths = None ∨ error = None).
Proof.
  destruct (_split_audio_file audio_path max_size_mb w) as [r w'] eqn:Hrun.
  unfold _split_audio_file in Hrun.
  apply bind_run in Hrun as [([] & w1 & _ & Hrun)|(e & [=] & _)].
  destruct (negb PYDUB_AVAILABLE).
  { injection Hrun as <- <-. eexists _, _. split; [reflexivity|by left]. }
  apply bind_run in Hrun as [(custom & w2 & _ & Hrun)|(e & [=] & _)].
  apply bind_run in Hrun as [([available ffmpeg_path] & w3 & _ & Hrun)|(e & Hc & _)].
  2:{ pose proof (check_ffmpeg_returns (Some custom) w2) as (? & ? & Hr).
      by rewrite Hc in Hr. }
  destruct (negb available).
  { injection Hrun as <- <-. eexists _, _. split; [reflexivity|by left]. }
  unfold try_except in Hrun.
  match type of Hrun with (let (_, _) := ?body ?v in _) = _ =>
    destruct (body v) as [[[paths error]|e] w4] eqn:Hbody end.
  2:{ injection Hrun as <- <-. eexists _, _. split; [reflexivity|by left]. }
  injection Hrun as <- <-. eexists _, _. split; [reflexivity|].
  repeat (apply bind_run in Hbody as [(? & ? & _ & Hbody)|(? & _ & [=])]).
  case_match.
  { injection Hbody as <- <- <-. by left. }
  repeat (apply bind_run in Hbody as [(? & ? & _ & Hbody)|(? & _ & [=])]).
  injection Hbody as <- <- <-. by right.
Qed.

(** X8. [process_audio] never lets an exception escape: whatever the file
    system, the media library and the remote client do, it returns a
    string. *)
Theorem process_audio_returns_a_string self audio_path cb w :
  ∃ text, fst (process_audio self audio_path cb w) = Ret text.
Proof.
  unfold process_audio. unfold mbind at 1, M_bind at 1, bind at 1.
  rewrite emit_run. destruct (negb (from_option Py.truthy false audio_path)); [eauto|].
  unfold try_except.
  match goal with |- context [let (_, _) := ?body ?v in _] =>
    destruct (body v) as [[a|e] w2] end; eauto.
Qed.

(** X9. Whatever goes wrong in [transcribe_audio_chunk] - the path is no
    regular file, the file cannot be opened, there is no client, the
    client raises - it returns a string that begins with [Error] and,
    unless the client itself was called, leaves the state alone.  The
    client is called exactly when the path is a regular file that can
    be opened and a client is set; the call is then recorded and the
    text returned is the client's, or the categorised message of what
    it raised.  No failure escapes the prefix test of the loop. *)
Theorem transcribe_audio_chunk_reports_errors self audio_path w :
  ∃ text,
    transcribe_audio_chunk self audio_path w
    = (Ret text, snd (transcribe_audio_chunk self audio_path w)) ∧
    match client self with
    | Some create =>
        if isfile audio_path w && negb (bool_decide (audio_path ∈ unreadable w)) then
          snd (transcribe_audio_chunk self audio_path w)
          = log_remote audio_path (create (audio_model self) audio_path) w ∧
          match create (audio_model self) audio_path with
          | Ret answer => text = answer
          | Raise error_msg =>
              text = categorize error_msg ∧ Py.startswith text "Error" = true
          end
        else snd (transcribe_audio_chunk self audio_path w) = w ∧
             Py.startswith text "Error" = true
    | None => snd (transcribe_audio_chunk self audio_path w) = w ∧
              Py.startswith text "Error" = true
    end.
Proof.
  unfold transcribe_audio_chunk, try_except, mbind, M_bind, bind, open_rb,
    create_transcription.
  destruct (isfile audio_path w) eqn:Hf.
  - destruct (bool_decide (audio_path ∈ unreadable w)).
    { destruct (client self); simpl; eexists;
        (split; [reflexivity|]); (split; [done|apply categorize_startswith]). }
    destruct (client self) as [create|].
    + destruct (create (audio_model self) audio_path) as [answer|e]; simpl;
        eexists; (split; [reflexivity|]); repeat split.
      apply categorize_startswith.
    + simpl. eexists. split; [reflexivity|]. split; [done|apply categorize_startswith].
  - destruct (isdir audio_path w), (client self); simpl; eexists;
      (split; [reflexivity|]); (split; [done|apply categorize_startswith]).
Qed.

End Robustness.

(** ** Progress reports *)

Section Progress.
Context `{Host} `{Pydub} `{OpenAISdk}.

(** X10. A file within the size limit, with a progress callback: the run
    reports the opening message, then [Transcribing audio...] at 30 and
    then [Complete!] at 100 - also when the file could not be opened or
    the call of the remote client failed, and the run returns an error
    message. *)
Theorem small_file_always_reports_complete self create p size w :
  Py.truthy p = true →
  files w !! p = Some size →
  Z.of_N size ≤ MAX_FILE_SIZE_BYTES →
  Py.any (Py.endswith (Py.lower p)) SUPPORTED_FORMATS = true →
  client self = Some create →
  progress (snd (process_audio self (Some p) true w))
  = progress w ++ [("Processing file...", 10); (PROGRESS_TRANSCRIBING, 30);
                   (PROGRESS_COMPLETE, 100)].
Proof.
  intros Hp Hfile Hsize Hfmt Hclient.
  assert (files (announced true w) !! p = Some size) as Hfile' by done.
  assert (exists_ p (announced true w) = true) as Hex.
  { unfold exists_. rewrite Hfile'. rewrite bool_decide_eq_true_2 by eauto. done. }
  unfold process_audio, mbind, M_bind, bind, try_except, gets.
  rewrite emit_run. fold (announced true w).
  cbn [from_option default]. unfold id. rewrite Hp. cbn [negb]. cbv beta.
  rewrite Hex. cbn [negb]. rewrite Hfmt. cbn [negb].
  destruct (decide (p ∈ unreadable w)) as [Hdenied|Hopen].
  - rewrite (transcribe_audio_small_denied self p size true _ create Hfile' Hsize Hdenied
               Hclient).
    destruct (Py.startswith _ "Error"); unfold mret, M_ret, ret; cbn [fst snd];
      unfold announced, emitted; cbn [progress log_progress log_remote];
      by rewrite <- !app_assoc.
  - rewrite (transcribe_audio_small self p size true _ create Hfile' Hsize Hopen Hclient).
    destruct (Py.startswith _ "Error"); unfold mret, M_ret, ret; cbn [fst snd];
      unfold announced, emitted; cbn [progress log_progress log_remote];
      by rewrite <- !app_assoc.
Qed.

End Progress.

Lemma small_file_always_reports_complete_witness :
  progress (snd (@process_audio Hosts.posix Scenario.studio Scenario.rejected
                   (Some "/in/memo.wav") true Scenario.guarded))
  = progress Scenario.guarded ++ [("Processing file...", 10); (PROGRESS_TRANSCRIBING, 30);
                                  (PROGRESS_COMPLETE, 100)].
Proof.
  refine (@small_file_always_reports_complete Hosts.posix Scenario.studio
            Scenario.rejected _ "/in/memo.wav" (10 * Scenario.MB)%N Scenario.guarded
            _ _ _ _ _).
  - reflexivity.
  - vm_compute; reflexivity.
  - vm_compute; discriminate.
  - vm_compute; reflexivity.
  - reflexivity.
Defined.

(** ** The API key *)

Section ApiKey.
Context `{Host} `{Pydub} `{OpenAISdk}.

Lemma process_audio_without_client self p cb w :
  client self = None →
  Py.truthy p = true → exists_ p w = true →
  Py.any (Py.endswith (Py.lower p)) SUPPORTED_FORMATS = true →
  process_audio self (Some p) cb w = (Ret NO_API_KEY, announced cb w).
Proof.
  intros Hclient Hp Hexists Hfmt.
  unfold process_audio. erewrite bind_ret; [|apply emit_run]. fold (announced cb w).
  cbn [from_option default]. unfold id. rewrite Hp. cbn [negb].
  unfold try_except. erewrite bind_ret; [|reflexivity].
  destruct (emitted_view cb "Processing file..." 10 w) as (Hfa & Hda & _).
  fold (announced cb w) in Hfa, Hda.
  rewrite (exists_same_view p (announced cb w) w Hfa Hda), Hexists. cbn [negb].
  rewrite Hfmt. cbn [negb].
  unfold transcribe_audio. rewrite Hclient.
  rewrite bool_decide_eq_false_2 by (by intros [? ?]). reflexivity.
Qed.

(** X11. An assistant made without an API key, or whose key was set to
    nothing or to the empty string, has no client; every run on an
    existing file of a supported format then answers with the notice
    that the key is missing, and does nothing else: the size of the
    file is not read, nothing is split or sent. *)
Theorem missing_key_stops_the_run self model api_key p cb w :
  key_given api_key = false →
  Py.truthy p = true → exists_ p w = true →
  Py.any (Py.endswith (Py.lower p)) SUPPORTED_FORMATS = true →
  process_audio (set_api_key self api_key) (Some p) cb w = (Ret NO_API_KEY, announced cb w) ∧
  process_audio (__init__ model api_key) (Some p) cb w = (Ret NO_API_KEY, announced cb w).
Proof.
  intros Hkey Hp Hexists Hfmt.
  split; apply process_audio_without_client; try done;
    unfold set_api_key, __init__; cbn [client]; by rewrite Hkey.
Qed.

End ApiKey.

Lemma missing_key_stops_the_run_witness :
  @process_audio Hosts.posix Scenario.studio
    (@set_api_key Scenario.service Scenario.working (Some "")) (Some "/in/talk.mp3") true
    Scenario.desk
  = (Ret NO_API_KEY, announced true Scenario.desk).
Proof.
  refine (proj1 (@missing_key_stops_the_run Hosts.posix Scenario.studio Scenario.service
                   Scenario.working AUDIO_MODEL (Some "") "/in/talk.mp3" true Scenario.desk
                   _ _ _ _)).
  - reflexivity.
  - reflexivity.
  - vm_compute; reflexivity.
  - vm_compute; reflexivity.
Defined.

(** ** The format test *)

(** X12. The format test of [process_audio] does not look at the case of the
    (ASCII) letters: a name that ends with a supported extension written
    in any mix of upper and lower case passes it. *)
Theorem extension_case_ignored stem extension :
  Py.lower extension ∈ SUPPORTED_FORMATS →
  Py.any (Py.endswith (Py.lower (stem +:+ extension))) SUPPORTED_FORMATS = true.
Proof.
  intros Hext. unfold Py.any. apply existsb_exists. exists (Py.lower extension).
  split; [by apply list_elem_of_In|]. rewrite lower_append. apply endswith_append.
Qed.

Lemma extension_case_ignored_witness :
  Py.any (Py.endswith (Py.lower ("/in/Talk" +:+ ".Mp3"))) SUPPORTED_FORMATS = true.
Proof.
  apply (extension_case_ignored "/in/Talk" ".Mp3").
  apply list_elem_of_In. vm_compute. tauto.
Defined.

(** ** The split plan *)

(** X13. Every chunk of the plan but the last lasts exactly
    [chunk_duration_ms]; the last one ends at [duration_ms] and lasts at
    most [chunk_duration_ms] (and is not empty). *)
Theorem chunks_last_chunk_duration d cd n i :
  0 < d → 0 < cd → num_chunks d cd = Ret n → Z.of_nat i < n →
  (Z.of_nat i + 1 < n → end_ms cd d i - start_ms cd i = cd) ∧
  (Z.of_nat i + 1 = n → end_ms cd d i = d ∧ 0 < d - start_ms cd i ≤ cd).
Proof.
  intros Hd Hcd Hn Hi.
  destruct (num_chunks_ceil d cd n Hd Hcd Hn) as [Hceil _].
  unfold is_ceil_div in Hceil. unfold end_ms, start_ms. split; intros Hlast.
  - assert ((Z.of_nat i + 1) * cd ≤ (n - 1) * cd) by nia. lia.
  - subst n. split; [lia|]. nia.
Qed.

Lemma chunks_last_chunk_duration_witness :
  end_ms 216000 600000 1 - start_ms 216000 1 = 216000 ∧
  end_ms 216000 600000 2 = 600000.
Proof.
  split.
  - apply (proj1 (chunks_last_chunk_duration 600000 216000 3 1
                    ltac:(lia) ltac:(lia) eq_refl ltac:(lia))). lia.
  - apply (proj2 (chunks_last_chunk_duration 600000 216000 3 2
                    ltac:(lia) ltac:(lia) eq_refl ltac:(lia))). lia.
Defined.

(** X14. From a duration of 2 ms on, the guard of line 123 does its work:
    whatever the sizes, the chunk duration the plan arrives at is
    positive, so the division of line 133 does not raise and gives at
    least one chunk. *)
Theorem plan_divides_from_two_ms file_size max_size d cd :
  2 ≤ d → chunk_duration_ms file_size max_size d = Ret cd →
  0 < cd ∧ ∃ n, num_chunks d cd = Ret n ∧ 0 < n.
Proof.
  intros Hd Hcd.
  assert (0 < cd) as Hpos.
  { unfold chunk_duration_ms, fallback_chunk_duration_ms in Hcd.
    destruct (target_chunk_duration_ms _ _ _) as [t|]; [|discriminate].
    injection Hcd as <-. destruct (Z.leb_spec t 0); [|lia].
    apply Z.div_str_pos. lia. }
  split; [exact Hpos|].
  destruct (num_chunks d cd) as [n|e] eqn:Hn.
  - exists n. split; [done|]. apply (num_chunks_ceil d cd n); [lia|done|done].
  - unfold num_chunks in Hn. destruct (Z.eqb_spec cd 0); [lia|discriminate].
Qed.

Lemma plan_divides_from_two_ms_witness :
  0 < 216000 ∧ ∃ n, num_chunks 600000 216000 = Ret n ∧ 0 < n.
Proof.
  apply (plan_divides_from_two_ms (50 * 1024 * 1024) (20 * 1024 * 1024) 600000 216000).
  - lia.
  - vm_compute; reflexivity.
Defined.

(** X15. When the computed chunk duration is not positive - the bytes of one
    millisecond exceed nine tenths of the ceiling - the plan falls back
    to half the duration, rounded down.  For an even duration that gives
    2 chunks; for an odd one (from 3 ms on) it gives 3, the last of one
    millisecond. *)
Theorem halved_plan file_size max_size d t :
  target_chunk_duration_ms max_size (bytes_per_ms file_size d) d = Ret t →
  t ≤ 0 → 2 ≤ d →
  chunk_duration_ms file_size max_size d = Ret (d / 2) ∧
  num_chunks d (d / 2) = Ret (if Z.even d then 2 else 3).
Proof.
  intros Ht Hneg Hd. unfold chunk_duration_ms, fallback_chunk_duration_ms. rewrite Ht.
  destruct (Z.leb_spec t 0); [|lia]. split; [reflexivity|].
  unfold num_chunks.
  assert (0 < d / 2) as Hhalf by (apply Z.div_str_pos; lia).
  destruct (Z.eqb_spec (d / 2) 0); [lia|]. f_equal.
  destruct (Z.even d) eqn:He.
  - apply Z.even_spec in He as [k ->].
    assert (2 * k / 2 = k) as Hk by (symmetry; apply (Z.div_unique _ _ _ 0); lia).
    rewrite Hk in *.
    assert (2 * k / k = 2) as -> by (symmetry; apply (Z.div_unique _ _ _ 0); lia).
    assert ((2 * k) mod k = 0) as -> by (symmetry; apply (Z.mod_unique _ _ 2); lia).
    reflexivity.
  - assert (Z.odd d = true) as Ho by (rewrite <- Z.negb_even, He; reflexivity).
    apply Z.odd_spec in Ho as [k ->].
    assert ((2 * k + 1) / 2 = k) as Hk by (symmetry; apply (Z.div_unique _ _ _ 1); lia).
    rewrite Hk in *.
    destruct (Z.eq_dec k 1) as [->|Hk1]; [reflexivity|].
    assert ((2 * k + 1) / k = 2) as -> by (symmetry; apply (Z.div_unique _ _ _ 1); lia).
    assert ((2 * k + 1) mod k = 1) as -> by (symmetry; apply (Z.mod_unique _ _ 2); lia).
    reflexivity.
Qed.

Lemma halved_plan_witness :
  chunk_duration_ms (60 * 1024 * 1024) (20 * 1024 * 1024) 3 = Ret (3 / 2) ∧
  num_chunks 3 (3 / 2) = Ret (if Z.even 3 then 2 else 3).
Proof.
  apply (halved_plan (60 * 1024 * 1024) (20 * 1024 * 1024) 3 0).
  - vm_compute; reflexivity.
  - lia.
  - lia.
Defined.

(** ** The media tool and pydub *)

Section LocatorBehaviour.
Context `{Host}.


Lemma hinted_step custom_path v :
  hinted custom_path (snd (check_ffmpeg custom_path v)) = hinted custom_path v.
Proof.
  rewrite check_ffmpeg_stages.
  destruct (hinted custom_path v) as [[d p]|] eqn:Hv.
  - cbn [snd]. by rewrite hinted_prepend.
  - destruct (searched v); [exact Hv|].
    destruct (bundled v) as [[d p]|]; [cbn [snd]; by rewrite hinted_prepend|].
    by destruct (ffmpeg_runs _ _ _).
Qed.

Lemma hinted_iter custom_path w n :
  hinted custom_path (Nat.iter n (λ v, snd (check_ffmpeg custom_path v)) w)
  = hinted custom_path w.
Proof.
  induction n as [|n IH]; [done|]. rewrite Nat.iter_succ. by rewrite hinted_step.
Qed.

(** X17. A hint that resolves is put on [PATH] again by every call: after
    [n] calls of [check_ffmpeg] with it, [PATH] is the old value with the
    hint's directory and the separator in front [n] times.  There is no
    test for the directory being on [PATH] already. *)
Theorem check_ffmpeg_hint_grows_PATH custom_path w d p n :
  hinted custom_path w = Some (d, p) →
  get_PATH (Nat.iter n (λ v, snd (check_ffmpeg custom_path v)) w)
  = Nat.iter n (λ PATH, d +:+ pathsep +:+ PATH) (get_PATH w).
Proof.
  intros Hhint. induction n as [|n IH]; [done|]. rewrite !Nat.iter_succ.
  rewrite <- IH. rewrite check_ffmpeg_stages, hinted_iter, Hhint. cbn [snd].
  unfold prepend_PATH, get_PATH at 1. cbn [environ set_environ].
  by rewrite lookup_insert_eq.
Qed.

Lemma contains_here a b : Py.contains a (a +:+ b) = true.
Proof.
  assert (String.prefix a (a +:+ b) = true) as Hp.
  { induction a as [|c a IH]; [by destruct b|].
    change (String.prefix (String c a) (String c (a +:+ b)) = true).
    cbn [String.prefix]. destruct (Ascii.ascii_dec c c); done. }
  destruct a; [by destruct b|].
  change (Py.contains (String a a0) (String a (a0 +:+ b)) = true).
  change (String.prefix (String a a0) (String a (a0 +:+ b)) = true) in Hp.
  cbn [Py.contains]. by rewrite Hp.
Qed.

Lemma configure_pydub_again available ffmpeg_path w r w1 :
  configure_pydub available ffmpeg_path w = (r, w1) →
  configure_pydub available ffmpeg_path w1 = (Ret tt, w1).
Proof.
  destruct w as [fs ds locked kept_back env cv fp ff ex rc pr sc].
  unfold configure_pydub.
  destruct (negb available); [by intros [= <- <-]|].
  destruct ffmpeg_path as [ffmpeg_path|]; [|by intros [= <- <-]].
  destruct (negb (Py.truthy ffmpeg_path)); [by intros [= <- <-]|].
  destruct (bool_decide (ffmpeg_path = "ffmpeg")); [by intros [= <- <-]|].
  unfold exists_, isfile, isdir, get_PATH, set_ffprobe, set_ffmpeg, set_converter, set_environ.
  cbn [files dirs unreadable undeletable environ converter ffprobe ffmpeg exports
         remote_calls progress split_calls].
  set (exe := normpath (abspath _)).
  destruct ((bool_decide (is_Some (fs !! exe)) || bool_decide (exe ∈ ds))
            && bool_decide (is_Some (fs !! exe))) eqn:Hexe.
  2:{ intros [= <- <-]. cbn [files dirs]. fold exe. by rewrite Hexe. }
  set (current_path := default "" (env !! "PATH")).
  destruct (negb (Py.contains (dirname exe) current_path)) eqn:Hin;
    cbn [files dirs unreadable undeletable environ converter ffprobe ffmpeg exports
         remote_calls progress split_calls];
    destruct (bool_decide (is_Some (fs !! joinpath (dirname exe) "ffprobe.exe"))
              || bool_decide (joinpath (dirname exe) "ffprobe.exe" ∈ ds)) eqn:Hprobe;
    intros [= <- <-];
    cbn [files dirs unreadable undeletable environ converter ffprobe ffmpeg exports
         remote_calls progress split_calls];
    fold exe; fold current_path;
    rewrite Hexe, ?lookup_insert_eq; cbn [default from_option]; unfold id;
    rewrite ?contains_here, ?Hin; cbn [negb];
    cbn [files dirs unreadable undeletable environ converter ffprobe ffmpeg exports
         remote_calls progress split_calls];
    rewrite Hprobe; reflexivity.
Qed.

(** X18. [configure_pydub] is idempotent: a second call with the same
    argument changes nothing.  It puts the tool's directory on [PATH]
    only when [PATH] does not contain it yet, so [PATH] does not grow,
    and it assigns the same three attributes again. *)
Theorem configure_pydub_idempotent available ffmpeg_path w :
  snd (configure_pydub available ffmpeg_path
         (snd (configure_pydub available ffmpeg_path w)))
  = snd (configure_pydub available ffmpeg_path w).
Proof.
  destruct (configure_pydub available ffmpeg_path w) as [r w1] eqn:Hrun.
  cbn [snd]. by rewrite (configure_pydub_again _ _ _ _ _ Hrun).
Qed.

End LocatorBehaviour.

Lemma check_ffmpeg_hint_grows_PATH_witness :
  get_PATH (Nat.iter 2 (λ v, snd (@check_ffmpeg Hosts.posix (Some "/usr/bin/ffmpeg") v))
              Scenario.desk)
  = Nat.iter 2 (λ PATH, "/usr/bin" +:+ @pathsep Hosts.posix +:+ PATH) (get_PATH Scenario.desk).
Proof.
  apply (@check_ffmpeg_hint_grows_PATH Hosts.posix (Some "/usr/bin/ffmpeg") Scenario.desk
           "/usr/bin" "/usr/bin/ffmpeg" 2).
  vm_compute; reflexivity.
Defined.

Section ConverterShape.
Context `{Host}.

Lemma contains_char_cons a c s :
  Py.contains (String a "") (String c s)
  = bool_decide (a = c) || Py.contains (String a "") s.
Proof.
  cbn [Py.contains String.prefix].
  destruct (Ascii.ascii_dec a c) as [->|Hne].
  - rewrite bool_decide_eq_true_2 by done. by destruct s.
  - by rewrite bool_decide_eq_false_2.
Qed.

Lemma contains_char_nil a : Py.contains (String a "") "" = false.
Proof. reflexivity. Qed.

Lemma contains_char_append a s t :
  Py.contains (String a "") (s +:+ t)
  = Py.contains (String a "") s || Py.contains (String a "") t.
Proof.
  induction s as [|c s IH]; [done|].
  change (String c s +:+ t) with (String c (s +:+ t)).
  rewrite !contains_char_cons, IH. by rewrite orb_assoc.
Qed.

Lemma replace_removes a b s :
  a ≠ b → Py.contains (String a "") (Py.replace a b s) = false.
Proof.
  intros Hne. induction s as [|c s IH]; [done|].
  cbn [Py.replace]. rewrite contains_char_cons, IH, orb_false_r.
  apply bool_decide_eq_false_2. destruct (decide (c = a)); congruence.
Qed.

Lemma substring_keeps_out a s : ∀ m,
  Py.contains (String a "") s = false →
  Py.contains (String a "") (String.substring 0 m s) = false.
Proof.
  induction s as [|c s IH]; intros [|m] Hs; try done.
  cbn [String.substring]. rewrite contains_char_cons in Hs |- *.
  apply orb_false_iff in Hs as [-> Hs]. by rewrite IH.
Qed.

Lemma fix_case_keeps_out a s :
  Py.contains (String a "") ".exe" = false →
  Py.contains (String a "") s = false →
  Py.contains (String a "") (fix_case s) = false.
Proof.
  intros Ha Hs. unfold fix_case, Py.drop_last. destruct (Py.endswith s ".EXE"); [|done].
  by rewrite contains_char_append, substring_keeps_out, Ha.
Qed.

Lemma fix_case_lower s : Py.endswith (fix_case s) ".EXE" = false.
Proof.
  unfold fix_case. destruct (Py.endswith s ".EXE") eqn:Hs; [|done].
  unfold Py.endswith. rewrite rev_append. generalize (String.rev (Py.drop_last 4 s)).
  intros t. reflexivity.
Qed.

(** X19. What [configure_pydub] hands to pydub: when it assigns the three
    attributes of [AudioSegment], [converter] and [ffmpeg] are the same
    path, and neither they nor [ffprobe] contain a backslash or end in
    an upper-case [.EXE]; otherwise it leaves the three attributes as
    they were. *)
Theorem configure_pydub_converter_shape available ffmpeg_path w :
  let w' := snd (configure_pydub available ffmpeg_path w) in
  (converter w' = converter w ∧ ffmpeg w' = ffmpeg w ∧ ffprobe w' = ffprobe w) ∨
  (ffmpeg w' = converter w' ∧
   Py.contains "\" (converter w') = false ∧ Py.endswith (converter w') ".EXE" = false ∧
   Py.contains "\" (ffprobe w') = false ∧ Py.endswith (ffprobe w') ".EXE" = false).
Proof.
  assert (∀ s, Py.contains "\" (fix_case (forward_slashes s)) = false) as Hslash.
  { intros s. apply fix_case_keeps_out; [done|]. by apply replace_removes. }
  unfold configure_pydub.
  destruct (negb available); [by left|].
  destruct ffmpeg_path as [ffmpeg_path|]; [|by left].
  destruct (negb (Py.truthy ffmpeg_path)); [by left|].
  destruct (bool_decide (ffmpeg_path = "ffmpeg")); [by left|].
  cbv zeta.
  match goal with |- context [if ?c then _ else (Ret (), w)] => destruct c end; [|by left].
  right.
  match goal with |- context [if exists_ ?p ?v then _ else _] => destruct (exists_ p v) end;
    cbn [snd converter ffmpeg ffprobe set_ffprobe set_ffmpeg set_converter];
    repeat split; try apply Hslash; try apply fix_case_lower.
Qed.

End ConverterShape.


(** ** The file [.env] *)

Section EnvFileFacts.
Import EnvFile.

Lemma lstrip_append a b :
  Py.lstrip (a +:+ b)
  = if bool_decide (Py.lstrip a = "") then Py.lstrip b else Py.lstrip a +:+ b.
Proof.
  induction a as [|c a IH]; [done|].
  change (String c a +:+ b) with (String c (a +:+ b)). cbn [Py.lstrip].
  destruct (Ascii.is_space c); [exact IH|done].
Qed.

Lemma lstrip_idemp s : Py.lstrip (Py.lstrip s) = Py.lstrip s.
Proof.
  induction s as [|c s IH]; [done|]. cbn [Py.lstrip].
  destruct (Ascii.is_space c) eqn:Hc; [exact IH|]. cbn [Py.lstrip]. by rewrite Hc.
Qed.

Lemma rev_nil_iff s : String.rev s = "" ↔ s = "".
Proof.
  split; [|by intros ->]. intros Hs. rewrite <- (rev_involutive s), Hs. reflexivity.
Qed.

(** [s.rstrip()], as [strip] computes it *)
Lemma rstrip_cons c s :
  String.rev (Py.lstrip (String.rev (String c s)))
  = if bool_decide (String.rev (Py.lstrip (String.rev s)) = "")
    then (if Ascii.is_space c then "" else String c "")
    else String c (String.rev (Py.lstrip (String.rev s))).
Proof.
  change (String c s) with (String c "" +:+ s). rewrite rev_append, lstrip_append.
  change (String.rev (String c "")) with (String c "").
  destruct (decide (Py.lstrip (String.rev s) = "")) as [Hs|Hs].
  - rewrite !bool_decide_eq_true_2; [|by rewrite Hs|done].
    cbn [Py.lstrip]. by destruct (Ascii.is_space c).
  - rewrite !bool_decide_eq_false_2; [|by rewrite rev_nil_iff|done].
    rewrite rev_append. reflexivity.
Qed.

Lemma lstrip_rstrip s :
  Py.lstrip (String.rev (Py.lstrip (String.rev s)))
  = String.rev (Py.lstrip (String.rev (Py.lstrip s))).
Proof.
  induction s as [|c s IH]; [done|]. rewrite rstrip_cons. cbn [Py.lstrip].
  destruct (Ascii.is_space c) eqn:Hc.
  - rewrite <- IH. case_bool_decide as Hs; [by rewrite Hs|].
    cbn [Py.lstrip]. by rewrite Hc.
  - rewrite rstrip_cons, Hc. case_bool_decide; cbn [Py.lstrip]; by rewrite Hc.
Qed.

Lemma strip_rstrip s :
  Py.strip (String.rev (Py.lstrip (String.rev s))) = Py.strip s.
Proof.
  unfold Py.strip. rewrite (lstrip_rstrip s), rev_involutive, lstrip_idemp. reflexivity.
Qed.

Lemma strip_assignment value :
  Py.strip ("OPENAI_API_KEY=" +:+ value)
  = "OPENAI_API_KEY=" +:+ String.rev (Py.lstrip (String.rev value)).
Proof.
  unfold Py.strip.
  assert (Py.lstrip ("OPENAI_API_KEY=" +:+ value) = "OPENAI_API_KEY=" +:+ value) as ->
    by reflexivity.
  rewrite rev_append, lstrip_append.
  assert (Py.lstrip (String.rev "OPENAI_API_KEY=") = String.rev "OPENAI_API_KEY=") as ->
    by reflexivity.
  case_bool_decide as Hv.
  - by rewrite Hv, rev_involutive.
  - by rewrite rev_append, rev_involutive.
Qed.

Lemma read_assignment env_vars value :
  read_line env_vars ("OPENAI_API_KEY=" +:+ value)
  = <["OPENAI_API_KEY" := Py.strip value]> env_vars.
Proof.
  unfold read_line. rewrite strip_assignment, <- (strip_rstrip value).
  generalize (String.rev (Py.lstrip (String.rev value))). intros v.
  change ("OPENAI_API_KEY=" +:+ v) with ("OPENAI_API_KEY" +:+ String "=" v).
  assert (Py.contains "=" ("OPENAI_API_KEY" +:+ String "=" v) = true) as ->
    by (destruct v; vm_compute; reflexivity).
  assert (split_once ("OPENAI_API_KEY" +:+ String "=" v) = ("OPENAI_API_KEY", v)) as ->
    by (vm_compute; reflexivity).
  reflexivity.
Qed.

Lemma rev_cons_append c cur s :
  String.rev (String c cur) +:+ s = String.rev cur +:+ String c s.
Proof.
  change (String c cur) with (String c "" +:+ cur). by rewrite rev_append, append_assoc.
Qed.

Lemma lines_go_single_line s : ∀ cur,
  single_line s = true → lines_go cur (s +:+ nl) = [String.rev cur +:+ s].
Proof.
  induction s as [|c s IH]; intros cur Hs.
  - change ("" +:+ nl) with nl. unfold nl. cbn. by rewrite append_nil_r.
  - cbn [single_line] in Hs. apply andb_true_iff in Hs as [Hc Hs].
    apply negb_true_iff in Hc.
    change (String c s +:+ nl) with (String c (s +:+ nl)). cbn [lines_go]. rewrite Hc.
    by rewrite (IH _ Hs), rev_cons_append.
Qed.


Lemma read_line_empty env_vars : read_line env_vars "" = env_vars.
Proof. reflexivity. Qed.

Lemma read_written value :
  single_line value = true →
  read_env_file (Some ("OPENAI_API_KEY=" +:+ value +:+ nl))
  = {[ "OPENAI_API_KEY" := Py.strip value ]}.
Proof.
  intros Hv. unfold read_env_file, lines.
  rewrite <- append_assoc, lines_go_single_line by exact Hv.
  change (String.rev "" +:+ ("OPENAI_API_KEY=" +:+ value)) with ("OPENAI_API_KEY=" +:+ value).
  cbn [foldl]. by rewrite read_assignment.
Qed.


(** X21. Saving an API key from the settings reads the file, sets the key
    and writes the file: afterwards the file holds the key and nothing
    else.  Every other variable the file defined before is lost. *)
Theorem save_keeps_only_the_key env api_key :
  single_line api_key = true →
  read_env_file (Some (save_env env api_key)) = {[ "OPENAI_API_KEY" := Py.strip api_key ]}.
Proof.
  intros Hkey. unfold save_env, write_env_file. rewrite lookup_insert_eq.
  by apply read_written.
Qed.



End EnvFileFacts.




Lemma save_keeps_only_the_key_witness :
  EnvFile.read_env_file
    (Some (EnvFile.save_env
             (Some ("FFMPEG_PATH=C:/ffmpeg" +:+ nl +:+ "OPENAI_API_KEY=sk-old" +:+ nl))
             "sk-new"))
  = {[ "OPENAI_API_KEY" := Py.strip "sk-new" ]}.
Proof.
  apply (save_keeps_only_the_key
           (Some ("FFMPEG_PATH=C:/ffmpeg" +:+ nl +:+ "OPENAI_API_KEY=sk-old" +:+ nl)) "sk-new").
  reflexivity.
Defined.

